(** * Publish engines of cryptoMarketAIAnalyzer

    A shallow embedding of [src/services/BinancePublisher.py] and
    [src/services/WXPublisher.py]: the content normaliser shared by both
    publishers, the login verification and the publish attempt of the
    browser engine, and the token, draft, publish and status operations of
    the API engine.

    Conventions.
    - A Python [str] that is inspected character by character is a list of
      code points ([text]); a [bytes] object is a list of [Byte.byte].
    - Keys, URLs, selectors and messages are [string]s (their UTF-8 bytes).
    - A call that may raise returns a [res]; code that also reads or changes
      the publisher object or the outside world runs in the monad [M].
    - Logging has no influence on any result and is left out. *)

From Stdlib Require Import ZArith Lia Bool Ascii String.
From stdpp Require Import base option list strings gmap pretty.

Open Scope Z_scope.

(* ===================================================================== *)
(** * Part I: definitions                                                 *)
(* ===================================================================== *)

(** ** Python values and control flow *)
Module Py.

(** Outcome of a call: a value or a raised exception. *)
Inductive res (E A : Type) : Type :=
| Ok (a : A)
| Raise (e : E).
Arguments Ok {E A} a.
Arguments Raise {E A} e.

Definition res_bind {E A B} (r : res E A) (k : A -> res E B) : res E B :=
  match r with
  | Ok a => k a
  | Raise e => Raise e
  end.

Definition is_ok {E A} (r : res E A) : bool :=
  match r with Ok _ => true | Raise _ => false end.

(** State and exception monad: [S] is everything the code can read or
    change, [E] the exceptions it can see. *)
Definition M (S E A : Type) : Type := S -> res E A * S.

Definition ret {S E A} (a : A) : M S E A := fun s => (Ok a, s).

Definition bind {S E A B} (m : M S E A) (k : A -> M S E B) : M S E B :=
  fun s => match m s with
           | (Ok a, s') => k a s'
           | (Raise e, s') => (Raise e, s')
           end.

Definition throw {S E A} (e : E) : M S E A := fun s => (Raise e, s).

Definition gets {S E A} (f : S -> A) : M S E A := fun s => (Ok (f s), s).

Definition modify {S E} (f : S -> S) : M S E unit := fun s => (Ok tt, f s).

Definition lift {S E A} (r : res E A) : M S E A := fun s => (r, s).

(** [try: m except e: h e] *)
Definition try_except {S E A} (m : M S E A) (h : E -> M S E A) : M S E A :=
  fun s => match m s with
           | (Ok a, s') => (Ok a, s')
           | (Raise e, s') => h e s'
           end.

(** [try: m finally: f]: [f] runs on every exit of [m]; an exception of
    [f] replaces the outcome of [m]. *)
Definition try_finally {S E A} (m : M S E A) (f : M S E unit) : M S E A :=
  fun s => match m s with
           | (r, s') => match f s' with
                        | (Ok _, s'') => (r, s'')
                        | (Raise e, s'') => (Raise e, s'')
                        end
           end.

(** A [str] as its sequence of code points. *)
Definition text : Type := list Z.

(** The text of an ASCII literal. *)
Definition txt (s : string) : text :=
  map (fun a => Z.of_nat (Ascii.nat_of_ascii a)) (String.list_ascii_of_string s).

Definition byte_val (b : Byte.byte) : Z := Z.of_N (Byte.to_N b).

(** The values [_preprocess_content] and [_preprocess_article] are given. *)
Inductive pyval : Type :=
| PyNone
| PyStr (s : text)
| PyBytes (b : list Byte.byte).

(** [bool(v)] *)
Definition truthy (v : pyval) : bool :=
  match v with
  | PyNone => false
  | PyStr s => negb (bool_decide (s = []))
  | PyBytes b => negb (bool_decide (b = []))
  end.

Definition isinstance_str (v : pyval) : bool :=
  match v with PyStr _ => true | _ => false end.

Definition hexdigit (n : Z) : Z := if n <? 10 then 48 + n else 87 + n.

(** One byte inside [repr(b)], for the chosen quote character. *)
Definition repr_byte (quote c : Z) : text :=
  if (c =? quote) || (c =? 92) then [92; c]
  else if c =? 9 then [92; 116]
  else if c =? 10 then [92; 110]
  else if c =? 13 then [92; 114]
  else if (c <? 32) || (127 <=? c)
       then [92; 120; hexdigit (Z.shiftr (Z.land c 240) 4); hexdigit (Z.land c 15)]
  else [c].

(** [repr(b)] of a bytes object: [b'...'], or [b"..."] when the bytes
    hold a single quote and no double quote. *)
Definition bytes_repr (b : list Byte.byte) : text :=
  let cs := map byte_val b in
  let quote := if bool_decide (39 ∈ cs) && negb (bool_decide (34 ∈ cs))
               then 34 else 39 in
  [98; quote] ++ concat (map (repr_byte quote) cs) ++ [quote].

(** [str(v)] *)
Definition py_str (v : pyval) : text :=
  match v with
  | PyNone => txt "None"
  | PyStr s => s
  | PyBytes b => bytes_repr b
  end.

(** A scalar JSON value as [json.loads] returns it.  Numbers with a
    fraction and nested arrays or objects do not occur in the fields the
    code reads and are not modelled. *)
Inductive json : Type :=
| JNull
| JBool (b : bool)
| JInt (z : Z)
| JStr (s : string).

Global Instance json_eq_dec : EqDecision json.
Proof. solve_decision. Defined.

(** [str(v)], as an f-string renders a value. *)
Definition json_str (v : json) : string :=
  match v with
  | JNull => "None"
  | JBool true => "True"
  | JBool false => "False"
  | JInt z => pretty z
  | JStr s => s
  end.

(** The integer a value compares equal to, if any: [True == 1] and
    [False == 0] in Python. *)
Definition json_int (v : json) : option Z :=
  match v with
  | JInt z => Some z
  | JBool b => Some (if b then 1 else 0)
  | _ => None
  end.

(** [v == n] and [v != n] for an integer literal [n]. *)
Definition json_eq_int (v : json) (n : Z) : bool := bool_decide (json_int v = Some n).
Definition json_ne_int (v : json) (n : Z) : bool := negb (json_eq_int v n).

(** Exceptions.  [Exception] is what the code raises itself and any foreign
    exception that is only seen through its class [Exception] and [str(e)];
    the other constructors are the classes the code or the interpreter
    tells apart. *)
Inductive exn : Type :=
| Exception (msg : string)
| PlaywrightTimeoutError (msg : string)
| TypeError (msg : string)
| KeyError (key : string)
| AttributeError (msg : string)
| OverflowError (msg : string)
| ValueError (msg : string)
| UnicodeEncodeError (msg : string).

(** [str(e)] *)
Definition exn_str (e : exn) : string :=
  match e with
  | Exception m | PlaywrightTimeoutError m | TypeError m
  | AttributeError m | OverflowError m | ValueError m
  | UnicodeEncodeError m => m
  | KeyError k => "'" +:+ k +:+ "'"
  end.

(** A value put into the body of a request. *)
Inductive field : Type :=
| FText (t : text)
| FStr (s : string)
| FJson (v : json)
| FInt (n : Z).

(** The parts of Python's standard library that are tables, printers or
    settings rather than code of the publishers: the named character
    references [html.entities.html5], the byte codecs behind
    [bytes.decode(encoding)] ([None]: UnicodeDecodeError), [json.dumps] of
    a response, [sys.get_int_max_str_digits()] (4300 unless the interpreter
    is set otherwise, 0 for no limit; the interpreter accepts no other
    value below 640), and
    [json.dumps(body, ensure_ascii=False).encode('utf-8')] of a request
    body given by its items, which raises UnicodeEncodeError on a lone
    surrogate. *)
Record pylib : Type := {
  html5 : text -> option text;
  decode : string -> list Byte.byte -> option text;
  json_dumps : gmap string json -> string;
  int_max_str_digits : nat;
  dumps_utf8 : list (string * field) -> res exn (list Byte.byte)
}.

End Py.
Import Py.

Declare Scope py_scope.
Delimit Scope py_scope with py.
Notation "x <- m ;; k" := (Py.bind m (fun x => k))
  (at level 100, m at next level, right associativity) : py_scope.
Notation "m ;; k" := (Py.bind m (fun _ => k))
  (at level 100, right associativity) : py_scope.
Open Scope py_scope.

(** ** [html.unescape] of Python's standard library

    Transcribed from [Lib/html/__init__.py].  The substitution
    [_charref.sub(_replace_charref, s)] scans [s] from left to right for
    [&(#[0-9]+;?|#[xX][0-9a-fA-F]+;?|[^\t\n\f <&#;]{1,32};?)]; the scan is
    written as a machine that reads one character at a time.  [int] in
    base 10 raises ValueError on more digits than the interpreter allows;
    the substitution then stops at the first such reference. *)
Module Html.

Definition invalid_charrefs (num : Z) : option text :=
  match num with
  | 0x00 => Some [0xfffd] | 0x0d => Some [0x0d] | 0x80 => Some [0x20ac]
  | 0x81 => Some [0x81] | 0x82 => Some [0x201a] | 0x83 => Some [0x0192]
  | 0x84 => Some [0x201e] | 0x85 => Some [0x2026] | 0x86 => Some [0x2020]
  | 0x87 => Some [0x2021] | 0x88 => Some [0x02c6] | 0x89 => Some [0x2030]
  | 0x8a => Some [0x0160] | 0x8b => Some [0x2039] | 0x8c => Some [0x0152]
  | 0x8d => Some [0x8d] | 0x8e => Some [0x017d] | 0x8f => Some [0x8f]
  | 0x90 => Some [0x90] | 0x91 => Some [0x2018] | 0x92 => Some [0x2019]
  | 0x93 => Some [0x201c] | 0x94 => Some [0x201d] | 0x95 => Some [0x2022]
  | 0x96 => Some [0x2013] | 0x97 => Some [0x2014] | 0x98 => Some [0x02dc]
  | 0x99 => Some [0x2122] | 0x9a => Some [0x0161] | 0x9b => Some [0x203a]
  | 0x9c => Some [0x0153] | 0x9d => Some [0x9d] | 0x9e => Some [0x017e]
  | 0x9f => Some [0x0178]
  | _ => None
  end.

Definition invalid_codepoints : list Z :=
  [ 0x1; 0x2; 0x3; 0x4; 0x5; 0x6; 0x7; 0x8;
    0xe; 0xf; 0x10; 0x11; 0x12; 0x13; 0x14; 0x15; 0x16; 0x17; 0x18; 0x19;
    0x1a; 0x1b; 0x1c; 0x1d; 0x1e; 0x1f;
    0x7f; 0x80; 0x81; 0x82; 0x83; 0x84; 0x85; 0x86; 0x87; 0x88; 0x89; 0x8a;
    0x8b; 0x8c; 0x8d; 0x8e; 0x8f; 0x90; 0x91; 0x92; 0x93; 0x94; 0x95; 0x96;
    0x97; 0x98; 0x99; 0x9a; 0x9b; 0x9c; 0x9d; 0x9e; 0x9f;
    0xfdd0; 0xfdd1; 0xfdd2; 0xfdd3; 0xfdd4; 0xfdd5; 0xfdd6; 0xfdd7; 0xfdd8;
    0xfdd9; 0xfdda; 0xfddb; 0xfddc; 0xfddd; 0xfdde; 0xfddf; 0xfde0; 0xfde1;
    0xfde2; 0xfde3; 0xfde4; 0xfde5; 0xfde6; 0xfde7; 0xfde8; 0xfde9; 0xfdea;
    0xfdeb; 0xfdec; 0xfded; 0xfdee; 0xfdef;
    0xb; 0xfffe; 0xffff; 0x1fffe; 0x1ffff; 0x2fffe; 0x2ffff; 0x3fffe; 0x3ffff;
    0x4fffe; 0x4ffff; 0x5fffe; 0x5ffff; 0x6fffe; 0x6ffff; 0x7fffe; 0x7ffff;
    0x8fffe; 0x8ffff; 0x9fffe; 0x9ffff; 0xafffe; 0xaffff; 0xbfffe; 0xbffff;
    0xcfffe; 0xcffff; 0xdfffe; 0xdffff; 0xefffe; 0xeffff; 0xffffe; 0xfffff;
    0x10fffe; 0x10ffff ].

Definition amp : Z := 38.
Definition hash : Z := 35.
Definition semi : Z := 59.

Definition is_digit (c : Z) : bool := (48 <=? c) && (c <=? 57).

Definition is_hex (c : Z) : bool :=
  is_digit c || ((97 <=? c) && (c <=? 102)) || ((65 <=? c) && (c <=? 70)).

Definition is_x (c : Z) : bool := (c =? 120) || (c =? 88).

(** The class [[^\t\n\f <&#;]]. *)
Definition name_char (c : Z) : bool :=
  negb (bool_decide (c ∈ [9; 10; 12; 32; 60; amp; hash; semi])).

Definition digit_val (c : Z) : Z :=
  if is_digit c then c - 48
  else if (97 <=? c) && (c <=? 102) then c - 87
  else c - 55.

(** The value of [int(digits, base)]. *)
Definition int_of (base : Z) (digits : text) : Z :=
  fold_left (fun acc d => acc * base + digit_val d) digits 0.

(** What [int] raises on [n] digits when the limit is [limit]. *)
Definition digits_error (limit n : nat) : exn :=
  ValueError ("Exceeds the limit (" +:+ pretty limit
              +:+ " digits) for integer string conversion: value has " +:+ pretty n
              +:+ " digits; use sys.set_int_max_str_digits() to increase the limit").

(** [int(digits)]: in base 10 the number of digits, leading zeros
    included, is checked against the limit when there are more than 640 of
    them (the threshold below which the interpreter accepts no limit); a
    limit of 0 switches the check off.  Base 16 is not checked. *)
Definition int_dec (L : pylib) (digits : text) : res exn Z :=
  let limit := int_max_str_digits L in
  if (640 <? length digits)%nat && (0 <? limit)%nat && (limit <? length digits)%nat
  then Raise (digits_error limit (length digits))
  else Ok (int_of 10 digits).

(** The numeric branch of [_replace_charref]. *)
Definition replace_num (num : Z) : text :=
  match invalid_charrefs num with
  | Some t => t
  | None =>
      if ((0xD800 <=? num) && (num <=? 0xDFFF)) || (0x10FFFF <? num) then [0xFFFD]
      else if bool_decide (num ∈ invalid_codepoints) then []
      else [num]
  end.

(** [for x in range(len(s)-1, 1, -1): if s[:x] in html5: ...] *)
Fixpoint longest_prefix (L : pylib) (s : text) (xs : list nat) : option text :=
  match xs with
  | [] => None
  | x :: xs' =>
      match html5 L (take x s) with
      | Some t => Some (t ++ drop x s)
      | None => longest_prefix L s xs'
      end
  end.

(** The named branch of [_replace_charref]; [s] is the matched group, with
    its semicolon when there is one. *)
Definition replace_named (L : pylib) (s : text) : text :=
  match html5 L s with
  | Some t => t
  | None =>
      match longest_prefix L s (rev (seq 2 (length s - 2))) with
      | Some t => t
      | None => amp :: s
      end
  end.

(** Where the scan stands inside a candidate reference. *)
Inductive scan : Type :=
| Normal
| Amp
| Hash
| HashX (x : Z)
| Dec (ds : text)
| Hex (ds : text)
| Name (cs : text).

(** A character read outside any candidate. *)
Definition plain_step (c : Z) : scan * text :=
  if c =? amp then (Amp, []) else (Normal, [c]).

(** A character that ends the candidate: [out] is what the candidate
    becomes, and the character is read again outside any candidate. *)
Definition close_with (out : text) (c : Z) : scan * text :=
  let '(s, o) := plain_step c in (s, out ++ o).

Definition step (L : pylib) (s : scan) (c : Z) : res exn (scan * text) :=
  match s with
  | Normal => Ok (plain_step c)
  | Amp =>
      if c =? hash then Ok (Hash, [])
      else if name_char c then Ok (Name [c], [])
      else Ok (close_with [amp] c)
  | Hash =>
      if is_digit c then Ok (Dec [c], [])
      else if is_x c then Ok (HashX c, [])
      else Ok (close_with [amp; hash] c)
  | HashX x =>
      if is_hex c then Ok (Hex [c], [])
      else Ok (close_with [amp; hash; x] c)
  | Dec ds =>
      if is_digit c then Ok (Dec (ds ++ [c]), [])
      else
        res_bind (int_dec L ds) (fun num =>
          if c =? semi then Ok (Normal, replace_num num)
          else Ok (close_with (replace_num num) c))
  | Hex ds =>
      if is_hex c then Ok (Hex (ds ++ [c]), [])
      else if c =? semi then Ok (Normal, replace_num (int_of 16 ds))
      else Ok (close_with (replace_num (int_of 16 ds)) c)
  | Name cs =>
      if name_char c && (length cs <? 32)%nat then Ok (Name (cs ++ [c]), [])
      else if c =? semi then Ok (Normal, replace_named L (cs ++ [semi]))
      else Ok (close_with (replace_named L cs) c)
  end.

(** End of input inside a candidate. *)
Definition flush (L : pylib) (s : scan) : res exn text :=
  match s with
  | Normal => Ok []
  | Amp => Ok [amp]
  | Hash => Ok [amp; hash]
  | HashX x => Ok [amp; hash; x]
  | Dec ds => res_bind (int_dec L ds) (fun num => Ok (replace_num num))
  | Hex ds => Ok (replace_num (int_of 16 ds))
  | Name cs => Ok (replace_named L cs)
  end.

(** The references are replaced from left to right; an exception ends the
    substitution where it is raised. *)
Fixpoint charref_sub (L : pylib) (s : scan) (input : text) : res exn text :=
  match input with
  | [] => flush L s
  | c :: rest =>
      res_bind (step L s c) (fun '(s', out) =>
        res_bind (charref_sub L s' rest) (fun tail => Ok (out ++ tail)))
  end.

(** [html.unescape(s)] *)
Definition unescape (L : pylib) (s : text) : res exn text :=
  if negb (bool_decide (amp ∈ s)) then Ok s else charref_sub L Normal s.

End Html.

(** ** Steps shared by the two normalisers *)
Module Text.

(** The characters line 392 of BinancePublisher.py and line 116 of
    WXPublisher.py keep: [ord(ch) >= 32 or ch in '\n\t\r']. *)
Definition kept (ch : Z) : Prop := 32 <= ch \/ ch ∈ [10; 9; 13].

Global Instance kept_dec ch : Decision (kept ch).
Proof. unfold kept. apply _. Defined.

(** [html.unescape(v)]: the membership test ['&' not in v] raises on
    anything but a [str]. *)
Definition unescape_val (L : pylib) (v : pyval) : res exn text :=
  match v with
  | PyStr s => Html.unescape L s
  | PyBytes _ => Raise (TypeError "a bytes-like object is required, not 'str'")
  | PyNone => Raise (TypeError "argument of type 'NoneType' is not iterable")
  end.

(** [for encoding in encodings: try: v = b.decode(encoding); break
    except UnicodeDecodeError: continue] *)
Fixpoint decode_first (L : pylib) (b : list Byte.byte) (encodings : list string) : pyval :=
  match encodings with
  | [] => PyBytes b
  | enc :: rest =>
      match decode L enc b with
      | Some s => PyStr s
      | None => decode_first L b rest
      end
  end.

(** [s.encode('utf-8')] succeeds unless [s] holds a lone surrogate. *)
Definition utf8_encodable (s : text) : bool :=
  forallb (fun c => negb ((0xD800 <=? c) && (c <=? 0xDFFF))) s.

End Text.

(** ** BinancePublisher.py *)
Module BinancePublisher.
Import Text.

(** [_preprocess_content(self, content)], lines 366-399.  The check for
    Chinese characters at the end only logs. *)
Definition _preprocess_content (L : pylib) (content : pyval) : res exn text :=
  if negb (truthy content) then Ok []
  else
    (* if not isinstance(content, str): content = str(content) *)
    let content := if isinstance_str content then content else PyStr (py_str content) in
    (* if isinstance(content, bytes): ... *)
    let content :=
      match content with
      | PyBytes b =>
          match decode L "utf-8" b with
          | Some s => PyStr s
          | None => decode_first L b ["utf-8"; "gbk"; "gb2312"; "gb18030"]
          end
      | _ => content
      end in
    res_bind (unescape_val L content) (fun s => Ok (filter kept s)).

(** *** Strings of selectors, titles and URLs *)

Definition dquote : string := String "034"%char EmptyString.

(** [needle in hay] *)
Definition contains (needle hay : string) : bool :=
  match String.index 0 needle hay with
  | Some _ => true
  | None => false
  end.

Definition lower_ascii (c : ascii) : ascii :=
  let n := nat_of_ascii c in
  if ((65 <=? n) && (n <=? 90))%nat then ascii_of_nat (n + 32) else c.

(** [s.lower()], on the ASCII letters: no other character lowers to a
    letter of the keywords searched below in a way that completes one. *)
Fixpoint lower (s : string) : string :=
  match s with
  | EmptyString => EmptyString
  | String c s' => String (lower_ascii c) (lower s')
  end.

(** [os.path.join(a, b)] of posixpath. *)
Definition path_join (a b : string) : string :=
  if String.prefix "/" b then b
  else if bool_decide (a = "") || String.prefix "/" (String.rev a) then a +:+ b
  else a +:+ "/" +:+ b.

(** *** Login verification *)

(** What the checks of [_check_login_status] ask a page; each call can
    raise. *)
Record page : Type := {
  content : res exn string;                   (* page.content() *)
  count : string -> res exn nat;              (* page.locator(sel).count() *)
  first_is_visible : string -> res exn bool;  (* page.locator(sel).first.is_visible() *)
  title : res exn string;                     (* page.title() *)
  url : string                                (* page.url *)
}.

Definition login_selectors : list string :=
  [ "button:has-text(" +:+ dquote +:+ "登录" +:+ dquote +:+ ")";
    "a:has-text(" +:+ dquote +:+ "登录" +:+ dquote +:+ ")";
    "div:has-text(" +:+ dquote +:+ "登录" +:+ dquote +:+ "):not(:has(" +:+ "*))";
    "[href*=" +:+ dquote +:+ "login" +:+ dquote +:+ "]" ].

Definition logged_in_selectors : list string :=
  [ "div.css-1hsz9t1";
    ".UserAvatar";
    "a:has-text(" +:+ dquote +:+ "个人中心" +:+ dquote +:+ ")";
    "[href*=" +:+ dquote +:+ "my" +:+ dquote +:+ "]";
    "img.avatar";
    "div.user-info";
    "[data-testid=" +:+ dquote +:+ "header-user-icon" +:+ dquote +:+ "]" ].

Definition editor_selector : string :=
  "div.ProseMirror[contenteditable=" +:+ dquote +:+ "true" +:+ dquote +:+ "]".

Definition content_area_selector : string :=
  ".feed-publish-wrapper, .post-editor, div.dynamic-form".

(** [elements.count() > 0 and elements.first.is_visible()] *)
Definition visible_match (p : page) (selector : string) : res exn bool :=
  res_bind (count p selector) (fun n =>
    if (0 <? n)%nat then first_is_visible p selector else Ok false).

(** [for selector in selectors: if <visible match>: return ...] *)
Fixpoint any_visible (p : page) (selectors : list string) : res exn bool :=
  match selectors with
  | [] => Ok false
  | selector :: rest =>
      res_bind (visible_match p selector) (fun hit =>
        if hit then Ok true else any_visible p rest)
  end.

(** The [try] block of [_check_login_status], lines 271-331.  The loop over
    [login_indicators] only logs. *)
Definition check_login_try (p : page) : res exn bool :=
  res_bind (content p) (fun _ =>
  res_bind (any_visible p login_selectors) (fun login_shown =>
  if login_shown then Ok false else
  res_bind (any_visible p logged_in_selectors) (fun user_shown =>
  if user_shown then Ok true else
  res_bind (count p editor_selector) (fun editors =>
  if (0 <? editors)%nat then Ok true else
  res_bind (title p) (fun page_title =>
  let current_url := url p in
  if contains "登录" page_title || contains "login" (lower current_url) then Ok false else
  res_bind (visible_match p content_area_selector) (fun area_shown =>
  if area_shown then Ok true else Ok false)))))).

(** [_check_login_status(self, page)]: [True] is logged in. *)
Definition _check_login_status (p : page) : bool :=
  match check_login_try p with
  | Ok answer => answer
  | Raise _ => false          (* except Exception: return False *)
  end.

(** A DOM snapshot: for every selector the visibility of the elements it
    matches, in document order. *)
Record dom : Type := {
  matches : string -> list bool;
  dom_title : string;
  dom_url : string;
  dom_html : string
}.

(** The page whose calls all answer from the snapshot. *)
Definition page_of_dom (d : dom) : page :=
  {| content := Ok (dom_html d);
     count := fun selector => Ok (length (matches d selector));
     first_is_visible := fun selector => Ok (default false (head (matches d selector)));
     title := Ok (dom_title d);
     url := dom_url d |}.

(** *** The publish attempt *)

(** Calls on the outside world, in the order they are made.
    [KillCommand] stands for the [subprocess.run] calls of lines 253-259,
    one or two by platform; what they kill, if anything, is not part of the
    model. *)
Inductive action : Type :=
| KillCommand
| EnterPlaywright
| Launch (profile_path : string)
| NewPage
| Goto
| WaitLoad
| DebugShot (tag : string)
| WaitEditor
| ClearEditor
| SetContent (content : text)
| ClickEditor
| ReadEditor
| TypeContent (content : text)
| WaitPostButton
| ClickPostButton
| Settle
| ErrorShot (path : string)
| CloseBrowser
| ExitPlaywright.

Global Instance action_eq_dec : EqDecision action.
Proof. solve_decision. Defined.

(** The publisher's fields and how the outside world answers each call of
    one publish attempt. *)
Record world : Type := {
  data_path : string;
  chrome_user_dir : string;
  profile_name : string;
  path_exists : string -> bool;                   (* os.path.exists *)
  processes : list (res exn (option string));     (* names psutil yields, first scan *)
  kill : res exn unit;                            (* subprocess.run(...) *)
  processes_after : list (res exn (option string));
  pw_enter : res exn unit;                        (* sync_playwright().__enter__ *)
  launch : res exn unit;                          (* launch_persistent_context *)
  new_page : res exn unit;
  goto : res exn unit;
  wait_load : res exn unit;                       (* page.wait_for_load_state *)
  login_page : page;                              (* the page when login is checked *)
  editor_wait : res exn unit;                     (* editor.wait_for *)
  clear_editor : res exn unit;
  set_content : res exn unit;
  click_editor : res exn unit;
  read_editor : res exn bool;                     (* el.textContent.length > 0 *)
  type_content : res exn unit;
  post_wait : res exn unit;                       (* post_button.wait_for *)
  post_click : res exn unit;
  settle : res exn unit;                          (* page.wait_for_timeout(5000) *)
  debug_shot : string -> res exn unit;            (* page.screenshot, by tag *)
  error_shot : res exn unit;                      (* page.screenshot(full_page=True) *)
  error_stamp : string;                           (* strftime of the error screenshot *)
  close : res exn unit;                           (* browser.close() *)
  pw_exit : res exn unit                          (* sync_playwright().__exit__ *)
}.

(** The locals [browser] and [page] of [push_to_binance] ([false]: still
    [None]) and the calls made so far. *)
Record session : Type := {
  trace : list action;
  browser : bool;
  page_open : bool
}.

Definition start : session := {| trace := []; browser := false; page_open := false |}.

Definition log (a : action) (s : session) : session :=
  {| trace := trace s ++ [a]; browser := browser s; page_open := page_open s |}.

Definition set_browser (s : session) : session :=
  {| trace := trace s; browser := true; page_open := page_open s |}.

Definition set_page (s : session) : session :=
  {| trace := trace s; browser := browser s; page_open := true |}.

(** Make the call [a]; the world answers with [outcome]. *)
Definition act {A} (a : action) (outcome : res exn A) : M session exn A :=
  fun s => (outcome, log a s).

(** The dictionary [push_to_binance] returns. *)
Record result : Type := {
  status : string;
  message : string;
  screenshot : option string
}.

(** The loop of [_is_chrome_running] over one scan of the process list. *)
Fixpoint scan_processes (names : list (res exn (option string))) : res exn bool :=
  match names with
  | [] => Ok false
  | Raise e :: _ => Raise e
  | Ok None :: _ => Raise (AttributeError "'NoneType' object has no attribute 'lower'")
  | Ok (Some name) :: rest =>
      if contains "chrome" (lower name) || contains "google chrome" (lower name)
      then Ok true
      else scan_processes rest
  end.

Definition _is_chrome_running (names : list (res exn (option string))) : bool :=
  match scan_processes names with
  | Ok found => found
  | Raise _ => false
  end.

Definition _close_all_chrome_instances (w : world) : M session exn bool :=
  try_except
    (_ <- act KillCommand (kill w) ;;
     (* time.sleep(2) *)
     ret (negb (_is_chrome_running (processes_after w))))
    (fun _ => ret false).

Definition _save_debug_screenshot (w : world) (tag : string) : M session exn unit :=
  (open <- gets page_open ;;
   if negb open then ret tt
   else try_except (act (DebugShot tag) (debug_shot w tag)) (fun _ => ret tt))%py.

(** [os.path.join(self.data_path, f'error_screenshot_{timestamp}.png')] *)
Definition error_screenshot_path (w : world) : string :=
  path_join (data_path w) ("error_screenshot_" +:+ error_stamp w +:+ ".png").

Definition _save_error_screenshot (w : world) : M session exn string :=
  (open <- gets page_open ;;
   if negb open then ret ""
   else
     try_except
       (_ <- act (ErrorShot (error_screenshot_path w)) (error_shot w) ;;
        ret (error_screenshot_path w))
       (fun _ => ret ""))%py.

Definition not_logged_in : result :=
  {| status := "error";
     message := "用户未登录，请先在Chrome浏览器中登录币安账号";
     screenshot := None |}.

Definition pushed : result :=
  {| status := "success"; message := "成功推送到币安社区"; screenshot := None |}.

(** [except PlaywrightTimeoutError: <shot>; raise] around a wait. *)
Definition shot_on_timeout {A} (w : world) (tag : string) (m : M session exn A)
  : M session exn A :=
  try_except m (fun e =>
    match e with
    | PlaywrightTimeoutError _ => (_ <- _save_debug_screenshot w tag ;; throw e)%py
    | _ => throw e
    end).

(** Lines 72-103: choose the profile directory and launch Chrome on it. *)
Definition open_browser (w : world) : M session exn unit :=
  (let user_data_dir := chrome_user_dir w in
   let profile_path := path_join user_data_dir (profile_name w) in
   let profile_path :=
     if path_exists w profile_path then profile_path
     else path_join user_data_dir "Default" in
   let profile_path :=
     if path_exists w profile_path then profile_path else user_data_dir in
   _ <- act (Launch profile_path) (launch w) ;;
   modify set_browser)%py.

(** Lines 105-202: open the page, check the login, fill the editor and
    post.  The two [time.sleep] calls cannot fail. *)
Definition compose_and_post (w : world) (content : text) : M session exn result :=
  (_ <- act NewPage (new_page w) ;;
   _ <- modify set_page ;;
   _ <- act Goto (goto w) ;;
   _ <- _save_debug_screenshot w "page_loaded" ;;
   _ <- act WaitLoad (wait_load w) ;;
   if negb (_check_login_status (login_page w)) then
     _ <- _save_debug_screenshot w "not_logged_in" ;;
     ret not_logged_in
   else
     _ <- _save_debug_screenshot w "logged_in" ;;
     _ <- shot_on_timeout w "editor_timeout"
            (_ <- act WaitEditor (editor_wait w) ;;
             _save_debug_screenshot w "editor_found") ;;
     _ <- act ClearEditor (clear_editor w) ;;
     _ <- act (SetContent content) (set_content w) ;;
     _ <- act ClickEditor (click_editor w) ;;
     filled <- act ReadEditor (read_editor w) ;;
     _ <- (if negb filled then act (TypeContent content) (type_content w) else ret tt) ;;
     _ <- _save_debug_screenshot w "content_entered" ;;
     _ <- shot_on_timeout w "post_button_timeout"
            (_ <- act WaitPostButton (post_wait w) ;;
             _ <- _save_debug_screenshot w "before_post_click" ;;
             act ClickPostButton (post_click w)) ;;
     _ <- act Settle (settle w) ;;
     _ <- _save_debug_screenshot w "post_completed" ;;
     ret pushed)%py.

(** Lines 72-202: the body of the inner [try]. *)
Definition publish_steps (w : world) (content : text) : M session exn result :=
  (_ <- open_browser w ;; compose_and_post w content)%py.

(** The messages of the two [except] clauses of the inner [try]. *)
Definition failure_message (e : exn) : string :=
  match e with
  | PlaywrightTimeoutError _ => "页面元素等待超时: " +:+ exn_str e
  | _ => "推送失败: " +:+ exn_str e
  end.

(** Lines 204-220: the two [except] clauses of the inner [try]. *)
Definition on_failure (w : world) (e : exn) : M session exn result :=
  (screenshot_path <- _save_error_screenshot w ;;
   ret {| status := "error";
          message := failure_message e;
          screenshot := Some screenshot_path |})%py.

(** Lines 231-236: the [except] clause of the outer [try]. *)
Definition connection_failed (e : exn) : result :=
  {| status := "error";
     message := "连接浏览器失败: " +:+ exn_str e;
     screenshot := None |}.

(** Lines 222-229: the [finally] clause. *)
Definition close_browser (w : world) : M session exn unit :=
  (launched <- gets browser ;;
   if launched then try_except (act CloseBrowser (close w)) (fun _ => ret tt)
   else ret tt)%py.

(** [with sync_playwright() as p: body] *)
Definition with_playwright {A} (w : world) (body : M session exn A) : M session exn A :=
  (_ <- act EnterPlaywright (pw_enter w) ;;
   try_finally body (act ExitPlaywright (pw_exit w)))%py.

(** Lines 58-68: close a running Chrome, whatever comes of it. *)
Definition resolve_conflict (w : world) : M session exn unit :=
  (if _is_chrome_running (processes w)
   then _ <- _close_all_chrome_instances w ;; ret tt
   else ret tt)%py.

(** [push_to_binance(self, content)], lines 47-236. *)
Definition push_to_binance (L : pylib) (w : world) (content : pyval)
  : M session exn result :=
  (content <- lift (_preprocess_content L content) ;;
   try_except
     (_ <- resolve_conflict w ;;
      with_playwright w
        (try_finally
           (try_except (publish_steps w content) (on_failure w))
           (close_browser w)))
     (fun e => ret (connection_failed e)))%py.

End BinancePublisher.

(** ** Login verification as the specification words it (section 4.3):
    an ordered list of rules, the first that matches decides, and
    LoggedOut when none does.  The selectors are those of the DOM contract
    (section 6), written out here independently of the code. *)
Module LoginSpec.
Import BinancePublisher.

Inductive verdict : Type := LoggedIn | LoggedOut.

(** Login prompts and login links. *)
Definition login_prompts : list string :=
  [ "button:has-text(" +:+ dquote +:+ "登录" +:+ dquote +:+ ")";
    "a:has-text(" +:+ dquote +:+ "登录" +:+ dquote +:+ ")";
    "div:has-text(" +:+ dquote +:+ "登录" +:+ dquote +:+ "):not(:has(" +:+ "*))";
    "[href*=" +:+ dquote +:+ "login" +:+ dquote +:+ "]" ].

(** Avatar, personal-center link and user icon. *)
Definition user_indicators : list string :=
  [ "div.css-1hsz9t1";
    ".UserAvatar";
    "a:has-text(" +:+ dquote +:+ "个人中心" +:+ dquote +:+ ")";
    "[href*=" +:+ dquote +:+ "my" +:+ dquote +:+ "]";
    "img.avatar";
    "div.user-info";
    "[data-testid=" +:+ dquote +:+ "header-user-icon" +:+ dquote +:+ "]" ].

Definition content_editor : string :=
  "div.ProseMirror[contenteditable=" +:+ dquote +:+ "true" +:+ dquote +:+ "]".

Definition publish_surfaces : list string :=
  [ ".feed-publish-wrapper, .post-editor, div.dynamic-form" ].

(** The login keyword, in the language of the site and in English. *)
Definition login_keywords : list string := [ "登录"; "login" ].

(** "Presence of a visible element": some element that one of the
    selectors matches is visible. *)
Definition shows (d : dom) (selectors : list string) : bool :=
  existsb (fun selector => existsb (fun visible => visible) (matches d selector)) selectors.

(** [s] contains [keyword]: the keyword starts [s] or what is left of [s]
    after some of its characters. *)
Fixpoint occurs (keyword s : string) : bool :=
  String.prefix keyword s ||
  match s with
  | EmptyString => false
  | String _ rest => occurs keyword rest
  end.

Definition visible_login_element (d : dom) : bool := shows d login_prompts.

Definition visible_user_indicator (d : dom) : bool := shows d user_indicators.

Definition editor_present (d : dom) : bool :=
  negb (bool_decide (matches d content_editor = [])).

(** "Page title or URL containing the login keyword". *)
Definition login_keyword (d : dom) : bool :=
  existsb (fun keyword => occurs keyword (dom_title d) || occurs keyword (dom_url d))
          login_keywords.

Definition publish_surface_visible (d : dom) : bool := shows d publish_surfaces.

Definition login_rules : list ((dom -> bool) * verdict) :=
  [ (visible_login_element, LoggedOut);
    (visible_user_indicator, LoggedIn);
    (editor_present, LoggedIn);
    (login_keyword, LoggedOut);
    (publish_surface_visible, LoggedIn) ].

Fixpoint first_match (rules : list ((dom -> bool) * verdict)) (d : dom) : verdict :=
  match rules with
  | [] => LoggedOut
  | (applies, v) :: rest => if applies d then v else first_match rest d
  end.

Definition login_verification (d : dom) : verdict := first_match login_rules d.







End LoginSpec.

(** ** WXPublisher.py *)
Module WXPublisher.
Import Text.

(** [_preprocess_article(self, article)], lines 80-123. *)
Definition _preprocess_article (L : pylib) (article : pyval) : res exn text :=
  if negb (truthy article) then Ok []
  else
    let article := if isinstance_str article then article else PyStr (py_str article) in
    (* try: if isinstance(article, bytes): article = article.decode('utf-8')
            article.encode('utf-8').decode('utf-8') *)
    let attempt : res exn (pyval * bool) :=
      match article with
      | PyBytes b =>
          match decode L "utf-8" b with
          | Some s => Ok (PyStr s, utf8_encodable s)
          | None => Ok (article, false)
          end
      | PyStr s => Ok (article, utf8_encodable s)
      | PyNone => Raise (AttributeError "'NoneType' object has no attribute 'encode'")
      end in
    res_bind attempt (fun '(article, clean) =>
      (* except UnicodeError: if isinstance(article, bytes): for encoding in ... *)
      let article :=
        if clean then article
        else match article with
             | PyBytes b => decode_first L b ["utf-8"; "gbk"; "gb2312"; "gb18030"]
             | _ => article
             end in
      res_bind (unescape_val L article) (fun s => Ok (filter kept s))).

(** *** Time

    A [datetime] is the number of microseconds since [datetime.min]; the
    largest one is [datetime.max], one microsecond before [MAXDT]. *)
Definition MAXDT : Z := 3652059 * 86400 * 1000000.

Definition minute : Z := 60 * 1000000.

(** [dt + delta] for a [timedelta] of [delta] microseconds. *)
Definition dt_add (dt delta : Z) : res exn Z :=
  if (0 <=? dt + delta) && (dt + delta <? MAXDT) then Ok (dt + delta)
  else Raise (OverflowError "date value out of range").

(** [type(v).__name__] *)
Definition type_name (v : json) : string :=
  match v with
  | JNull => "NoneType"
  | JBool _ => "bool"
  | JInt _ => "int"
  | JStr _ => "str"
  end.

(** [timedelta(seconds=v)], in microseconds. *)
Definition timedelta_seconds (v : json) : res exn Z :=
  match json_int v with
  | None =>
      Raise (TypeError ("unsupported type for timedelta seconds component: " +:+ type_name v))
  | Some n =>
      let days := n / 86400 in
      if (days <? - 2 ^ 31) || (2 ^ 31 - 1 <? days)
      then Raise (OverflowError "Python int too large to convert to C int")
      else if 999999999 <? Z.abs days
      then Raise (OverflowError ("days=" +:+ pretty days +:+ "; must have magnitude <= 999999999"))
      else Ok (n * 1000000)
  end.

(** *** The publisher object and the world around it *)

Record WeixinToken : Type := {
  access_token : json;
  expires_in : json;
  expires_at : Z
}.

Inductive request : Type :=
| Get (url : string)
| Post (url : string).

(** What [response.json()] gives: the object, or the exception it raises. *)
Inductive body : Type :=
| Json (o : gmap string json)
| NotJson (e : exn).

(** The answer to one request: the exception [requests] raises, or a
    response with its [encoding] attribute and its body. *)
Inductive reply : Type :=
| Unreachable (e : exn)
| Response (encoding : option string) (b : body).

(** The fields of a [WXPublisher] the operations use, and the world: the
    process environment, the readings [datetime.now()] will give, the
    answers the network will give, and the requests made so far.  Request
    bodies are not modelled. *)
Record state : Type := {
  self_access_token : option WeixinToken;
  self_app_id : option string;
  self_app_secret : option string;
  env : gmap string string;
  clock : nat -> Z;
  ticks : nat;
  replies : nat -> reply;
  sent : list request
}.

Definition set_token (tk : WeixinToken) (s : state) : state :=
  {| self_access_token := Some tk; self_app_id := self_app_id s;
     self_app_secret := self_app_secret s; env := env s; clock := clock s;
     ticks := ticks s; replies := replies s; sent := sent s |}.

Definition set_credentials (id secret : string) (s : state) : state :=
  {| self_access_token := self_access_token s; self_app_id := Some id;
     self_app_secret := Some secret; env := env s; clock := clock s;
     ticks := ticks s; replies := replies s; sent := sent s |}.

Definition tick (s : state) : state :=
  {| self_access_token := self_access_token s; self_app_id := self_app_id s;
     self_app_secret := self_app_secret s; env := env s; clock := clock s;
     ticks := S (ticks s); replies := replies s; sent := sent s |}.

Definition record_request (rq : request) (s : state) : state :=
  {| self_access_token := self_access_token s; self_app_id := self_app_id s;
     self_app_secret := self_app_secret s; env := env s; clock := clock s;
     ticks := ticks s; replies := replies s; sent := sent s ++ [rq] |}.

(** The answer the next request will get. *)
Definition next_reply (s : state) : reply := replies s (length (sent s)).

(** [datetime.now()] *)
Definition now : M state exn Z :=
  fun s => (Ok (clock s (ticks s)), tick s).

(** [requests.get(url)] or [requests.post(url, ...)] *)
Definition send (rq : request) : M state exn (option string * body) :=
  fun s =>
    match next_reply s with
    | Unreachable e => (Raise e, record_request rq s)
    | Response encoding b => (Ok (encoding, b), record_request rq s)
    end.

(** [response.json()] *)
Definition json_of (b : body) : res exn (gmap string json) :=
  match b with
  | Json o => Ok o
  | NotJson e => Raise e
  end.

(** [if response.encoding.lower() != 'utf-8': response.encoding = 'utf-8'] *)
Definition force_utf8 (encoding : option string) : res exn unit :=
  match encoding with
  | Some _ => Ok tt
  | None => Raise (AttributeError "'NoneType' object has no attribute 'lower'")
  end.

(** [d[key]] *)
Definition getitem (d : gmap string json) (key : string) : res exn json :=
  match d !! key with
  | Some v => Ok v
  | None => Raise (KeyError key)
  end.

(** [os.getenv(key, '')] behind [ConfigManager.get] *)
Definition config_get (key : string) : M state exn string :=
  gets (fun s => default "" (env s !! key)).

(** [except Exception as error: logger.error(...); raise] *)
Definition logged {A} (m : M state exn A) : M state exn A :=
  try_except m (fun error => throw error).

(** An attribute that may still be [None], inside an f-string. *)
Definition opt_str (o : option string) : string := default "None" o.

(** [WeixinToken(access_token, expires_in)], lines 19-22. *)
Definition WeixinToken_init (tok expires : json) : M state exn WeixinToken :=
  t <- now ;;
  delta <- lift (timedelta_seconds expires) ;;
  at_ <- lift (dt_add t delta) ;;
  ret {| access_token := tok; expires_in := expires; expires_at := at_ |}.

(** [refresh(self)], lines 45-52. *)
Definition refresh : M state exn unit :=
  id <- config_get "WEIXIN_APP_ID" ;;
  secret <- config_get "WEIXIN_APP_SECRET" ;;
  modify (set_credentials id secret).

Definition token_url (id secret : option string) : string :=
  "https://api.weixin.qq.com/cgi-bin/token?grant_type=client_credential&appid="
  +:+ opt_str id +:+ "&secret=" +:+ opt_str secret.

Definition token_failure (L : pylib) (response : gmap string json) : exn :=
  Exception ("获取access_token失败: " +:+ json_dumps L response).

(** Lines 57-58: the cached token, when it is good for more than a minute.
    The clock is read only when a token is cached. *)
Definition usable_token : M state exn (option WeixinToken) :=
  cached <- gets self_access_token ;;
  match cached with
  | None => ret None
  | Some tk =>
      t <- now ;;
      limit <- lift (dt_add t minute) ;;
      ret (if limit <? expires_at tk then Some tk else None)
  end.

(** Lines 61-78: the credential exchange with the token endpoint. *)
Definition fetch_token (L : pylib) : M state exn json :=
  logged
    (_ <- refresh ;;
     id <- gets self_app_id ;;
     secret <- gets self_app_secret ;;
     answer <- send (Get (token_url id secret)) ;;
     response <- lift (json_of (snd answer)) ;;
     match response !! "access_token" with
     | None => throw (token_failure L response)
     | Some tok =>
         expires <- lift (getitem response "expires_in") ;;
         token <- WeixinToken_init tok expires ;;
         _ <- modify (set_token token) ;;
         ret (access_token token)
     end).

(** [ensure_access_token(self)], lines 54-78. *)
Definition ensure_access_token (L : pylib) : M state exn json :=
  usable <- usable_token ;;
  match usable with
  | Some tk => ret (access_token tk)
  | None => fetch_token L
  end.

(** The request of lines 417-427, 574-584 and 637-647: post, force the
    encoding, parse. *)
Definition post_json (url : string) : M state exn (gmap string json) :=
  answer <- send (Post url) ;;
  _ <- lift (force_utf8 (fst answer)) ;;
  lift (json_of (snd answer)).

Record draft : Type := { media_id : json }.

(** The two passes that turn the article into the page sent as content:
    [_md_to_html] (lines 125-162), a chain of [re.sub], and
    [_apply_template] (lines 164-371), an f-string around its result, the
    title and the date.  Their texts are not transcribed: each is taken as
    a function that returns a text or raises, and what is proved holds for
    every such function. *)
Record markup : Type := {
  md_to_html : text -> res exn text;
  apply_template : text -> text -> Z -> res exn text
}.

(** Lines 382-387: the conversion inside its [try]; [_apply_template]
    reads the clock for the date.  When either pass raises the article
    stays as it was. *)
Definition render (K : markup) (article title : text) : M state exn text :=
  try_except
    (html_content <- lift (md_to_html K article) ;;
     date <- now ;;
     lift (apply_template K html_content title date))
    (fun _ => ret article).

(** Lines 390-393: [if t and isinstance(t, str): t = self._preprocess_article(t)] *)
Definition preprocess_if_given (L : pylib) (t : text) : res exn text :=
  if bool_decide (t = []) then Ok t else _preprocess_article L (PyStr t).

(** [1 if await self.config_manager.get(key) == "true" else 0] *)
Definition flag (setting : string) : Z :=
  if bool_decide (setting = "true") then 1 else 0.

Definition draft_url (token : json) : string :=
  "https://api.weixin.qq.com/cgi-bin/draft/add?access_token=" +:+ json_str token.

(** Lines 378-403: the article, title and digest are normalised, the
    article is rendered, and the one entry of [articles] is built. *)
Definition draft_articles (L : pylib) (K : markup) (article title digest : text)
    (thumb_media_id : json) : M state exn (list (string * field)) :=
  article <- lift (_preprocess_article L (PyStr article)) ;;
  article <- render K article title ;;
  title <- lift (preprocess_if_given L title) ;;
  digest <- lift (preprocess_if_given L digest) ;;
  author <- config_get "AUTHOR" ;;
  need_open_comment <- config_get "NEED_OPEN_COMMENT" ;;
  only_fans_can_comment <- config_get "ONLY_FANS_CAN_COMMENT" ;;
  ret [ ("title", FText title); ("author", FStr author); ("digest", FText digest);
        ("content", FText article); ("thumb_media_id", FJson thumb_media_id);
        ("need_open_comment", FInt (flag need_open_comment));
        ("only_fans_can_comment", FInt (flag only_fans_can_comment)) ].

(** [upload_draft(self, article, title, digest, media_id)], lines 373-439.
    The token step and the three normalisations come before the [try] of
    line 405; the body is encoded inside it, before the request. *)
Definition upload_draft (L : pylib) (K : markup) (article title digest : text)
    (thumb_media_id : json) : M state exn draft :=
  token <- ensure_access_token L ;;
  let url := draft_url token in
  articles <- draft_articles L K article title digest thumb_media_id ;;
  logged
    (_ <- lift (dumps_utf8 L articles) ;;
     response_json <- post_json url ;;
     if bool_decide (is_Some (response_json !! "errcode")) then
       errmsg <- lift (getitem response_json "errmsg") ;;
       throw (Exception ("上传草稿失败: " +:+ json_str errmsg))
     else
       id <- lift (getitem response_json "media_id") ;;
       ret {| media_id := id |}).

Definition default_media_id : string :=
  "SwCSRjrdGJNaWioRQUHzgF68BHFkSlb_f5xlTquvsOSA6Yy0ZRjFo0aW9eS3JJu_".

Definition material_url (token : json) : string :=
  "https://api.weixin.qq.com/cgi-bin/material/add_material?access_token="
  +:+ json_str token +:+ "&type=image".

(** [upload_image(self, image_url)], lines 441-463; [None] and the empty
    string are the falsy arguments. *)
Definition upload_image (L : pylib) (image_url : option string) : M state exn json :=
  match image_url with
  | None | Some "" => ret (JStr default_media_id)
  | Some image_url =>
      _ <- send (Get image_url) ;;                  (* requests.get(image_url).content *)
      token <- ensure_access_token L ;;
      let url := material_url token in
      logged
        (answer <- send (Post url) ;;
         response <- lift (json_of (snd answer)) ;;
         if bool_decide (is_Some (response !! "errcode")) then
           errmsg <- lift (getitem response "errmsg") ;;
           throw (Exception ("上传图片失败: " +:+ json_str errmsg))
         else lift (getitem response "media_id"))
  end.

Record publish_job : Type := {
  publish_id : json;
  msg_data_id : json
}.

(** ['errcode' in r and r['errcode'] != 0] *)
Definition rejected (r : gmap string json) : bool :=
  match r !! "errcode" with
  | Some code => json_ne_int code 0
  | None => false
  end.

(** Lines 589-601: the message of the exception for a rejected submission. *)
Definition publish_failure (r : gmap string json) : string :=
  let error_msg := json_str (default (JStr "未知错误") (r !! "errmsg")) in
  let error_code := default (JInt (-1)) (r !! "errcode") in
  let error_msg :=
    if json_eq_int error_code 53503 then "该草稿未通过发布检查"
    else if json_eq_int error_code 53504 then "需前往公众平台官网使用草稿"
    else if json_eq_int error_code 53505 then "请手动保存成功后再发表"
    else error_msg in
  "发布失败 (错误码: " +:+ json_str error_code +:+ "): " +:+ error_msg.

Definition submit_url (token : json) : string :=
  "https://api.weixin.qq.com/cgi-bin/freepublish/submit?access_token=" +:+ json_str token.

(** [direct_publish(self, media_id)], lines 549-610. *)
Definition direct_publish (L : pylib) (draft_media_id : string) : M state exn publish_job :=
  logged
    (token <- ensure_access_token L ;;
     let url := submit_url token in
     response_json <- post_json url ;;
     if rejected response_json then throw (Exception (publish_failure response_json))
     else ret {| publish_id := default (JStr "") (response_json !! "publish_id");
                 msg_data_id := default (JStr "") (response_json !! "msg_data_id") |}).

Definition status_map : gmap Z string :=
  list_to_map
    [ (0, "published"); (1, "publishing"); (2, "failed_original");
      (3, "failed_general"); (4, "failed_audit"); (5, "published_emoji_escaped") ].

(** [status_map.get(publish_status, "unknown")]: a key is found when it
    compares equal to one of the integer keys. *)
Definition status_of (publish_status : json) : string :=
  default "unknown" (json_int publish_status ≫= (fun code => status_map !! code)).

Record publish_status_report : Type := {
  status : string;
  report_publish_id : string;
  publish_status : json;
  article_id : json;
  article_url : json;
  fail_reason : json
}.

Definition status_url (token : json) : string :=
  "https://api.weixin.qq.com/cgi-bin/freepublish/get?access_token=" +:+ json_str token.

(** [check_publish_status(self, publish_id)], lines 612-678. *)
Definition check_publish_status (L : pylib) (job_id : string)
  : M state exn publish_status_report :=
  logged
    (token <- ensure_access_token L ;;
     let url := status_url token in
     response_json <- post_json url ;;
     if rejected response_json then
       errmsg <- lift (getitem response_json "errmsg") ;;
       throw (Exception ("查询发布状态失败: " +:+ json_str errmsg))
     else
       let code := default (JInt (-1)) (response_json !! "publish_status") in
       ret {| status := status_of code;
              report_publish_id := job_id;
              publish_status := code;
              article_id := default (JStr "") (response_json !! "article_id");
              article_url := default (JStr "") (response_json !! "article_url");
              fail_reason := default (JStr "") (response_json !! "fail_reason") |}).

End WXPublisher.

(** ** The specification's vocabulary *)
Module Spec.

(** Section 4.1: a control character the normaliser strips, "code points
    < 0x20 except newline, tab, carriage return". *)
Definition stripped (c : Z) : Prop := c < 0x20 /\ c <> 10 /\ c <> 9 /\ c <> 13.

Global Instance stripped_dec c : Decision (stripped c).
Proof. unfold stripped. apply _. Defined.

(** Section 8: "already-plain" text holds no character reference:
    un-escaping it changes nothing. *)
Definition plain (L : pylib) (x : text) : Prop := Html.unescape L x = Ok x.

(** A text without an ampersand; such a text is plain. *)
Definition ampersand_free (x : text) : Prop := Html.amp ∉ x.

Global Instance ampersand_free_dec x : Decision (ampersand_free x).
Proof. unfold ampersand_free. apply _. Defined.

(** What both normalisers do to a [str]: lines 389 and 392 of
    BinancePublisher.py, 113 and 116 of WXPublisher.py. *)
Definition normalized (L : pylib) (x : text) : res exn text :=
  res_bind (Html.unescape L x) (fun s => Ok (filter Text.kept s)).

(** Section 3: the states of a publish job. *)
Inductive publish_state : Type :=
| Published
| Publishing
| FailedOriginal
| FailedGeneral
| FailedAudit
| PublishedEmojiEscaped
| Unknown.

(** Section 4.4: "0→Published, 1→Publishing, 2→FailedOriginal,
    3→FailedGeneral, 4→FailedAudit, 5→PublishedEmojiEscaped, anything else
    → Unknown". *)
Definition state_of_code (code : Z) : publish_state :=
  match code with
  | 0 => Published
  | 1 => Publishing
  | 2 => FailedOriginal
  | 3 => FailedGeneral
  | 4 => FailedAudit
  | 5 => PublishedEmojiEscaped
  | _ => Unknown
  end.

(** The name the API engine reports a state under. *)
Definition label (st : publish_state) : string :=
  match st with
  | Published => "published"
  | Publishing => "publishing"
  | FailedOriginal => "failed_original"
  | FailedGeneral => "failed_general"
  | FailedAudit => "failed_audit"
  | PublishedEmojiEscaped => "published_emoji_escaped"
  | Unknown => "unknown"
  end.

(** A state after which nothing more happens to the job. *)
Definition terminal (st : publish_state) : bool :=
  match st with
  | Publishing | Unknown => false
  | _ => true
  end.

(** The digits the scan holds of an unfinished decimal reference. *)
Definition pending (s : Html.scan) : nat :=
  match s with
  | Html.Dec ds => length ds
  | _ => 0%nat
  end.

(** The only exception of the scan: too many digits. *)
Definition too_many_digits (L : pylib) (bound : nat) (e : exn) : Prop :=
  exists n,
    e = Html.digits_error (int_max_str_digits L) n /\
    (640 < n)%nat /\ (0 < int_max_str_digits L < n)%nat /\ (n <= bound)%nat.

(** The digits held after a step of the scan, if it returns. *)
Definition pending_of (r : res exn (Html.scan * text)) : nat :=
  match r with
  | Ok p => pending (fst p)
  | Raise _ => 0%nat
  end.

End Spec.

(** ** Vocabulary for the publish attempt *)
Module AttemptSpec.
Import BinancePublisher.

(** A computation is steady when it only appends calls other than
    [CloseBrowser] to the trace and leaves the locals [browser] and [page]
    set once they are. *)
Definition steady {A} (m : M session exn A) : Prop :=
  forall s, exists ext,
    trace (snd (m s)) = trace s ++ ext /\
    (CloseBrowser ∉ ext) /\
    (browser s = true -> browser (snd (m s)) = true) /\
    (page_open s = true -> page_open (snd (m s)) = true).

(** The values a computation can return. *)
Definition returns {A} (P : A -> Prop) (m : M session exn A) : Prop :=
  forall s a s', m s = (Ok a, s') -> P a.

(** The session when the inner [try] is entered. *)
Definition entry (w : world) : session :=
  log EnterPlaywright (snd (resolve_conflict w start)).

(** The result of the two [except] clauses of the inner [try]. *)
Definition failed (e : exn) (path : string) : result :=
  {| status := "error"; message := failure_message e; screenshot := Some path |}.

(** The screenshot entry of a failed attempt that ends in session [s]: the
    path of the error screenshot when a page is open and the capture
    succeeds, and the empty string otherwise. *)
Definition screenshot_entry (w : world) (s : session) : string :=
  if page_open s && is_ok (error_shot w) then error_screenshot_path w else "".

(** The results [push_to_binance] can give, with the session [s] it ends
    in. *)
Inductive shape (w : world) (s : session) : result -> Prop :=
| shape_pushed : shape w s pushed
| shape_not_logged_in : shape w s not_logged_in
| shape_connection (e : exn) : shape w s (connection_failed e)
| shape_failed (e : exn) : shape w s (failed e (screenshot_entry w s)).



End AttemptSpec.

(** ** Vocabulary for the access token (section 4.4) *)
Module TokenSpec.
Import WXPublisher.

(** Every reading of the clock is a [datetime] to which the one-minute
    safety margin can be added. *)
Definition sane (s : state) : Prop :=
  forall k, 0 <= clock s k /\ clock s k + minute < MAXDT.

(** A token is cached and expires more than the margin after now. *)
Definition fresh (s : state) (tk : WeixinToken) : Prop :=
  self_access_token s = Some tk /\ clock s (ticks s) + minute < expires_at tk.

(** No token is cached, or the cached one is within the margin of expiry. *)
Definition stale (s : state) : Prop :=
  self_access_token s = None \/
  exists tk, self_access_token s = Some tk /\ expires_at tk <= clock s (ticks s) + minute.

(** The credential exchange: a GET of the token endpoint with the
    configured application id and secret. *)
Definition exchange (s : state) : request :=
  Get (token_url (Some (default "" (env s !! "WEIXIN_APP_ID")))
                 (Some (default "" (env s !! "WEIXIN_APP_SECRET")))).

(** The state after [refresh] and the request to the token endpoint. *)
Definition exchanged (s : state) : state :=
  record_request (exchange s)
    (set_credentials (default "" (env s !! "WEIXIN_APP_ID"))
                     (default "" (env s !! "WEIXIN_APP_SECRET")) s).

(** The state in which the exchange starts: the validity check has read
    the clock when a token was cached. *)
Definition checked (s : state) : state :=
  match self_access_token s with
  | Some _ => tick s
  | None => s
  end.

(** The reading of the clock when a new token is cached: the next one, or
    the one after the reading of the validity check. *)
Definition caching_time (s : state) : Z :=
  clock s (match self_access_token s with
           | Some _ => S (ticks s)
           | None => ticks s
           end).

(** A request to the token endpoint. *)
Definition is_exchange (rq : request) : bool :=
  match rq with
  | Get url => String.prefix "https://api.weixin.qq.com/cgi-bin/token?" url
  | Post _ => false
  end.

End TokenSpec.

(** ** A library instance for the worked examples: an excerpt of
    [html.entities.html5], codecs that answer on ASCII bytes (where the four
    encodings agree), a printer that elides the response, the default limit
    on digits, and an encoder that elides the bytes. *)
Module Example.

Definition html5_excerpt : list (string * text) :=
  [ ("amp;", [38]); ("amp", [38]); ("lt;", [60]); ("lt", [60]);
    ("gt;", [62]); ("gt", [62]); ("quot;", [34]); ("quot", [34]);
    ("apos;", [39]); ("nbsp;", [160]); ("nbsp", [160]) ].

Definition lookup_entity (name : text) : option text :=
  snd <$> list_find (fun entry => txt (fst entry) = name) html5_excerpt ≫= (fun hit => Some (snd hit)).

Definition decode_ascii (encoding : string) (b : list Byte.byte) : option text :=
  if forallb (fun c => byte_val c <? 128) b then Some (map byte_val b) else None.

(** A snapshot whose only match is a visible login link. *)
Definition dom_login_link : BinancePublisher.dom :=
  {| BinancePublisher.matches := fun selector =>
       if bool_decide (selector = "a:has-text(" +:+ BinancePublisher.dquote +:+ "登录"
                                  +:+ BinancePublisher.dquote +:+ ")")
       then [true] else [];
     BinancePublisher.dom_title := "Binance Square";
     BinancePublisher.dom_url := "https://www.binance.com/zh-CN/square";
     BinancePublisher.dom_html := "<html></html>" |}.

(** A snapshot whose only match is the content editor. *)
Definition dom_editor : BinancePublisher.dom :=
  {| BinancePublisher.matches := fun selector =>
       if bool_decide (selector = BinancePublisher.editor_selector) then [true] else [];
     BinancePublisher.dom_title := "Binance Square";
     BinancePublisher.dom_url := "https://www.binance.com/zh-CN/square";
     BinancePublisher.dom_html := "<html></html>" |}.



(** A world in which Chrome is not running and every call succeeds, but
    for the page shown at the login check and the answers to the wait for
    the editor and to the error screenshot. *)
Definition world_with (shown : BinancePublisher.dom)
    (editor_wait error_shot : res exn unit) : BinancePublisher.world :=
  {| BinancePublisher.data_path := "./data";
     BinancePublisher.chrome_user_dir := "/home/user/.config/google-chrome";
     BinancePublisher.profile_name := "Default";
     BinancePublisher.path_exists := fun _ => true;
     BinancePublisher.processes := [Ok (Some "systemd"); Ok (Some "bash")];
     BinancePublisher.kill := Ok tt;
     BinancePublisher.processes_after := [];
     BinancePublisher.pw_enter := Ok tt;
     BinancePublisher.launch := Ok tt;
     BinancePublisher.new_page := Ok tt;
     BinancePublisher.goto := Ok tt;
     BinancePublisher.wait_load := Ok tt;
     BinancePublisher.login_page := BinancePublisher.page_of_dom shown;
     BinancePublisher.editor_wait := editor_wait;
     BinancePublisher.clear_editor := Ok tt;
     BinancePublisher.set_content := Ok tt;
     BinancePublisher.click_editor := Ok tt;
     BinancePublisher.read_editor := Ok true;
     BinancePublisher.type_content := Ok tt;
     BinancePublisher.post_wait := Ok tt;
     BinancePublisher.post_click := Ok tt;
     BinancePublisher.settle := Ok tt;
     BinancePublisher.debug_shot := fun _ => Ok tt;
     BinancePublisher.error_shot := error_shot;
     BinancePublisher.error_stamp := "20260101_120000";
     BinancePublisher.close := Ok tt;
     BinancePublisher.pw_exit := Ok tt |}.

(** The session shows a login link: the user is logged out. *)
Definition world_logged_out : BinancePublisher.world :=
  world_with dom_login_link (Ok tt) (Ok tt).

(** The user is logged in and the editor never becomes visible. *)
Definition world_editor_timeout : BinancePublisher.world :=
  world_with dom_editor (Raise (PlaywrightTimeoutError "Timeout 30000ms exceeded.")) (Ok tt).

(** The user is logged in and everything works. *)
Definition world_fine : BinancePublisher.world :=
  world_with dom_editor (Ok tt) (Ok tt).

(** Midnight of 2026-01-01, and a clock that advances by a second with
    each of its first hundred readings. *)
Definition new_year : Z := 63902822400000000.

Definition clock_2026 (k : nat) : Z := Z.of_nat (k `min` 100) * 1000000 + new_year.

Definition environment : gmap string string :=
  {[ "WEIXIN_APP_ID" := "wx0123"; "WEIXIN_APP_SECRET" := "s3cr3t" ]}.

(** A publisher with the cached token [tk], if any, for which the network
    gives the answers [answers], then fails. *)
Definition publisher (tk : option WXPublisher.WeixinToken)
    (answers : list WXPublisher.reply) : WXPublisher.state :=
  {| WXPublisher.self_access_token := tk;
     WXPublisher.self_app_id := None;
     WXPublisher.self_app_secret := None;
     WXPublisher.env := environment;
     WXPublisher.clock := clock_2026;
     WXPublisher.ticks := 0;
     WXPublisher.replies := fun k =>
       default (WXPublisher.Unreachable (Exception "Connection refused")) (answers !! k);
     WXPublisher.sent := [] |}.

(** A token good for another two hours. *)
Definition good_token : WXPublisher.WeixinToken :=
  {| WXPublisher.access_token := JStr "TOKEN-1";
     WXPublisher.expires_in := JInt 7200;
     WXPublisher.expires_at := new_year + 7200 * 1000000 |}.

Definition json_answer (fields : list (string * json)) : WXPublisher.reply :=
  WXPublisher.Response (Some "utf-8") (WXPublisher.Json (list_to_map fields)).

(** The token endpoint grants a token. *)
Definition token_granted : WXPublisher.reply :=
  json_answer [("access_token", JStr "TOKEN-2"); ("expires_in", JInt 7200)].

(** The token endpoint refuses: the caller's address is not whitelisted. *)
Definition token_refused : WXPublisher.reply :=
  json_answer [("errcode", JInt 40164); ("errmsg", JStr "invalid ip 203.0.113.7")].

(** An answer that reports success with an error code of zero. *)
Definition code_zero : WXPublisher.reply :=
  json_answer [("errcode", JInt 0); ("errmsg", JStr "ok");
               ("media_id", JStr "DRAFT-1"); ("publish_id", JInt 2247483647)].

(** The platform refuses to publish: the draft fails the checks. *)
Definition check_failed : WXPublisher.reply :=
  json_answer [("errcode", JInt 53503); ("errmsg", JStr "the draft fails the check")].

(** The status of a job that failed the audit. *)
Definition audit_failed : WXPublisher.reply :=
  json_answer [("publish_id", JInt 2247483647); ("publish_status", JInt 4);
               ("fail_reason", JStr "audit")].

(** The status of a job, given as the JSON value false. *)
Definition status_false : WXPublisher.reply :=
  json_answer [("publish_id", JInt 2247483647); ("publish_status", JBool false)].

(** An image, as any request for it is answered. *)
Definition image : WXPublisher.reply :=
  WXPublisher.Response None (WXPublisher.NotJson (Exception "Expecting value"))%string.

(** The media endpoint stores the image. *)
Definition image_stored : WXPublisher.reply :=
  json_answer [("media_id", JStr "MEDIA-1"); ("url", JStr "http://mmbiz.qpic.cn/1")].

(** A field of a request body that can be encoded as UTF-8: a text
    without a lone surrogate, or anything that is not a text. *)
Definition encodable (item : string * field) : bool :=
  match snd item with
  | FText t => Text.utf8_encodable t
  | _ => true
  end.

(** The encoding of a request body, its bytes left out: it raises when a
    field cannot be encoded. *)
Definition encode_items (items : list (string * field)) : res exn (list Byte.byte) :=
  if forallb encodable items then Ok []
  else Raise (UnicodeEncodeError "'utf-8' codec can't encode character: surrogates not allowed").

Definition lib : pylib :=
  {| html5 := lookup_entity;
     decode := decode_ascii;
     json_dumps := fun _ => "{...}";
     int_max_str_digits := 4300;
     dumps_utf8 := encode_items |}.

(** Passes that leave the article as it is. *)
Definition plain_markup : WXPublisher.markup :=
  {| WXPublisher.md_to_html := fun article => Ok article;
     WXPublisher.apply_template := fun html_content _ _ => Ok html_content |}.

(** A decimal reference of 4301 digits. *)
Definition long_reference : text := [38; 35] ++ repeat 57 4301 ++ [59].

End Example.

(** ** Vocabulary for the process guard *)
Module GuardSpec.
Import BinancePublisher.

(** The test of line 242 on one process name. *)
Definition names_chrome (name : string) : bool :=
  contains "chrome" (lower name) || contains "google chrome" (lower name).

(** An entry of the process list that the scan reads and passes over. *)
Definition passed_over (entry : res exn (option string)) : Prop :=
  exists name, entry = Ok (Some name) /\ names_chrome name = false.

(** An entry at which the scan gives up: the name is withheld, or reading
    the entry raises. *)
Definition unreadable (entry : res exn (option string)) : Prop :=
  entry = Ok None \/ exists e, entry = Raise e.

End GuardSpec.

(** ** More vocabulary for the publish attempt *)
Module TraceSpec.
Import BinancePublisher.

(** Every call a computation makes satisfies [P]. *)
Definition appends (P : action -> Prop) {A} (m : M session exn A) : Prop :=
  forall s, exists ext, trace (snd (m s)) = trace s ++ ext /\ Forall P ext.

(** A call on the editor or on the post button. *)
Definition composes (a : action) : bool :=
  match a with
  | WaitEditor | ClearEditor | SetContent _ | ClickEditor | ReadEditor
  | TypeContent _ | WaitPostButton | ClickPostButton | Settle => true
  | _ => false
  end.

(** The profile directory of lines 75-84: the named profile, else the
    default profile, else the user data directory. *)
Definition chosen_profile (w : world) : string :=
  let named := path_join (chrome_user_dir w) (profile_name w) in
  let fallback := path_join (chrome_user_dir w) "Default" in
  if path_exists w named then named
  else if path_exists w fallback then fallback
  else chrome_user_dir w.

(** Every call on the page succeeded and the login check passed; the
    keystroke fallback counts only when the editor reported no text. *)
Definition composed (w : world) : Prop :=
  is_ok (new_page w) = true /\ is_ok (goto w) = true /\
  is_ok (wait_load w) = true /\
  _check_login_status (login_page w) = true /\
  is_ok (editor_wait w) = true /\ is_ok (clear_editor w) = true /\
  is_ok (set_content w) = true /\ is_ok (click_editor w) = true /\
  (read_editor w = Ok true \/
   (read_editor w = Ok false /\ is_ok (type_content w) = true)) /\
  is_ok (post_wait w) = true /\ is_ok (post_click w) = true /\
  is_ok (settle w) = true.

(** Every step of a publish attempt succeeded; the screenshots taken for
    debugging and [browser.close()] are not among the steps. *)
Definition all_steps_ok (w : world) : Prop :=
  is_ok (pw_enter w) = true /\ is_ok (launch w) = true /\ composed w /\
  is_ok (pw_exit w) = true.

(** The calls on the page of an attempt in which every step succeeds. *)
Definition page_calls (w : world) (content : text) : list action :=
  [NewPage; Goto; DebugShot "page_loaded"; WaitLoad; DebugShot "logged_in";
   WaitEditor; DebugShot "editor_found"; ClearEditor; SetContent content;
   ClickEditor; ReadEditor]
  ++ match read_editor w with
     | Ok false => [TypeContent content]
     | _ => []
     end
  ++ [DebugShot "content_entered"; WaitPostButton; DebugShot "before_post_click";
      ClickPostButton; Settle; DebugShot "post_completed"].

(** The calls of such an attempt once conflicting Chrome processes are
    dealt with. *)
Definition success_calls (w : world) (content : text) : list action :=
  [EnterPlaywright; Launch (chosen_profile w)] ++ page_calls w content
  ++ [CloseBrowser; ExitPlaywright].

End TraceSpec.

(** ** The values of the recommendation file *)
Module RecommendationFile.

(** A scalar value of the recommendation file, its strings as text.
    Numbers with a fraction, arrays and objects are not modelled. *)
Inductive scalar : Type :=
| SNull
| SBool (b : bool)
| SInt (z : Z)
| SStr (s : text).

(** [str(v)] *)
Definition scalar_str (v : scalar) : text :=
  match v with
  | SNull => txt "None"
  | SBool true => txt "True"
  | SBool false => txt "False"
  | SInt z => txt (pretty z)
  | SStr s => s
  end.

(** [bool(v)] *)
Definition scalar_truthy (v : scalar) : bool :=
  match v with
  | SNull => false
  | SBool b => b
  | SInt z => negb (z =? 0)
  | SStr s => negb (bool_decide (s = []))
  end.

End RecommendationFile.

(** ** BinancePublisher.py: the recommendation file *)
Module BinanceRecommendation.
Import Text BinancePublisher RecommendationFile.

(** What reading [investment_recommendation.json] gives: no such file, no
    valid JSON, any other exception of lines 410-415, or the value under
    the key [recommendation] of the object read, if the key is there. *)
Inductive recommendation_file : Type :=
| FileNotFound
| JSONDecodeError
| Unreadable (e : exn)
| Recommendation (value : option scalar).

Definition file_missing : result :=
  {| status := "error"; message := "未找到投资建议文件"; screenshot := None |}.

Definition file_malformed : result :=
  {| status := "error"; message := "投资建议文件格式错误"; screenshot := None |}.

Definition content_empty : result :=
  {| status := "error"; message := "投资建议内容为空"; screenshot := None |}.

Definition push_failed (e : exn) : result :=
  {| status := "error";
     message := "推送投资建议失败: " +:+ exn_str e;
     screenshot := None |}.

(** [push_recommendation(self)], lines 401-449. *)
Definition push_recommendation (L : pylib) (w : world) (file : recommendation_file)
  : M session exn result :=
  try_except
    (match file with
     | FileNotFound => ret file_missing
     | JSONDecodeError => ret file_malformed
     | Unreadable e => throw e
     | Recommendation value =>
         (* data.get('recommendation', ''), then str(...) unless a str *)
         let recommendation :=
           match value with
           | None => []
           | Some v => scalar_str v
           end in
         if bool_decide (recommendation = []) then ret content_empty
         else
           recommendation <- lift (_preprocess_content L (PyStr recommendation)) ;;
           push_to_binance L w (PyStr recommendation)
     end)
    (fun e => ret (push_failed e)).

End BinanceRecommendation.

(** ** WXPublisher.py: content images, publishing and the entry points *)
Module WXPublish.
Import WXPublisher RecommendationFile.

Definition uploadimg_url (token : json) : string :=
  "https://api.weixin.qq.com/cgi-bin/media/uploadimg?access_token=" +:+ json_str token.

(** [upload_content_image(self, image_url, image_buffer=None)], lines
    465-491; the buffer counts when it is given and not empty. *)
Definition upload_content_image (L : pylib) (image_url : option string)
    (image_buffer : option (list Byte.byte)) : M state exn json :=
  match image_url with
  | None | Some "" => throw (Exception "图片URL不能为空")
  | Some image_url =>
      token <- ensure_access_token L ;;
      let url := uploadimg_url token in
      logged
        (_ <- match image_buffer with
              | Some (_ :: _) => ret tt
              | _ => _ <- send (Get image_url) ;; ret tt
              end ;;
         answer <- send (Post url) ;;
         response <- lift (json_of (snd answer)) ;;
         if bool_decide (is_Some (response !! "errcode")) then
           errmsg <- lift (getitem response "errmsg") ;;
           throw (Exception ("上传图文消息图片失败: " +:+ json_str errmsg))
         else lift (getitem response "url"))
  end.

(** The dictionary [publish] returns; [publishedAt] is the datetime that
    [isoformat()] renders, [draftId] is there after a direct publish. *)
Record published : Type := {
  publishId : json;
  draftId : option json;
  publish_state : string;
  publishedAt : Z;
  platform : string;
  article_link : string
}.

(** [direct_publish and direct_publish.lower() == "true"] *)
Definition wants_direct_publish (setting : string) : bool :=
  negb (bool_decide (setting = "")) &&
  bool_decide (BinancePublisher.lower setting = "true").

(** [publish(self, article, title, digest, media_id)], lines 493-547.
    Line 501 normalises the article; the other lines up to 515 log. *)
Definition publish (L : pylib) (K : markup) (article title digest : text) (thumb : json)
  : M state exn published :=
  logged
    (article <- lift (_preprocess_article L (PyStr article)) ;;
     direct <- config_get "DIRECT_PUBLISH" ;;
     draft <- upload_draft L K article title digest thumb ;;
     if wants_direct_publish direct then
       publish_result <- direct_publish L (json_str (media_id draft)) ;;
       t <- now ;;
       ret {| publishId := publish_id publish_result;
              draftId := Some (media_id draft);
              publish_state := "publishing";
              publishedAt := t;
              platform := "weixin";
              article_link := "https://mp.weixin.qq.com/s/" +:+ json_str (media_id draft) |}
     else
       t <- now ;;
       ret {| publishId := media_id draft;
              draftId := None;
              publish_state := "draft";
              publishedAt := t;
              platform := "weixin";
              article_link := "https://mp.weixin.qq.com/s/" +:+ json_str (media_id draft) |}).

(** The longest run of characters other than a space at the head of [s]:
    what [[^ ]+] takes. *)
Fixpoint nonspace_run (s : string) : string :=
  match s with
  | EmptyString => EmptyString
  | String c rest => if bool_decide (c = " "%char) then EmptyString
                     else String c (nonspace_run rest)
  end.

(** [s] without the prefix [p], when it starts with it. *)
Fixpoint after_prefix (p s : string) : option string :=
  match p, s with
  | EmptyString, _ => Some s
  | String a p', String b s' => if bool_decide (a = b) then after_prefix p' s' else None
  | String _ _, EmptyString => None
  end.

(** The first group of [re.search(r"invalid ip ([^ ]+)", s)]. *)
Fixpoint search_invalid_ip (s : string) : option string :=
  let here :=
    match after_prefix "invalid ip " s with
    | Some rest => match nonspace_run rest with
                   | EmptyString => None
                   | ip => Some ip
                   end
    | None => None
    end in
  match here, s with
  | Some ip, _ => Some ip
  | None, EmptyString => None
  | None, String _ rest => search_invalid_ip rest
  end.

(** What [validate_ip_whitelist] returns: [True] or a text. *)
Inductive whitelist : Type :=
| Whitelisted
| Offending (ip : string).

(** [validate_ip_whitelist(self)], lines 680-691. *)
Definition validate_ip_whitelist (L : pylib) : M state exn whitelist :=
  try_except
    (_ <- ensure_access_token L ;; ret Whitelisted)
    (fun error =>
       let error_msg := exn_str error in
       if BinancePublisher.contains "40164" error_msg then
         ret (Offending (default "未知IP" (search_invalid_ip error_msg)))
       else throw error).

(** What reading [investment_recommendation.json] gives: no such file, no
    valid JSON, any other exception of lines 700-720, or the object read,
    its values scalars. *)
Inductive recommendation_file : Type :=
| FileNotFound
| JSONDecodeError
| Unreadable (e : exn)
| Loaded (data : gmap string scalar).

(** [self._preprocess_article(v)] on a value of the file: a falsy value
    gives the empty text, any other is normalised as the text [str(v)]. *)
Definition preprocess_value (L : pylib) (v : scalar) : res exn text :=
  if scalar_truthy v then _preprocess_article L (PyStr (scalar_str v)) else Ok [].

(** The text 投资建议分析报告, the default of title and digest. *)
Definition default_title : text :=
  [0x6295; 0x8d44; 0x5efa; 0x8bae; 0x5206; 0x6790; 0x62a5; 0x544a].

(** What [push_recommendation] returns: an error dictionary or the
    dictionary of [publish]. *)
Inductive pushed : Type :=
| PushError (message : string)
| PushDone (r : published).

Definition cover_image_url : string :=
  "https://gips0.baidu.com/it/u=1690853528,2506870245&fm=3028&app=3028&f=JPEG&fmt=auto?w=1024&h=1024".

(** [push_recommendation(self)], lines 693-761.  The three texts are
    normalised on lines 731-733, before the cover is uploaded; the
    [image_url] of the file is read and logged only. *)
Definition push_recommendation (L : pylib) (K : markup) (file : recommendation_file)
  : M state exn pushed :=
  try_except
    (match file with
     | FileNotFound => ret (PushError "未找到投资建议文件")
     | JSONDecodeError => ret (PushError "投资建议文件格式错误")
     | Unreadable e => throw e
     | Loaded data =>
         let content := default (SStr []) (data !! "recommendation") in
         let title := default (SStr default_title) (data !! "title") in
         let digest := default (SStr default_title) (data !! "digest") in
         let image_url := default (SStr []) (data !! "image_url") in
         if negb (scalar_truthy content) then ret (PushError "投资建议内容为空")
         else
           content <- lift (preprocess_value L content) ;;
           title <- lift (preprocess_value L title) ;;
           digest <- lift (preprocess_value L digest) ;;
           thumb <- upload_image L (Some cover_image_url) ;;
           r <- publish L K content title digest thumb ;;
           ret (PushDone r)
     end)
    (fun error => ret (PushError ("推送投资建议失败: " +:+ exn_str error))).

End WXPublish.

(** ** Vocabulary for the uploads and for publishing *)
Module UploadSpec.
Import WXPublisher WXPublish.

(** What the POST to the content image endpoint comes to in state [s]:
    the request is recorded and the answer read. *)
Definition uploadimg_post (tok : json) (s : state) : res exn json * state :=
  let s' := record_request (Post (uploadimg_url tok)) s in
  match next_reply s with
  | Unreachable e => (Raise e, s')
  | Response _ (NotJson e) => (Raise e, s')
  | Response _ (Json r) =>
      match r !! "errcode" with
      | Some _ =>
          match r !! "errmsg" with
          | Some errmsg =>
              (Raise (Exception ("上传图文消息图片失败: " +:+ json_str errmsg)), s')
          | None => (Raise (KeyError "errmsg"), s')
          end
      | None =>
          match r !! "url" with
          | Some u => (Ok u, s')
          | None => (Raise (KeyError "url"), s')
          end
      end
  end.

(** A buffer that [if image_buffer:] accepts. *)
Definition given (image_buffer : option (list Byte.byte)) : bool :=
  match image_buffer with
  | Some (_ :: _) => true
  | _ => false
  end.

(** The setting [DIRECT_PUBLISH] asks for a direct publish. *)
Definition direct_mode (s : state) : bool :=
  wants_direct_publish (default "" (env s !! "DIRECT_PUBLISH")).

(** A text without a space. *)
Definition spaceless (s : string) : Prop :=
  Forall (fun c => c <> " "%char) (String.list_ascii_of_string s).

(** Nothing follows, or a space does. *)
Definition at_boundary (post : string) : Prop :=
  post = "" \/ exists post', post = String " " post'.

(** The three texts of the recommendation file after lines 731-733, or
    the exception of the first normalisation that raises. *)
Definition normalised_fields (L : pylib) (data : gmap string RecommendationFile.scalar)
  : res exn (text * text * text) :=
  res_bind (preprocess_value L
              (default (RecommendationFile.SStr []) (data !! "recommendation")))
    (fun content =>
  res_bind (preprocess_value L
              (default (RecommendationFile.SStr default_title) (data !! "title")))
    (fun title =>
  res_bind (preprocess_value L
              (default (RecommendationFile.SStr default_title) (data !! "digest")))
    (fun digest => Ok (content, title, digest)))).

(** Requests only accumulate. *)
Definition grows {A} (m : M state exn A) : Prop :=
  forall s, exists ext, sent (snd (m s)) = sent s ++ ext.

End UploadSpec.

(** ** A library instance whose printer writes the two fields of an error
    answer, and the answer of the token endpoint to a caller whose address
    is not on the whitelist. *)
Module Sample.

Definition print_error (response : gmap string json) : string :=
  "{errcode: " +:+ json_str (default JNull (response !! "errcode"))
  +:+ ", errmsg: " +:+ json_str (default JNull (response !! "errmsg")) +:+ "}".

Definition lib : pylib :=
  {| html5 := Example.lookup_entity;
     decode := Example.decode_ascii;
     json_dumps := print_error;
     int_max_str_digits := 4300;
     dumps_utf8 := Example.encode_items |}.

Definition ip_refused : WXPublisher.reply :=
  Example.json_answer
    [("errcode", JInt 40164);
     ("errmsg", JStr "invalid ip 203.0.113.7 ipv6 ::ffff:203.0.113.7, not in whitelist")].

End Sample.

(* ===================================================================== *)
(** * Part II: properties                                                 *)
(* ===================================================================== *)

(** ** The content normaliser *)
Module NormaliserFacts.
Import Text BinancePublisher WXPublisher Spec.

Lemma unescape_ampersand_free (L : pylib) (x : text) :
  ampersand_free x -> Html.unescape L x = Ok x.
Proof.
  intros Hx. unfold Html.unescape, ampersand_free in *.
  rewrite bool_decide_eq_false_2 by exact Hx. reflexivity.
Qed.

(** The test of the code and the wording of the specification select the
    same characters. *)
Lemma kept_not_stripped (c : Z) : kept c <-> ~ stripped c.
Proof.
  unfold kept, stripped. rewrite !elem_of_cons, elem_of_nil. lia.
Qed.

Lemma filter_kept (x : text) :
  filter kept x = filter (fun c => ~ stripped c) x.
Proof. apply list_filter_iff. intros c. apply kept_not_stripped. Qed.

Lemma filter_kept_idem (x : text) : filter kept (filter kept x) = filter kept x.
Proof.
  induction x as [|c x IH]; [reflexivity|].
  rewrite (filter_cons kept c x). destruct (decide (kept c)) as [Hc|Hc]; [|exact IH].
  rewrite (filter_cons kept c (filter kept x)).
  destruct (decide (kept c)); [|contradiction].
  f_equal. exact IH.
Qed.

(** A text without control characters to strip passes the filter as it
    is. *)
Lemma filter_kept_clean (x : text) :
  Forall (fun c => ~ stripped c) x -> filter kept x = x.
Proof.
  induction 1 as [|c x Hc _ IH]; [reflexivity|].
  rewrite (filter_cons kept c x).
  destruct (decide (kept c)) as [_|Hk]; [f_equal; exact IH|].
  destruct Hk. apply kept_not_stripped. exact Hc.
Qed.

Lemma filter_kept_ampersand_free (x : text) :
  ampersand_free x -> ampersand_free (filter kept x).
Proof.
  unfold ampersand_free. intros Hx Hin. apply Hx.
  apply list_elem_of_filter in Hin. tauto.
Qed.

(** On a [str] both normalisers un-escape and then filter. *)
Lemma preprocess_content_str (L : pylib) (x : text) :
  _preprocess_content L (PyStr x) = normalized L x.
Proof.
  unfold _preprocess_content, normalized. simpl.
  destruct x as [|c x]; [reflexivity|]. simpl. reflexivity.
Qed.

Lemma preprocess_article_str (L : pylib) (x : text) :
  _preprocess_article L (PyStr x) = normalized L x.
Proof.
  unfold _preprocess_article, normalized.
  destruct x as [|c x]; [reflexivity|].
  cbn [truthy negb bool_decide isinstance_str res_bind].
  change (negb (bool_decide (c :: x = []))) with true.
  cbn [negb res_bind].
  destruct (utf8_encodable (c :: x)); reflexivity.
Qed.

(** A bytes object is turned into its [repr] by the [str(...)] of lines
    372-373 (86-87), so the decoding branch that follows never sees bytes. *)
Lemma preprocess_content_bytes (L : pylib) (b : list Byte.byte) :
  b <> [] ->
  _preprocess_content L (PyBytes b) = normalized L (bytes_repr b).
Proof.
  intros Hb. unfold _preprocess_content, normalized. simpl.
  rewrite bool_decide_eq_false_2 by exact Hb. reflexivity.
Qed.

Lemma preprocess_article_bytes (L : pylib) (b : list Byte.byte) :
  b <> [] ->
  _preprocess_article L (PyBytes b) = normalized L (bytes_repr b).
Proof.
  intros Hb. unfold _preprocess_article, normalized. cbn [truthy].
  rewrite bool_decide_eq_false_2 by exact Hb.
  cbn [negb isinstance_str py_str res_bind].
  destruct (utf8_encodable (bytes_repr b)); reflexivity.
Qed.

(** The two normalisers are one function. *)
Lemma preprocess_article_content (L : pylib) (v : pyval) :
  _preprocess_article L v = _preprocess_content L v.
Proof.
  destruct v as [|x|b].
  - reflexivity.
  - rewrite preprocess_article_str, preprocess_content_str. reflexivity.
  - destruct (decide (b = [])) as [->|Hb]; [reflexivity|].
    rewrite preprocess_article_bytes, preprocess_content_bytes by exact Hb.
    reflexivity.
Qed.

(** What a normaliser is applied to after [str(...)]; [None] and the
    empty values are returned as the empty text before that. *)
Lemma preprocess_content_normalized (L : pylib) (v : pyval) :
  _preprocess_content L v = Ok [] \/ _preprocess_content L v = normalized L (py_str v).
Proof.
  destruct v as [|x|b].
  - left. reflexivity.
  - right. apply preprocess_content_str.
  - destruct (decide (b = [])) as [->|Hb]; [left; reflexivity|].
    right. apply preprocess_content_bytes. exact Hb.
Qed.

(** *** When [html.unescape] raises *)

Lemma int_dec_raises (L : pylib) (ds : text) (e : exn) :
  Html.int_dec L ds = Raise e -> too_many_digits L (length ds) e.
Proof.
  unfold Html.int_dec.
  destruct (640 <? length ds)%nat eqn:H1; [|discriminate].
  destruct (0 <? int_max_str_digits L)%nat eqn:H2; [|discriminate].
  destruct (int_max_str_digits L <? length ds)%nat eqn:H3; [|discriminate].
  cbn [andb]. intros [= <-]. exists (length ds).
  apply Nat.ltb_lt in H1, H2, H3. split_and!; [reflexivity|lia..].
Qed.

Lemma plain_step_pending (c : Z) : pending (fst (Html.plain_step c)) = 0%nat.
Proof. unfold Html.plain_step. destruct (c =? Html.amp); reflexivity. Qed.

Lemma close_with_pending (out : text) (c : Z) :
  pending (fst (Html.close_with out c)) = 0%nat.
Proof.
  unfold Html.close_with. pose proof (plain_step_pending c) as H.
  destruct (Html.plain_step c) as [s o]. exact H.
Qed.

Lemma step_pending_of (L : pylib) (s : Html.scan) (c : Z) :
  (pending_of (Html.step L s c) <= S (pending s))%nat.
Proof.
  destruct s as [| | |x|ds|ds|cs]; cbn [Html.step];
    try (repeat case_match; cbn [pending_of fst pending length];
         rewrite ?close_with_pending, ?plain_step_pending; lia).
  destruct (Html.is_digit c).
  - cbn [pending_of fst pending]. rewrite length_app. cbn [length]. lia.
  - destruct (Html.int_dec L ds) as [num|e]; cbn [res_bind]; [|cbn; lia].
    destruct (c =? Html.semi); cbn [pending_of fst pending];
      rewrite ?close_with_pending; lia.
Qed.

Lemma step_pending (L : pylib) (s s' : Html.scan) (c : Z) (out : text) :
  Html.step L s c = Ok (s', out) -> (pending s' <= S (pending s))%nat.
Proof.
  intros Hstep. pose proof (step_pending_of L s c) as Hp. rewrite Hstep in Hp.
  exact Hp.
Qed.

Lemma step_raises (L : pylib) (s : Html.scan) (c : Z) (e : exn) :
  Html.step L s c = Raise e -> too_many_digits L (pending s) e.
Proof.
  destruct s as [| | |x|ds|ds|cs]; cbn [Html.step]; try (repeat case_match; discriminate).
  destruct (Html.is_digit c); [discriminate|].
  destruct (Html.int_dec L ds) as [num|e'] eqn:Hint; cbn [res_bind].
  - destruct (c =? Html.semi); discriminate.
  - intros [= <-]. exact (int_dec_raises L ds e' Hint).
Qed.

Lemma too_many_digits_le (L : pylib) (a b : nat) (e : exn) :
  (a <= b)%nat -> too_many_digits L a e -> too_many_digits L b e.
Proof. intros Hab (n & He & H1 & H2 & H3). exists n. split_and!; auto; lia. Qed.

Lemma charref_sub_raises (L : pylib) (input : text) (s : Html.scan) (e : exn) :
  Html.charref_sub L s input = Raise e ->
  too_many_digits L (pending s + length input) e.
Proof.
  revert s. induction input as [|c rest IH]; intros s; cbn [Html.charref_sub].
  - destruct s as [| | |x|ds|ds|cs]; cbn [Html.flush]; try discriminate.
    destruct (Html.int_dec L ds) as [num|e'] eqn:Hint; cbn [res_bind]; [discriminate|].
    intros [= <-]. apply (too_many_digits_le L (length ds)); [cbn; lia|].
    exact (int_dec_raises L ds e' Hint).
  - destruct (Html.step L s c) as [[s' out]|e'] eqn:Hstep; cbn [res_bind].
    + destruct (Html.charref_sub L s' rest) as [tail|e''] eqn:Hrest; cbn [res_bind];
        [discriminate|].
      intros [= <-]. pose proof (step_pending L s s' c out Hstep) as Hp.
      apply (too_many_digits_le L (pending s' + length rest)); [cbn [length]; lia|].
      apply IH. exact Hrest.
    + intros [= <-]. apply (too_many_digits_le L (pending s)); [lia|].
      exact (step_raises L s c e' Hstep).
Qed.

(** [html.unescape] raises nothing but the ValueError of a decimal
    reference with more digits than the limit, and the text is longer than
    that many characters. *)
Lemma unescape_raises (L : pylib) (x : text) (e : exn) :
  Html.unescape L x = Raise e -> too_many_digits L (length x) e.
Proof.
  unfold Html.unescape. destruct (negb (bool_decide (Html.amp ∈ x))); [discriminate|].
  apply charref_sub_raises.
Qed.

Lemma normalized_raises (L : pylib) (x : text) (e : exn) :
  normalized L x = Raise e -> too_many_digits L (length x) e.
Proof.
  unfold normalized. destruct (Html.unescape L x) as [u|e'] eqn:Hu; [discriminate|].
  intros [= <-]. exact (unescape_raises L x e' Hu).
Qed.

(** A text of no more than 640 characters, or of no more characters than
    the limit, is normalised without exception, and so is any text when
    the limit is switched off. *)
Lemma normalized_returns (L : pylib) (x : text) :
  (length x <= 640)%nat \/ (length x <= int_max_str_digits L)%nat
  \/ int_max_str_digits L = 0%nat ->
  exists u, Html.unescape L x = Ok u /\ normalized L x = Ok (filter kept u).
Proof.
  intros Hx. unfold normalized.
  destruct (Html.unescape L x) as [u|e] eqn:Hu; [exists u; auto|].
  destruct (unescape_raises L x e Hu) as (n & _ & H1 & H2 & H3). lia.
Qed.

(** The reference of 4301 digits makes both normalisers raise. *)
Lemma long_reference_raises :
  _preprocess_content Example.lib (PyStr Example.long_reference)
    = Raise (Html.digits_error 4300 4301) /\
  _preprocess_article Example.lib (PyStr Example.long_reference)
    = Raise (Html.digits_error 4300 4301).
Proof. split; vm_compute; reflexivity. Qed.

(** C6, at the failing inputs: given the bytes of [hello], or the GBK bytes
    D6 D0 of a Chinese character, both normalisers return the text of the
    bytes literal itself, whatever the codecs of the library are. *)
Theorem C6_bytes_input_yields_repr (L : pylib) :
  _preprocess_content L (PyBytes (String.list_byte_of_string "hello"))
    = Ok (txt "b'hello'") /\
  _preprocess_article L (PyBytes (String.list_byte_of_string "hello"))
    = Ok (txt "b'hello'") /\
  _preprocess_content L (PyBytes [Byte.xd6; Byte.xd0]) = Ok (txt "b'\xd6\xd0'") /\
  _preprocess_article L (PyBytes [Byte.xd6; Byte.xd0]) = Ok (txt "b'\xd6\xd0'").
Proof. repeat split; reflexivity. Qed.

(** C7, as amended: on every text that [html.unescape] un-escapes, both
    normalisers return the un-escaped text without its control characters
    below 0x20 other than newline, tab and carriage return, every other
    character of the un-escaped text kept in order; on a text without
    ampersand that is the text itself without those control characters.
    On the other texts both raise what [html.unescape] raises: the
    ValueError of a decimal reference with more digits than the limit of
    the interpreter, more than 640 in any case, in a text longer than
    that. *)
Theorem C7_strips_controls_after_unescape (L : pylib) (x : text) :
  (forall u, Html.unescape L x = Ok u ->
     _preprocess_content L (PyStr x) = Ok (filter (fun c => ~ stripped c) u) /\
     _preprocess_article L (PyStr x) = Ok (filter (fun c => ~ stripped c) u)) /\
  (ampersand_free x ->
   _preprocess_content L (PyStr x) = Ok (filter (fun c => ~ stripped c) x) /\
   _preprocess_article L (PyStr x) = Ok (filter (fun c => ~ stripped c) x)) /\
  (forall e, Html.unescape L x = Raise e ->
     _preprocess_content L (PyStr x) = Raise e /\
     _preprocess_article L (PyStr x) = Raise e /\
     too_many_digits L (length x) e) /\
  ((length x <= 640)%nat \/ (length x <= int_max_str_digits L)%nat
   \/ int_max_str_digits L = 0%nat ->
   exists u, Html.unescape L x = Ok u).
Proof.
  rewrite preprocess_article_str, preprocess_content_str. unfold normalized.
  split_and!.
  - intros u ->. cbn [res_bind]. rewrite filter_kept. auto.
  - intros Hx. rewrite (unescape_ampersand_free L x Hx). cbn [res_bind].
    rewrite filter_kept. auto.
  - intros e He. rewrite He. cbn [res_bind].
    split_and!; [reflexivity|reflexivity|]. exact (unescape_raises L x e He).
  - intros Hx. destruct (normalized_returns L x Hx) as (u & Hu & _). eauto.
Qed.

Lemma C7_strips_controls_witness :
  ampersand_free [97; 1; 9; 98] /\
  _preprocess_content Example.lib (PyStr [97; 1; 9; 98]) = Ok [97; 9; 98].
Proof.
  assert (Hp : ampersand_free [97; 1; 9; 98])
    by (apply (bool_decide_unpack _); vm_compute; exact I).
  split; [exact Hp|].
  destruct (C7_strips_controls_after_unescape Example.lib [97; 1; 9; 98])
    as (_ & H & _).
  destruct (H Hp) as [H1 _]. rewrite H1. reflexivity.
Defined.

(** C7 as stated fails on a text with a character reference: the control
    character 0x01 followed by [&#65;] becomes [A], and the five characters
    of the reference are not preserved. *)
Lemma C7_counterexample :
  _preprocess_content Example.lib (PyStr (1 :: txt "&#65;")) = Ok (txt "A") /\
  _preprocess_content Example.lib (PyStr (1 :: txt "&#65;"))
    <> Ok (filter (fun c => ~ stripped c) (1 :: txt "&#65;")).
Proof. split; [reflexivity|]. vm_compute. discriminate. Qed.

(** The counterexample does not depend on the tables of the library. *)
Lemma numeric_reference_any_library (L : pylib) :
  _preprocess_content L (PyStr (1 :: txt "&#65;")) = Ok (txt "A").
Proof. reflexivity. Qed.

(** A text without ampersand is plain. *)
Lemma ampersand_free_plain (L : pylib) (x : text) : ampersand_free x -> plain L x.
Proof. apply unescape_ampersand_free. Qed.

(** C8, as amended: when the normalised text holds no character
    reference, normalising it again changes nothing.  That is so for every
    text without an ampersand, and a plain text without control characters
    to strip is returned as it is. *)
Theorem C8_normalize_idempotent_on_plain (L : pylib) (x : text) :
  (forall y, _preprocess_content L (PyStr x) = Ok y -> plain L y ->
     _preprocess_content L (PyStr y) = Ok y /\
     _preprocess_article L (PyStr x) = Ok y /\
     _preprocess_article L (PyStr y) = Ok y) /\
  (ampersand_free x ->
   exists y,
     _preprocess_content L (PyStr x) = Ok y /\ plain L y /\
     _preprocess_content L (PyStr y) = Ok y /\
     _preprocess_article L (PyStr x) = Ok y /\
     _preprocess_article L (PyStr y) = Ok y) /\
  (plain L x -> Forall (fun c => ~ stripped c) x ->
   _preprocess_content L (PyStr x) = Ok x /\ _preprocess_article L (PyStr x) = Ok x).
Proof.
  assert (Hagain : forall y, _preprocess_content L (PyStr x) = Ok y -> plain L y ->
            _preprocess_content L (PyStr y) = Ok y /\
            _preprocess_article L (PyStr x) = Ok y /\
            _preprocess_article L (PyStr y) = Ok y).
  { intros y Hy Hplain.
    rewrite !preprocess_article_str, !preprocess_content_str in *.
    assert (Hyy : normalized L y = Ok y).
    { unfold normalized in *. unfold plain in Hplain. rewrite Hplain. cbn [res_bind].
      destruct (Html.unescape L x) as [u|e]; cbn [res_bind] in Hy; [|discriminate].
      injection Hy as <-. rewrite filter_kept_idem. reflexivity. }
    auto. }
  split_and!.
  - exact Hagain.
  - intros Hx. exists (filter kept x).
    assert (Hy : _preprocess_content L (PyStr x) = Ok (filter kept x)).
    { rewrite preprocess_content_str. unfold normalized.
      rewrite (unescape_ampersand_free L x Hx). reflexivity. }
    assert (Hplain : plain L (filter kept x))
      by (apply ampersand_free_plain, filter_kept_ampersand_free; exact Hx).
    destruct (Hagain _ Hy Hplain) as (H1 & H2 & H3). auto.
  - intros Hplain Hclean. rewrite preprocess_article_str, preprocess_content_str.
    unfold normalized. unfold plain in Hplain. rewrite Hplain. cbn [res_bind].
    rewrite (filter_kept_clean x Hclean). auto.
Qed.

Lemma C8_normalize_idempotent_witness :
  ampersand_free (txt "Hello" ++ [1]) /\
  exists y,
    _preprocess_content Example.lib (PyStr (txt "Hello" ++ [1])) = Ok y /\
    plain Example.lib y /\
    _preprocess_content Example.lib (PyStr y) = Ok y /\
    _preprocess_article Example.lib (PyStr (txt "Hello" ++ [1])) = Ok y /\
    _preprocess_article Example.lib (PyStr y) = Ok y.
Proof.
  assert (Hp : ampersand_free (txt "Hello" ++ [1]))
    by (apply (bool_decide_unpack _); vm_compute; exact I).
  split; [exact Hp|].
  destruct (C8_normalize_idempotent_on_plain Example.lib (txt "Hello" ++ [1]))
    as (_ & H & _).
  exact (H Hp).
Defined.

(** C8 as stated fails on a plain text: [&], the control character 0x01
    and [amp;] hold no character reference, so that un-escaping changes
    nothing; normalising drops the control character and gives [&amp;],
    and normalising that gives [&]. *)
Lemma C8_counterexample :
  plain Example.lib [38; 1; 97; 109; 112; 59] /\
  _preprocess_content Example.lib (PyStr [38; 1; 97; 109; 112; 59]) = Ok (txt "&amp;") /\
  _preprocess_content Example.lib (PyStr (txt "&amp;")) = Ok (txt "&") /\
  _preprocess_content Example.lib (PyStr (txt "&amp;"))
    <> _preprocess_content Example.lib (PyStr [38; 1; 97; 109; 112; 59]).
Proof.
  split_and!; [vm_compute; reflexivity..|]. vm_compute. discriminate.
Qed.

(** A second pass can also go on un-escaping: [&#38;#38;] gives [&#38;],
    which gives [&]. *)
Lemma second_pass_unescapes_again (L : pylib) :
  _preprocess_content L (PyStr (txt "&#38;#38;")) = Ok (txt "&#38;") /\
  _preprocess_content L (PyStr (txt "&#38;")) = Ok (txt "&").
Proof. split; reflexivity. Qed.

End NormaliserFacts.

(** ** Login verification *)
Module LoginFacts.
Import BinancePublisher LoginSpec.









(** A call that raises during the checks yields "not logged in". *)
Lemma check_login_raise (p : page) (e : exn) :
  check_login_try p = Raise e -> _check_login_status p = false.
Proof. unfold _check_login_status. intros ->. reflexivity. Qed.






(** The keyword rule parts from the code as well: on a page titled
    [login] that shows the publish surface the rules give LoggedOut and the
    code answers LoggedIn. *)
Lemma title_keyword_untested :
  let d := {| matches := fun selector =>
                if bool_decide (selector = content_area_selector) then [true] else [];
              dom_title := "login"; dom_url := "https://www.binance.com/zh-CN/square";
              dom_html := "" |} in
  first_match login_rules d = LoggedOut /\ _check_login_status (page_of_dom d) = true.
Proof. split; vm_compute; reflexivity. Qed.

End LoginFacts.

(** ** The publish attempt of the browser engine *)
Module PublishAttemptFacts.
Import Text BinancePublisher AttemptSpec.

Create HintDb steady.

Lemma steady_ret {A} (a : A) : steady (ret a).
Proof. intros s. exists []. cbn. rewrite app_nil_r. split_and!; auto using not_elem_of_nil. Qed.

Lemma steady_throw {A} (e : exn) : steady (@throw session exn A e).
Proof. intros s. exists []. cbn. rewrite app_nil_r. split_and!; auto using not_elem_of_nil. Qed.

Lemma steady_gets {A} (f : session -> A) : steady (gets f).
Proof. intros s. exists []. cbn. rewrite app_nil_r. split_and!; auto using not_elem_of_nil. Qed.

Lemma steady_lift {A} (r : res exn A) : steady (lift r).
Proof. intros s. exists []. cbn. rewrite app_nil_r. split_and!; auto using not_elem_of_nil. Qed.

Lemma steady_set_browser : steady (modify set_browser).
Proof. intros s. exists []. cbn. rewrite app_nil_r. split_and!; auto using not_elem_of_nil. Qed.

Lemma steady_set_page : steady (modify set_page).
Proof. intros s. exists []. cbn. rewrite app_nil_r. split_and!; auto using not_elem_of_nil. Qed.

Lemma steady_act {A} (a : action) (outcome : res exn A) :
  a <> CloseBrowser -> steady (act a outcome).
Proof.
  intros Ha s. exists [a]. cbn. split_and!; auto.
  rewrite list_elem_of_singleton. congruence.
Qed.

Lemma steady_bind {A B} (m : M session exn A) (k : A -> M session exn B) :
  steady m -> (forall a, steady (k a)) -> steady (bind m k).
Proof.
  intros Hm Hk s. unfold bind.
  destruct (Hm s) as (e1 & Ht1 & Hc1 & Hb1 & Hp1).
  destruct (m s) as [[a|e] s1]; cbn [snd] in *.
  - destruct (Hk a s1) as (e2 & Ht2 & Hc2 & Hb2 & Hp2).
    exists (e1 ++ e2). rewrite Ht2, Ht1, app_assoc.
    split_and!; [reflexivity|rewrite elem_of_app; tauto|tauto|tauto].
  - exists e1. tauto.
Qed.

Lemma steady_try_except {A} (m : M session exn A) (h : exn -> M session exn A) :
  steady m -> (forall e, steady (h e)) -> steady (try_except m h).
Proof.
  intros Hm Hh s. unfold try_except.
  destruct (Hm s) as (e1 & Ht1 & Hc1 & Hb1 & Hp1).
  destruct (m s) as [[a|e] s1]; cbn [snd] in *.
  - exists e1. tauto.
  - destruct (Hh e s1) as (e2 & Ht2 & Hc2 & Hb2 & Hp2).
    exists (e1 ++ e2). rewrite Ht2, Ht1, app_assoc.
    split_and!; [reflexivity|rewrite elem_of_app; tauto|tauto|tauto].
Qed.

Lemma steady_if {A} (b : bool) (m1 m2 : M session exn A) :
  steady m1 -> steady m2 -> steady (if b then m1 else m2).
Proof. destruct b; tauto. Qed.

#[export] Hint Resolve steady_ret steady_throw steady_gets steady_lift
  steady_set_browser steady_set_page steady_if : steady.

Ltac steady_step :=
  first
    [ apply steady_bind; [|intros ?]
    | apply steady_try_except; [|intros ?]
    | apply steady_act; discriminate
    | apply steady_if
    | solve [auto with steady] ].

Lemma steady_debug_screenshot (w : world) (tag : string) :
  steady (_save_debug_screenshot w tag).
Proof. unfold _save_debug_screenshot. repeat steady_step. Qed.

Lemma steady_error_screenshot (w : world) : steady (_save_error_screenshot w).
Proof. unfold _save_error_screenshot. repeat steady_step. Qed.

#[export] Hint Resolve steady_debug_screenshot steady_error_screenshot : steady.

Lemma steady_shot_on_timeout {A} (w : world) (tag : string) (m : M session exn A) :
  steady m -> steady (shot_on_timeout w tag m).
Proof.
  intros Hm. unfold shot_on_timeout. apply steady_try_except; [exact Hm|].
  intros []; repeat steady_step.
Qed.

Ltac steady := repeat first [ apply steady_shot_on_timeout | steady_step ].

Lemma steady_open_browser (w : world) : steady (open_browser w).
Proof. unfold open_browser. steady. Qed.

Lemma steady_compose_and_post (w : world) (content : text) :
  steady (compose_and_post w content).
Proof. unfold compose_and_post. steady. Qed.

Lemma steady_publish_steps (w : world) (content : text) :
  steady (publish_steps w content).
Proof.
  unfold publish_steps. apply steady_bind; [apply steady_open_browser|].
  intros _. apply steady_compose_and_post.
Qed.

Lemma steady_on_failure (w : world) (e : exn) : steady (on_failure w e).
Proof. unfold on_failure. steady. Qed.

Lemma steady_close_all (w : world) : steady (_close_all_chrome_instances w).
Proof. unfold _close_all_chrome_instances. steady. Qed.

Lemma returns_ret {A} (P : A -> Prop) (a : A) : P a -> returns P (ret a).
Proof. intros Ha s a' s' [= <- _]. exact Ha. Qed.

Lemma returns_bind {A B} (P : B -> Prop) (m : M session exn A)
    (k : A -> M session exn B) :
  (forall a, returns P (k a)) -> returns P (bind m k).
Proof.
  intros Hk s b s'. unfold bind.
  destruct (m s) as [[a|e] s1]; [apply Hk | discriminate].
Qed.

Lemma returns_if {A} (P : A -> Prop) (b : bool) (m1 m2 : M session exn A) :
  returns P m1 -> returns P m2 -> returns P (if b then m1 else m2).
Proof. destruct b; tauto. Qed.

(** The inner [try] body returns one of two results. *)
Lemma publish_steps_returns (w : world) (content : text) :
  returns (fun r => r = pushed \/ r = not_logged_in) (publish_steps w content).
Proof.
  unfold publish_steps, compose_and_post.
  repeat first
    [ apply returns_bind; intros ?
    | apply returns_if
    | apply returns_ret; tauto ].
Qed.

(** Conflict resolution never raises and opens nothing. *)
Lemma resolve_conflict_run (w : world) (s : session) :
  exists s1 ext,
    resolve_conflict w s = (Ok tt, s1) /\
    trace s1 = trace s ++ ext /\ (CloseBrowser ∉ ext) /\
    browser s1 = browser s /\ page_open s1 = page_open s.
Proof.
  unfold resolve_conflict.
  destruct (_is_chrome_running (processes w)).
  - unfold _close_all_chrome_instances, bind, try_except, act, ret.
    destruct (kill w) as [u|e]; eexists; exists [KillCommand];
      (split_and!; [reflexivity|reflexivity| |reflexivity|reflexivity]);
      rewrite list_elem_of_singleton; discriminate.
  - exists s, []. unfold ret. rewrite app_nil_r.
    split_and!; auto using not_elem_of_nil.
Qed.

(** The screenshot entry depends on the session through the local [page]
    only. *)
Lemma screenshot_entry_page (w : world) (s s' : session) :
  page_open s' = page_open s -> screenshot_entry w s' = screenshot_entry w s.
Proof. unfold screenshot_entry. intros ->. reflexivity. Qed.


(** The [except] clauses of the inner [try] never raise; they return the
    screenshot entry of the session. *)
Lemma on_failure_run (w : world) (e : exn) (s : session) :
  exists s1 ext,
    on_failure w e s = (Ok (failed e (screenshot_entry w s)), s1) /\
    trace s1 = trace s ++ ext /\ (CloseBrowser ∉ ext) /\
    browser s1 = browser s /\ page_open s1 = page_open s.
Proof.
  unfold on_failure, _save_error_screenshot, bind, gets, try_except, act, ret,
    screenshot_entry.
  destruct (page_open s) eqn:Hp; cbn [negb andb].
  - destruct (error_shot w) as [u|e'] eqn:Hs; cbn [is_ok].
    + eexists. exists [ErrorShot (error_screenshot_path w)].
      split_and!; try reflexivity; [|exact Hp].
      rewrite list_elem_of_singleton; discriminate.
    + eexists. exists [ErrorShot (error_screenshot_path w)].
      split_and!; try reflexivity; [|exact Hp].
      rewrite list_elem_of_singleton; discriminate.
  - exists s, []. rewrite app_nil_r.
    split_and!; auto using not_elem_of_nil.
Qed.

(** The local [browser] is set exactly when the launch succeeds. *)
Lemma publish_steps_browser (w : world) (content : text) (s : session) :
  browser (snd (publish_steps w content s)) = true <->
  browser s = true \/ is_ok (launch w) = true.
Proof.
  unfold publish_steps, bind at 1, open_browser, bind at 1, act, modify.
  destruct (launch w) as [u|e]; cbn [is_ok snd].
  - split; [auto|intros _].
    match goal with
    | |- context [compose_and_post w content ?s1] =>
        destruct (steady_compose_and_post w content s1) as (ext & _ & _ & Hb & _)
    end.
    apply Hb. reflexivity.
  - cbn. split; [auto|intros [H|H]; [exact H|discriminate]].
Qed.

(** The inner [try] with its [except] clauses. *)
Lemma attempt_run (w : world) (content : text) (s : session) :
  exists r s1 ext,
    try_except (publish_steps w content) (on_failure w) s = (Ok r, s1) /\
    trace s1 = trace s ++ ext /\ (CloseBrowser ∉ ext) /\
    (browser s1 = true <-> browser s = true \/ is_ok (launch w) = true) /\
    match publish_steps w content s with
    | (Ok r', _) => r = r' /\ (r = pushed \/ r = not_logged_in)
    | (Raise e, _) => r = failed e (screenshot_entry w s1)
    end.
Proof.
  pose proof (steady_publish_steps w content s) as (ext & Ht & Hc & _ & Hp).
  pose proof (publish_steps_browser w content s) as Hb.
  pose proof (publish_steps_returns w content s) as Hr.
  unfold try_except.
  destruct (publish_steps w content s) as [[r|e] s1]; cbn [snd] in *.
  - exists r, s1, ext. split_and!; auto. eapply Hr. reflexivity.
  - destruct (on_failure_run w e s1) as (s2 & ext2 & Hrun & Ht2 & Hc2 & Hb2 & Hp2).
    exists (failed e (screenshot_entry w s1)), s2, (ext ++ ext2). rewrite Hrun.
    split_and!.
    + reflexivity.
    + rewrite Ht2, Ht, app_assoc. reflexivity.
    + rewrite elem_of_app. tauto.
    + rewrite Hb2. exact Hb.
    + rewrite (screenshot_entry_page w s1 s2 Hp2). reflexivity.
Qed.

(** The inner [try] with its [finally]: the browser is closed if it was
    launched, and only then. *)
Lemma guarded_run (w : world) (content : text) (s : session) :
  exists r s2 ext,
    try_finally (try_except (publish_steps w content) (on_failure w))
                (close_browser w) s = (Ok r, s2) /\
    trace s2 = trace s ++ ext ++ (if browser s2 then [CloseBrowser] else []) /\
    (CloseBrowser ∉ ext) /\
    (browser s2 = true <-> browser s = true \/ is_ok (launch w) = true) /\
    shape w s2 r /\
    match publish_steps w content s with
    | (Ok r', _) => r = r'
    | (Raise e, _) => r = failed e (screenshot_entry w s2)
    end.
Proof.
  destruct (attempt_run w content s) as (r & s1 & ext & Hrun & Ht & Hc & Hb & Hr).
  unfold try_finally. rewrite Hrun.
  unfold close_browser, bind, gets, try_except, act, ret.
  assert (Hres : forall s2, page_open s2 = page_open s1 ->
            shape w s2 r /\
            match publish_steps w content s with
            | (Ok r', _) => r = r'
            | (Raise e, _) => r = failed e (screenshot_entry w s2)
            end).
  { intros s2 Hp. destruct (publish_steps w content s) as [[r'|e] ?].
    - destruct Hr as [<- [->| ->]]; split; auto; constructor.
    - rewrite (screenshot_entry_page w s1 s2 Hp). subst r. split; [|reflexivity].
      rewrite <- (screenshot_entry_page w s1 s2 Hp). constructor. }
  destruct (browser s1) eqn:Hb1.
  - destruct (close w) as [u|e]; exists r, (log CloseBrowser s1), ext;
      cbn [browser trace log]; rewrite Hb1;
      destruct (Hres (log CloseBrowser s1) eq_refl) as [Hshape Hmatch];
      (split_and!; [reflexivity| rewrite Ht, app_assoc; reflexivity
                   | assumption | assumption | assumption | assumption]).
  - exists r, s1, ext. rewrite Hb1, app_nil_r.
    destruct (Hres s1 eq_refl) as [Hshape Hmatch].
    split_and!; auto.
Qed.



(** The calls of a successful attempt, in order. *)
Lemma fine_attempt :
  push_to_binance Example.lib Example.world_fine (PyStr (txt "hello")) start
  = (Ok pushed,
     {| trace := [ EnterPlaywright; Launch "/home/user/.config/google-chrome/Default";
                   NewPage; Goto; DebugShot "page_loaded"; WaitLoad;
                   DebugShot "logged_in"; WaitEditor; DebugShot "editor_found";
                   ClearEditor; SetContent (txt "hello"); ClickEditor; ReadEditor;
                   DebugShot "content_entered"; WaitPostButton;
                   DebugShot "before_post_click"; ClickPostButton; Settle;
                   DebugShot "post_completed"; CloseBrowser; ExitPlaywright ];
        browser := true; page_open := true |}).
Proof. vm_compute. reflexivity. Qed.

(** A timeout while waiting for the editor: both screenshots are taken, the
    browser is closed, and the result carries the path. *)
Lemma editor_timeout_attempt :
  push_to_binance Example.lib Example.world_editor_timeout (PyStr (txt "hello")) start
  = (Ok (failed (PlaywrightTimeoutError "Timeout 30000ms exceeded.")
           "./data/error_screenshot_20260101_120000.png"),
     {| trace := [ EnterPlaywright; Launch "/home/user/.config/google-chrome/Default";
                   NewPage; Goto; DebugShot "page_loaded"; WaitLoad;
                   DebugShot "logged_in"; WaitEditor; DebugShot "editor_timeout";
                   ErrorShot "./data/error_screenshot_20260101_120000.png";
                   CloseBrowser; ExitPlaywright ];
        browser := true; page_open := true |}).
Proof. vm_compute. reflexivity. Qed.

End PublishAttemptFacts.

(** ** The access token of the API engine *)
Module TokenFacts.
Import WXPublisher TokenSpec.

(** What the credential exchange does, by the answer of the endpoint. *)
Lemma fetch_token_run (L : pylib) (s : state) :
  fetch_token L s =
  match next_reply s with
  | Unreachable e => (Raise e, exchanged s)
  | Response _ (NotJson e) => (Raise e, exchanged s)
  | Response _ (Json response) =>
      match response !! "access_token" with
      | None => (Raise (token_failure L response), exchanged s)
      | Some tok =>
          match response !! "expires_in" with
          | None => (Raise (KeyError "expires_in"), exchanged s)
          | Some expires =>
              match timedelta_seconds expires with
              | Raise e => (Raise e, tick (exchanged s))
              | Ok delta =>
                  match dt_add (clock s (ticks s)) delta with
                  | Raise e => (Raise e, tick (exchanged s))
                  | Ok at_ =>
                      (Ok tok,
                       set_token {| access_token := tok; expires_in := expires;
                                    expires_at := at_ |} (tick (exchanged s)))
                  end
              end
          end
      end
  end.
Proof.
  unfold fetch_token, logged, try_except, refresh, config_get.
  unfold bind at 1. unfold bind at 1. unfold gets at 1. unfold bind at 1.
  unfold gets at 1. unfold modify. unfold bind at 1. unfold gets at 1.
  unfold bind at 1. unfold gets at 1. unfold bind at 1. unfold send at 1.
  change (next_reply (set_credentials _ _ s)) with (next_reply s).
  fold (exchanged s).
  cbn [self_app_id self_app_secret set_credentials].
  change (record_request _ _) with (exchanged s).
  destruct (next_reply s) as [e|enc [response|e]]; try reflexivity.
  unfold bind at 1, lift at 1. cbn [snd json_of].
  destruct (response !! "access_token") as [tok|]; [|reflexivity].
  unfold bind at 1, lift at 1, getitem.
  destruct (response !! "expires_in") as [expires|]; [|reflexivity].
  unfold WeixinToken_init, bind at 1, bind at 1, now.
  unfold bind at 1, lift at 1.
  change (clock (exchanged s) (ticks (exchanged s))) with (clock s (ticks s)).
  destruct (timedelta_seconds expires) as [delta|e]; [|reflexivity].
  unfold bind at 1, lift at 1.
  destruct (dt_add (clock s (ticks s)) delta) as [at_|e]; reflexivity.
Qed.

Lemma usable_token_none (s : state) :
  self_access_token s = None -> usable_token s = (Ok None, s).
Proof. intros H. unfold usable_token, bind, gets. rewrite H. reflexivity. Qed.

Lemma usable_token_some (s : state) (tk : WeixinToken) :
  sane s -> self_access_token s = Some tk ->
  usable_token s =
  (Ok (if clock s (ticks s) + minute <? expires_at tk then Some tk else None), tick s).
Proof.
  intros Hs H. unfold usable_token, bind at 1, gets. rewrite H.
  unfold bind at 1, now, bind at 1, lift, dt_add.
  destruct (Hs (ticks s)) as [H0 H1].
  replace ((0 <=? clock s (ticks s) + minute) && (clock s (ticks s) + minute <? MAXDT))
    with true; [reflexivity|].
  symmetry. apply andb_true_intro. unfold minute in *. split; lia.
Qed.

(** A fresh token is returned without any request. *)
Lemma ensure_fresh (L : pylib) (s : state) (tk : WeixinToken) :
  sane s -> fresh s tk ->
  ensure_access_token L s = (Ok (access_token tk), tick s).
Proof.
  intros Hs [Hc Hf]. unfold ensure_access_token, bind.
  rewrite (usable_token_some s tk Hs Hc).
  replace (clock s (ticks s) + minute <? expires_at tk) with true by (symmetry; lia).
  reflexivity.
Qed.

(** On a stale cache the call is the credential exchange. *)
Lemma ensure_stale (L : pylib) (s : state) :
  sane s -> stale s ->
  ensure_access_token L s = fetch_token L (checked s).
Proof.
  intros Hs [Hn|(tk & Hc & Hst)]; unfold ensure_access_token, bind, checked.
  - rewrite (usable_token_none s Hn), Hn. reflexivity.
  - rewrite (usable_token_some s tk Hs Hc), Hc.
    replace (clock s (ticks s) + minute <? expires_at tk) with false by (symmetry; lia).
    reflexivity.
Qed.

Lemma checked_facts (s : state) :
  next_reply (checked s) = next_reply s /\
  sent (checked s) = sent s /\
  self_access_token (checked s) = self_access_token s /\
  exchange (checked s) = exchange s /\
  clock (checked s) (ticks (checked s)) = caching_time s.
Proof.
  unfold checked, caching_time.
  destruct (self_access_token s) eqn:E; split_and!; try reflexivity; exact E.
Qed.

Lemma timedelta_in_range (expires : json) (n t : Z) :
  json_int expires = Some n ->
  0 <= t < MAXDT -> 0 <= t + n * 1000000 < MAXDT ->
  timedelta_seconds expires = Ok (n * 1000000).
Proof.
  intros Hn Ht Hr. unfold timedelta_seconds. rewrite Hn. unfold MAXDT in *.
  assert (- 3652059 <= n / 86400 <= 3652059) as Hd.
  { split.
    - apply Z.div_le_lower_bound; lia.
    - apply Z.div_le_upper_bound; lia. }
  replace ((n / 86400 <? - 2 ^ 31) || (2 ^ 31 - 1 <? n / 86400)) with false
    by (symmetry; apply orb_false_intro; lia).
  replace (999999999 <? Z.abs (n / 86400)) with false by (symmetry; lia).
  reflexivity.
Qed.

Lemma timedelta_ok (expires : json) (delta : Z) :
  timedelta_seconds expires = Ok delta ->
  exists n, json_int expires = Some n /\ delta = n * 1000000.
Proof.
  unfold timedelta_seconds. destruct (json_int expires) as [n|]; [|discriminate].
  repeat case_match; try discriminate. intros [= <-]. eauto.
Qed.

Lemma dt_add_ok (t delta at_ : Z) : dt_add t delta = Ok at_ -> at_ = t + delta.
Proof. unfold dt_add. case_match; [|discriminate]. intros [= <-]. reflexivity. Qed.

Lemma dt_add_in_range (t delta : Z) :
  0 <= t + delta < MAXDT -> dt_add t delta = Ok (t + delta).
Proof.
  intros H. unfold dt_add.
  replace ((0 <=? t + delta) && (t + delta <? MAXDT)) with true; [reflexivity|].
  symmetry. apply andb_true_intro. split; lia.
Qed.

Lemma sane_caching_time (s : state) : sane s -> 0 <= caching_time s < MAXDT.
Proof.
  intros Hs. unfold caching_time.
  destruct (self_access_token s);
    match goal with |- _ <= clock s ?k < _ => destruct (Hs k) end;
    unfold minute in *; lia.
Qed.

(** On a stale cache the token step makes one request, the exchange. *)
Lemma stale_token_step (L : pylib) (s : state) :
  sane s -> stale s ->
  exists r s',
    ensure_access_token L s = (r, s') /\ sent s' = sent s ++ [exchange s].
Proof.
  intros Hs Hst. rewrite (ensure_stale L s Hs Hst), fetch_token_run.
  destruct (checked_facts s) as (Hreply & Hsent & _ & Hex & _).
  assert (Hsent' : sent (exchanged (checked s)) = sent s ++ [exchange s]).
  { unfold exchanged. cbn [sent record_request set_credentials].
    rewrite Hsent, Hex. reflexivity. }
  repeat case_match; eexists _, _; (split; [reflexivity|exact Hsent']).
Qed.

(** C1, as amended.  With a clock whose readings are datetimes a minute
    short of the end of the range: a cached token that expires more than
    one minute after now is returned as it is, without any request and
    without touching the cache.  Otherwise (none cached, or within the
    minute) exactly one request is made, the credential exchange with the
    token endpoint; when it returns a value, the answer carried that value
    as access_token and an integer expires_in, and the cache now holds
    {value, expires_in, expiresAt = time read at caching + expires_in}; an
    answer that carries access_token and an expires_in with a representable
    expiry always gives this; when it raises, as on an answer without
    access_token, the cache is left as it was. *)
Theorem C1_ensure_access_token (L : pylib) (s : state) :
  sane s ->
  (forall tk, fresh s tk ->
     ensure_access_token L s = (Ok (access_token tk), tick s) /\
     sent (tick s) = sent s /\
     self_access_token (tick s) = Some tk) /\
  (stale s ->
   exists r s',
     ensure_access_token L s = (r, s') /\
     sent s' = sent s ++ [exchange s] /\
     (forall tok, r = Ok tok ->
        exists enc response expires n,
          next_reply s = Response enc (Json response) /\
          response !! "access_token" = Some tok /\
          response !! "expires_in" = Some expires /\
          json_int expires = Some n /\
          self_access_token s' =
            Some {| access_token := tok; expires_in := expires;
                    expires_at := caching_time s + n * 1000000 |}) /\
     (forall e, r = Raise e -> self_access_token s' = self_access_token s) /\
     (forall enc response tok expires n,
        next_reply s = Response enc (Json response) ->
        response !! "access_token" = Some tok ->
        response !! "expires_in" = Some expires ->
        json_int expires = Some n ->
        0 <= caching_time s + n * 1000000 < MAXDT ->
        r = Ok tok) /\
     (forall enc response,
        next_reply s = Response enc (Json response) ->
        response !! "access_token" = None ->
        r = Raise (token_failure L response))).
Proof.
  intros Hs. split.
  - intros tk Hf. split; [exact (ensure_fresh L s tk Hs Hf)|].
    destruct Hf as [Hc _]. split; [reflexivity|exact Hc].
  - intros Hst. rewrite (ensure_stale L s Hs Hst), fetch_token_run.
    destruct (checked_facts s) as (Hreply & Hsent & Hcache & Hex & Hclock).
    rewrite Hreply, Hclock.
    assert (Hsent' : sent (exchanged (checked s)) = sent s ++ [exchange s]).
    { unfold exchanged. cbn [sent record_request set_credentials].
      rewrite Hsent, Hex. reflexivity. }
    assert (Hcache' : self_access_token (exchanged (checked s)) = self_access_token s).
    { exact Hcache. }
    destruct (next_reply s) as [e|enc [response|e]].
    1, 3: (eexists _, _; split_and!; [reflexivity|exact Hsent'|..];
           intros; try discriminate; auto).
    destruct (response !! "access_token") as [tok|] eqn:Htok.
    2: { eexists _, _; split_and!; [reflexivity|exact Hsent'|..];
         intros; try discriminate; auto; simplify_eq; congruence. }
    destruct (response !! "expires_in") as [expires|] eqn:Hexp.
    2: { eexists _, _; split_and!; [reflexivity|exact Hsent'|..];
         intros; try discriminate; auto; simplify_eq; congruence. }
    destruct (timedelta_seconds expires) as [delta|e] eqn:Hdelta.
    2: { eexists _, _; split_and!; [reflexivity|exact Hsent'|..];
         intros; try discriminate; auto; simplify_eq.
         pose proof (sane_caching_time s Hs).
         erewrite timedelta_in_range in Hdelta by eauto. discriminate. }
    destruct (timedelta_ok _ _ Hdelta) as (n & Hn & ->).
    destruct (dt_add (caching_time s) (n * 1000000)) as [at_|e] eqn:Hat.
    2: { eexists _, _; split_and!; [reflexivity|exact Hsent'|..];
         intros; try discriminate; auto; simplify_eq.
         rewrite dt_add_in_range in Hat by assumption. discriminate. }
    apply dt_add_ok in Hat as ->.
    eexists _, _; split_and!; [reflexivity|exact Hsent'|..];
      intros; try discriminate; simplify_eq.
    + exists enc, response, expires, n. split_and!; auto.
    + reflexivity.
Qed.

Lemma sane_publisher (tk : option WeixinToken) (answers : list reply) :
  sane (Example.publisher tk answers).
Proof.
  intros k. cbn [clock Example.publisher].
  unfold Example.clock_2026, Example.new_year, minute, MAXDT. lia.
Qed.

Lemma C1_ensure_access_token_witness :
  sane (Example.publisher (Some Example.good_token) []) /\
  fresh (Example.publisher (Some Example.good_token) []) Example.good_token /\
  ensure_access_token Example.lib (Example.publisher (Some Example.good_token) [])
    = (Ok (JStr "TOKEN-1"), tick (Example.publisher (Some Example.good_token) [])).
Proof.
  pose proof (sane_publisher (Some Example.good_token) []) as Hs.
  assert (Hf : fresh (Example.publisher (Some Example.good_token) []) Example.good_token).
  { split; [reflexivity|]. vm_compute. reflexivity. }
  split; [exact Hs|]. split; [exact Hf|].
  destruct (C1_ensure_access_token Example.lib _ Hs) as [Hhit _].
  destruct (Hhit _ Hf) as [H _]. exact H.
Defined.

(** C1 as stated fails on an answer without access_token: with nothing
    cached and the endpoint refusing, the call makes its one request,
    raises, and caches nothing. *)
Lemma C1_counterexample :
  stale (Example.publisher None [Example.token_refused]) /\
  fst (ensure_access_token Example.lib (Example.publisher None [Example.token_refused]))
    = Raise (Exception "获取access_token失败: {...}") /\
  self_access_token
    (snd (ensure_access_token Example.lib (Example.publisher None [Example.token_refused])))
    = None /\
  sent (snd (ensure_access_token Example.lib (Example.publisher None [Example.token_refused])))
    = [Get "https://api.weixin.qq.com/cgi-bin/token?grant_type=client_credential&appid=wx0123&secret=s3cr3t"].
Proof.
  split; [left; reflexivity|]. split_and!; vm_compute; reflexivity.
Qed.

(** A stale token is replaced by the one the endpoint grants: the token
    expired, the clock is read twice, and the expiry counts from the second
    reading. *)
Lemma stale_token_replaced :
  let expired := {| access_token := JStr "TOKEN-0"; expires_in := JInt 7200;
                    expires_at := Example.new_year |} in
  let s := Example.publisher (Some expired) [Example.token_granted] in
  fst (ensure_access_token Example.lib s) = Ok (JStr "TOKEN-2") /\
  self_access_token (snd (ensure_access_token Example.lib s))
    = Some {| access_token := JStr "TOKEN-2"; expires_in := JInt 7200;
              expires_at := Example.new_year + 1000000 + 7200 * 1000000 |} /\
  ticks (snd (ensure_access_token Example.lib s)) = 2%nat /\
  length (sent (snd (ensure_access_token Example.lib s))) = 1%nat.
Proof. cbv zeta. split_and!; vm_compute; reflexivity. Qed.

End TokenFacts.

(** ** Draft, publish and status operations of the API engine *)
Module ApiFacts.
Import WXPublisher TokenSpec Spec.

Lemma post_json_run (url : string) (s : state) :
  post_json url s =
  match next_reply s with
  | Unreachable e => (Raise e, record_request (Post url) s)
  | Response None _ =>
      (Raise (AttributeError "'NoneType' object has no attribute 'lower'"),
       record_request (Post url) s)
  | Response (Some _) (NotJson e) => (Raise e, record_request (Post url) s)
  | Response (Some _) (Json o) => (Ok o, record_request (Post url) s)
  end.
Proof.
  unfold post_json, bind, send, lift.
  destruct (next_reply s) as [e|[enc|] [o|e]]; reflexivity.
Qed.

(** Rendering never raises; it reads the clock when [_md_to_html]
    returns. *)
Lemma render_run (K : markup) (article title : text) (s : state) :
  exists page, render K article title s = (Ok page, s) \/
               render K article title s = (Ok page, tick s).
Proof.
  unfold render, try_except, bind, lift, now, ret.
  destruct (md_to_html K article) as [html_content|e]; [|eauto].
  destruct (apply_template K html_content title _); eauto.
Qed.

(** Preparing the draft makes no request and leaves the cache alone: the
    state it ends in is the one it started from, the clock read at most
    once. *)
Lemma draft_articles_state (L : pylib) (K : markup) (article title digest : text)
    (thumb : json) (s s' : state) (r : res exn (list (string * field))) :
  draft_articles L K article title digest thumb s = (r, s') -> s' = s \/ s' = tick s.
Proof.
  unfold draft_articles, bind at 1, lift at 1.
  destruct (_preprocess_article L (PyStr article)) as [a1|e]; [|intros [= _ <-]; auto].
  unfold bind at 1.
  destruct (render_run K a1 title s) as (page & [Hr|Hr]); rewrite Hr;
    unfold bind, lift, config_get, gets, ret;
    (destruct (preprocess_if_given L title); [|intros [= _ <-]; auto]);
    (destruct (preprocess_if_given L digest); intros [= _ <-]; auto).
Qed.

(** It raises only what a normalisation raises. *)
Lemma draft_articles_raises (L : pylib) (K : markup) (article title digest : text)
    (thumb : json) (s s' : state) (e : exn) :
  draft_articles L K article title digest thumb s = (Raise e, s') ->
  _preprocess_article L (PyStr article) = Raise e \/
  preprocess_if_given L title = Raise e \/
  preprocess_if_given L digest = Raise e.
Proof.
  unfold draft_articles, bind at 1, lift at 1.
  destruct (_preprocess_article L (PyStr article)) as [a1|e1]; [|intros [= <- _]; auto].
  unfold bind at 1.
  destruct (render_run K a1 title s) as (page & [Hr|Hr]); rewrite Hr;
    unfold bind, lift, config_get, gets, ret;
    (destruct (preprocess_if_given L title); [|intros [= <- _]; auto]);
    (destruct (preprocess_if_given L digest); [discriminate|intros [= <- _]; auto]).
Qed.

(** It returns when the three normalisations do, with the normalised title
    and digest. *)
Lemma draft_articles_returns (L : pylib) (K : markup) (article title digest : text)
    (thumb : json) (s : state) (a1 t1 d1 : text) :
  _preprocess_article L (PyStr article) = Ok a1 ->
  preprocess_if_given L title = Ok t1 ->
  preprocess_if_given L digest = Ok d1 ->
  exists page s',
    draft_articles L K article title digest thumb s
      = (Ok [ ("title", FText t1); ("author", FStr (default "" (env s !! "AUTHOR")));
              ("digest", FText d1); ("content", FText page);
              ("thumb_media_id", FJson thumb);
              ("need_open_comment", FInt (flag (default "" (env s !! "NEED_OPEN_COMMENT"))));
              ("only_fans_can_comment",
               FInt (flag (default "" (env s !! "ONLY_FANS_CAN_COMMENT")))) ], s') /\
    render K a1 title s = (Ok page, s').
Proof.
  intros Ha Ht Hd. unfold draft_articles, bind at 1, lift at 1. rewrite Ha.
  unfold bind at 1.
  destruct (render_run K a1 title s) as (page & [Hr|Hr]); rewrite Hr;
    unfold bind, lift, config_get, gets, ret; rewrite Ht, Hd;
    eexists; eexists; split; reflexivity.
Qed.

Lemma next_reply_tick (s : state) : next_reply (tick s) = next_reply s.
Proof. reflexivity. Qed.

(** What [upload_draft] does, by the outcome of the token step, of the
    preparation of the draft, of the encoding of the body, and by the
    answer to the draft request. *)
Lemma upload_draft_run (L : pylib) (K : markup) (article title digest : text)
    (thumb : json) (s : state) :
  upload_draft L K article title digest thumb s =
  match ensure_access_token L s with
  | (Raise e, s1) => (Raise e, s1)
  | (Ok tok, s1) =>
      match draft_articles L K article title digest thumb s1 with
      | (Raise e, s2) => (Raise e, s2)
      | (Ok articles, s2) =>
          match dumps_utf8 L articles with
          | Raise e => (Raise e, s2)
          | Ok _ =>
              let s3 := record_request (Post (draft_url tok)) s2 in
              match next_reply s1 with
              | Unreachable e => (Raise e, s3)
              | Response None _ =>
                  (Raise (AttributeError "'NoneType' object has no attribute 'lower'"), s3)
              | Response (Some _) (NotJson e) => (Raise e, s3)
              | Response (Some _) (Json r) =>
                  match r !! "errcode" with
                  | Some _ =>
                      match r !! "errmsg" with
                      | Some errmsg =>
                          (Raise (Exception ("上传草稿失败: " +:+ json_str errmsg)), s3)
                      | None => (Raise (KeyError "errmsg"), s3)
                      end
                  | None =>
                      match r !! "media_id" with
                      | Some id => (Ok {| media_id := id |}, s3)
                      | None => (Raise (KeyError "media_id"), s3)
                      end
                  end
              end
          end
      end
  end.
Proof.
  unfold upload_draft, bind at 1.
  destruct (ensure_access_token L s) as [[tok|e] s1]; [|reflexivity].
  cbv zeta. unfold bind at 1.
  destruct (draft_articles L K article title digest thumb s1) as [[articles|e] s2]
    eqn:Hprep; [|reflexivity].
  assert (Hreply : next_reply s2 = next_reply s1)
    by (destruct (draft_articles_state _ _ _ _ _ _ _ _ _ Hprep); subst; reflexivity).
  rewrite <- Hreply. clear Hprep Hreply.
  unfold logged, try_except, bind at 1, lift at 1.
  destruct (dumps_utf8 L articles) as [data|e]; [|reflexivity].
  unfold bind at 1. rewrite post_json_run.
  destruct (next_reply s2) as [e|[enc|] [r|e]]; try reflexivity.
  unfold getitem, bind, lift, throw, ret.
  destruct (r !! "errcode") as [code|]; cbn [bool_decide decide_rel is_Some].
  - rewrite bool_decide_eq_true_2 by eauto.
    destruct (r !! "errmsg"); reflexivity.
  - rewrite bool_decide_eq_false_2 by (intros [? ?]; discriminate).
    destruct (r !! "media_id"); reflexivity.
Qed.

Lemma direct_publish_run (L : pylib) (draft_media_id : string) (s : state) :
  direct_publish L draft_media_id s =
  match ensure_access_token L s with
  | (Raise e, s1) => (Raise e, s1)
  | (Ok tok, s1) =>
      let s2 := record_request (Post (submit_url tok)) s1 in
      match next_reply s1 with
      | Unreachable e => (Raise e, s2)
      | Response None _ =>
          (Raise (AttributeError "'NoneType' object has no attribute 'lower'"), s2)
      | Response (Some _) (NotJson e) => (Raise e, s2)
      | Response (Some _) (Json r) =>
          if rejected r then (Raise (Exception (publish_failure r)), s2)
          else (Ok {| publish_id := default (JStr "") (r !! "publish_id");
                      msg_data_id := default (JStr "") (r !! "msg_data_id") |}, s2)
      end
  end.
Proof.
  unfold direct_publish, logged, try_except, bind at 1.
  destruct (ensure_access_token L s) as [[tok|e] s1]; [|reflexivity].
  unfold bind at 1. rewrite post_json_run. cbv zeta.
  destruct (next_reply s1) as [e|[enc|] [r|e]]; try reflexivity.
  destruct (rejected r); reflexivity.
Qed.

Lemma check_publish_status_run (L : pylib) (job_id : string) (s : state) :
  check_publish_status L job_id s =
  match ensure_access_token L s with
  | (Raise e, s1) => (Raise e, s1)
  | (Ok tok, s1) =>
      let s2 := record_request (Post (status_url tok)) s1 in
      match next_reply s1 with
      | Unreachable e => (Raise e, s2)
      | Response None _ =>
          (Raise (AttributeError "'NoneType' object has no attribute 'lower'"), s2)
      | Response (Some _) (NotJson e) => (Raise e, s2)
      | Response (Some _) (Json r) =>
          if rejected r then
            match r !! "errmsg" with
            | Some errmsg => (Raise (Exception ("查询发布状态失败: " +:+ json_str errmsg)), s2)
            | None => (Raise (KeyError "errmsg"), s2)
            end
          else
            (Ok {| status := status_of (default (JInt (-1)) (r !! "publish_status"));
                   report_publish_id := job_id;
                   publish_status := default (JInt (-1)) (r !! "publish_status");
                   article_id := default (JStr "") (r !! "article_id");
                   article_url := default (JStr "") (r !! "article_url");
                   fail_reason := default (JStr "") (r !! "fail_reason") |}, s2)
      end
  end.
Proof.
  unfold check_publish_status, logged, try_except, bind at 1.
  destruct (ensure_access_token L s) as [[tok|e] s1]; [|reflexivity].
  unfold bind at 1. rewrite post_json_run. cbv zeta.
  destruct (next_reply s1) as [e|[enc|] [r|e]]; try reflexivity.
  destruct (rejected r); [|reflexivity].
  unfold bind, lift, getitem, throw. destruct (r !! "errmsg"); reflexivity.
Qed.

(** C9: [upload_draft] returns a media id only for an answer without the
    key errcode, and then the media_id of that answer; whenever the answer
    holds the key errcode, with whatever value, it raises; for an answer
    without errcode that holds a media_id it returns that media_id once
    the draft was prepared and its body encoded, which is so whenever
    article, title and digest are normalised without exception; an answer
    with errcode 0 makes [upload_draft] raise where [direct_publish]
    returns the job. *)
Theorem C9_upload_draft_errcode_key (L : pylib) (K : markup)
    (article title digest : text) (thumb : json) (draft_media_id : string) (s : state) :
  (forall d s', upload_draft L K article title digest thumb s = (Ok d, s') ->
     exists tok s1 enc r,
       ensure_access_token L s = (Ok tok, s1) /\
       next_reply s1 = Response (Some enc) (Json r) /\
       r !! "errcode" = None /\
       r !! "media_id" = Some (media_id d)) /\
  (forall tok s1 enc r code,
     ensure_access_token L s = (Ok tok, s1) ->
     next_reply s1 = Response enc (Json r) ->
     r !! "errcode" = Some code ->
     exists e s', upload_draft L K article title digest thumb s = (Raise e, s')) /\
  (forall tok s1 articles s2 data enc r id,
     ensure_access_token L s = (Ok tok, s1) ->
     draft_articles L K article title digest thumb s1 = (Ok articles, s2) ->
     dumps_utf8 L articles = Ok data ->
     next_reply s1 = Response (Some enc) (Json r) ->
     r !! "errcode" = None ->
     r !! "media_id" = Some id ->
     upload_draft L K article title digest thumb s
       = (Ok {| media_id := id |}, record_request (Post (draft_url tok)) s2)) /\
  (forall s1 a1 t1 d1,
     _preprocess_article L (PyStr article) = Ok a1 ->
     preprocess_if_given L title = Ok t1 ->
     preprocess_if_given L digest = Ok d1 ->
     exists articles s2,
       draft_articles L K article title digest thumb s1 = (Ok articles, s2)) /\
  (forall tok s1 enc r,
     ensure_access_token L s = (Ok tok, s1) ->
     next_reply s1 = Response (Some enc) (Json r) ->
     r !! "errcode" = Some (JInt 0) ->
     (exists e s', upload_draft L K article title digest thumb s = (Raise e, s')) /\
     (exists job s', direct_publish L draft_media_id s = (Ok job, s'))).
Proof.
  assert (Hkey : forall tok s1 enc r code,
            ensure_access_token L s = (Ok tok, s1) ->
            next_reply s1 = Response enc (Json r) ->
            r !! "errcode" = Some code ->
            exists e s', upload_draft L K article title digest thumb s = (Raise e, s')).
  { intros tok s1 enc r code Htok Hreply Hcode.
    rewrite upload_draft_run, Htok, Hreply. cbv zeta.
    destruct (draft_articles L K article title digest thumb s1) as [[articles|e] s2];
      [|eauto].
    destruct (dumps_utf8 L articles); [|eauto].
    destruct enc; rewrite ?Hcode; [destruct (r !! "errmsg")|]; eauto. }
  split_and!.
  - intros d s'. rewrite upload_draft_run.
    destruct (ensure_access_token L s) as [[tok|e] s1]; [|discriminate].
    destruct (draft_articles L K article title digest thumb s1) as [[articles|e] s2];
      [|discriminate].
    destruct (dumps_utf8 L articles); [|discriminate].
    cbv zeta. intros H. exists tok, s1.
    destruct (next_reply s1) as [e|[enc|] [r|e]]; try discriminate.
    exists enc, r.
    destruct (r !! "errcode"); [destruct (r !! "errmsg"); discriminate|].
    destruct (r !! "media_id"); [|discriminate].
    injection H as <- _. auto.
  - exact Hkey.
  - intros tok s1 articles s2 data enc r id Htok Hprep Hdata Hreply Hcode Hid.
    rewrite upload_draft_run, Htok, Hprep, Hdata, Hreply. cbv zeta.
    rewrite Hcode, Hid. reflexivity.
  - intros s1 a1 t1 d1 Ha Ht Hd.
    destruct (draft_articles_returns L K article title digest thumb s1 a1 t1 d1 Ha Ht Hd)
      as (page & s2 & Hrun & _).
    eauto.
  - intros tok s1 enc r Htok Hreply Hcode. split.
    + exact (Hkey tok s1 (Some enc) r (JInt 0) Htok Hreply Hcode).
    + rewrite direct_publish_run, Htok, Hreply. cbv zeta. unfold rejected.
      rewrite Hcode. cbn. eauto.
Qed.

Lemma C9_upload_draft_witness :
  (exists e s', upload_draft Example.lib Example.plain_markup
                  (txt "text") (txt "T") (txt "D") (JStr "MEDIA-1")
                  (Example.publisher (Some Example.good_token) [Example.code_zero])
                = (Raise e, s')) /\
  (exists job s', direct_publish Example.lib "MEDIA-1"
                    (Example.publisher (Some Example.good_token) [Example.code_zero])
                  = (Ok job, s')).
Proof.
  destruct (C9_upload_draft_errcode_key Example.lib Example.plain_markup
              (txt "text") (txt "T") (txt "D") (JStr "MEDIA-1") "MEDIA-1"
              (Example.publisher (Some Example.good_token) [Example.code_zero]))
    as (_ & _ & _ & _ & H).
  apply (H (JStr "TOKEN-1")
             (tick (Example.publisher (Some Example.good_token) [Example.code_zero]))
             "utf-8"
             (list_to_map [("errcode", JInt 0); ("errmsg", JStr "ok");
                           ("media_id", JStr "DRAFT-1");
                           ("publish_id", JInt 2247483647)]));
    vm_compute; reflexivity.
Defined.

(** A draft whose answer holds no errcode is stored, the article rendered
    and the body encoded on the way. *)
Lemma draft_stored :
  fst (upload_draft Example.lib Example.plain_markup
         (txt "text") (txt "T") (txt "D") (JStr "MEDIA-1")
         (Example.publisher (Some Example.good_token) [Example.image_stored]))
  = Ok {| media_id := JStr "MEDIA-1" |}.
Proof. vm_compute. reflexivity. Qed.

(** An article with a decimal reference of 4301 digits makes
    [upload_draft] raise before any request. *)
Lemma draft_long_reference :
  upload_draft Example.lib Example.plain_markup
    Example.long_reference (txt "T") (txt "D") (JStr "MEDIA-1")
    (Example.publisher (Some Example.good_token) [Example.image_stored])
  = (Raise (Html.digits_error 4300 4301),
     tick (Example.publisher (Some Example.good_token) [Example.image_stored])).
Proof.
  assert (Htoken : ensure_access_token Example.lib
                     (Example.publisher (Some Example.good_token) [Example.image_stored])
                   = (Ok (JStr "TOKEN-1"),
                      tick (Example.publisher (Some Example.good_token)
                              [Example.image_stored]))) by (vm_compute; reflexivity).
  unfold upload_draft, bind at 1. rewrite Htoken. cbv zeta.
  unfold bind at 1, draft_articles, bind at 1, lift at 1.
  destruct NormaliserFacts.long_reference_raises as [_ ->]. reflexivity.
Qed.

(** The table of section 4.4 on a rejected submission. *)
Lemma publish_failure_table (r : gmap string json) :
  (r !! "errcode" = Some (JInt 53503) ->
   publish_failure r = "发布失败 (错误码: 53503): 该草稿未通过发布检查") /\
  (r !! "errcode" = Some (JInt 53504) ->
   publish_failure r = "发布失败 (错误码: 53504): 需前往公众平台官网使用草稿") /\
  (r !! "errcode" = Some (JInt 53505) ->
   publish_failure r = "发布失败 (错误码: 53505): 请手动保存成功后再发表") /\
  (forall code,
     r !! "errcode" = Some code ->
     json_int code <> Some 53503 -> json_int code <> Some 53504 ->
     json_int code <> Some 53505 ->
     publish_failure r =
       "发布失败 (错误码: " +:+ json_str code +:+ "): "
       +:+ json_str (default (JStr "未知错误") (r !! "errmsg"))).
Proof.
  unfold publish_failure. split_and!.
  1-3: intros ->; reflexivity.
  intros code -> H1 H2 H3. cbn [default]. unfold json_eq_int.
  rewrite !bool_decide_eq_false_2 by assumption. reflexivity.
Qed.

(** C4: once the token step has succeeded and the platform has answered
    the submission with a JSON object, an answer with an errcode other than
    zero raises an exception whose message is that of the table: the fixed
    text for 53503, 53504 and 53505, and for every other code the code and
    the platform's errmsg; an answer with errcode 0 or without errcode
    returns the publish_id and msg_data_id of the answer. *)
Theorem C4_direct_publish_error_table (L : pylib) (draft_media_id : string)
    (s s1 : state) (tok : json) (enc : string) (r : gmap string json) :
  ensure_access_token L s = (Ok tok, s1) ->
  next_reply s1 = Response (Some enc) (Json r) ->
  (forall code, r !! "errcode" = Some code -> json_ne_int code 0 = true ->
     direct_publish L draft_media_id s
       = (Raise (Exception (publish_failure r)),
          record_request (Post (submit_url tok)) s1)) /\
  (r !! "errcode" = Some (JInt 53503) ->
   publish_failure r = "发布失败 (错误码: 53503): 该草稿未通过发布检查") /\
  (r !! "errcode" = Some (JInt 53504) ->
   publish_failure r = "发布失败 (错误码: 53504): 需前往公众平台官网使用草稿") /\
  (r !! "errcode" = Some (JInt 53505) ->
   publish_failure r = "发布失败 (错误码: 53505): 请手动保存成功后再发表") /\
  (forall code,
     r !! "errcode" = Some code ->
     json_int code <> Some 53503 -> json_int code <> Some 53504 ->
     json_int code <> Some 53505 ->
     publish_failure r =
       "发布失败 (错误码: " +:+ json_str code +:+ "): "
       +:+ json_str (default (JStr "未知错误") (r !! "errmsg"))) /\
  (r !! "errcode" = None \/ r !! "errcode" = Some (JInt 0) ->
   direct_publish L draft_media_id s
     = (Ok {| publish_id := default (JStr "") (r !! "publish_id");
              msg_data_id := default (JStr "") (r !! "msg_data_id") |},
        record_request (Post (submit_url tok)) s1)).
Proof.
  intros Htok Hreply. rewrite direct_publish_run, Htok, Hreply. cbv zeta.
  destruct (publish_failure_table r) as (T1 & T2 & T3 & T4).
  split_and!; auto.
  - intros code Hcode Hne. unfold rejected. rewrite Hcode, Hne. reflexivity.
  - intros [H|H]; unfold rejected; rewrite H; reflexivity.
Qed.

Lemma C4_direct_publish_witness :
  direct_publish Example.lib "DRAFT-1"
    (Example.publisher (Some Example.good_token) [Example.check_failed])
  = (Raise (Exception "发布失败 (错误码: 53503): 该草稿未通过发布检查"),
     record_request (Post (submit_url (JStr "TOKEN-1")))
       (tick (Example.publisher (Some Example.good_token) [Example.check_failed]))).
Proof.
  destruct (C4_direct_publish_error_table Example.lib "DRAFT-1"
              (Example.publisher (Some Example.good_token) [Example.check_failed])
              (tick (Example.publisher (Some Example.good_token) [Example.check_failed]))
              (JStr "TOKEN-1") "utf-8"
              (list_to_map [("errcode", JInt 53503);
                            ("errmsg", JStr "the draft fails the check")]))
    as (H & T & _); [vm_compute; reflexivity ..|].
  rewrite (H (JInt 53503)); [|vm_compute; reflexivity ..].
  rewrite T by (vm_compute; reflexivity). reflexivity.
Defined.

Lemma status_map_other (z : Z) :
  z < 0 \/ 5 < z -> status_map !! z = None.
Proof.
  intros Hz. unfold status_map. cbn [list_to_map foldr fst snd].
  rewrite !lookup_insert_ne by lia. apply lookup_empty.
Qed.

Lemma state_of_code_other (z : Z) :
  z < 0 \/ 5 < z -> state_of_code z = Unknown.
Proof.
  intros Hz. unfold state_of_code. repeat case_match; try reflexivity; lia.
Qed.

(** The dictionary of the code is the table of the specification. *)
Lemma status_of_int (z : Z) : status_of (JInt z) = label (state_of_code z).
Proof.
  destruct (decide (z < 0 \/ 5 < z)) as [Hz|Hz].
  - unfold status_of. cbn [json_int mbind option_bind].
    rewrite status_map_other, state_of_code_other by exact Hz. reflexivity.
  - assert (z = 0 \/ z = 1 \/ z = 2 \/ z = 3 \/ z = 4 \/ z = 5) as Hc by lia.
    destruct Hc as [->|[->|[->|[->|[->| ->]]]]]; vm_compute; reflexivity.
Qed.

(** C5, as amended: once the token step has succeeded and the platform
    has answered the status request with a JSON object that is not an
    error (no errcode, or errcode 0), [check_publish_status] returns a
    report whose status is the name of the state the specification gives
    the integer publish_status: published for 0, publishing for 1,
    failed_original for 2, failed_general for 3, failed_audit for 4,
    published_emoji_escaped for 5 and unknown for every other integer, for
    a missing field and for a value that is no number; a terminal state is
    reported for an integer only when it is 0, 2, 3, 4 or 5.  The JSON
    values true and false are read as the integers 1 and 0: true is
    reported as publishing and false as published. *)
Theorem C5_check_publish_status_mapping (L : pylib) (job_id : string)
    (s s1 : state) (tok : json) (enc : string) (r : gmap string json) :
  ensure_access_token L s = (Ok tok, s1) ->
  next_reply s1 = Response (Some enc) (Json r) ->
  rejected r = false ->
  exists report,
    check_publish_status L job_id s
      = (Ok report, record_request (Post (status_url tok)) s1) /\
    report_publish_id report = job_id /\
    (forall z, r !! "publish_status" = Some (JInt z) ->
       status report = label (state_of_code z) /\
       (terminal (state_of_code z) = true -> z ∈ [0; 2; 3; 4; 5]) /\
       (z ∉ [0; 1; 2; 3; 4; 5] -> status report = "unknown")) /\
    (forall b, r !! "publish_status" = Some (JBool b) ->
       status report = label (state_of_code (if b then 1 else 0)) /\
       status report = (if b then "publishing" else "published")) /\
    (r !! "publish_status" = None -> status report = "unknown") /\
    (r !! "publish_status" = Some JNull -> status report = "unknown") /\
    (forall text, r !! "publish_status" = Some (JStr text) -> status report = "unknown") /\
    (forall v, r !! "publish_status" = Some v -> json_int v = None ->
       status report = "unknown") /\
    label (state_of_code 0) = "published" /\
    label (state_of_code 1) = "publishing" /\
    label (state_of_code 2) = "failed_original" /\
    label (state_of_code 3) = "failed_general" /\
    label (state_of_code 4) = "failed_audit" /\
    label (state_of_code 5) = "published_emoji_escaped" /\
    label (state_of_code 99) = "unknown".
Proof.
  intros Htok Hreply Hrej.
  rewrite check_publish_status_run, Htok, Hreply. cbv zeta. rewrite Hrej.
  eexists. split; [reflexivity|]. cbn [status report_publish_id].
  split_and!; try reflexivity.
  - intros z ->. change (default (JInt (-1)) (Some (JInt z))) with (JInt z).
    rewrite status_of_int. split_and!.
    + reflexivity.
    + destruct (decide (z < 0 \/ 5 < z)) as [Hz|Hz].
      * rewrite state_of_code_other by exact Hz. discriminate.
      * assert (z = 0 \/ z = 1 \/ z = 2 \/ z = 3 \/ z = 4 \/ z = 5) as Hc by lia.
        destruct Hc as [->|[->|[->|[->|[->| ->]]]]]; cbn; intros; try discriminate;
          rewrite !elem_of_cons; tauto.
    + intros Hz. rewrite state_of_code_other; [reflexivity|].
      rewrite !elem_of_cons, elem_of_nil in Hz. lia.
  - intros b ->. destruct b; split; reflexivity.
  - intros ->. reflexivity.
  - intros ->. reflexivity.
  - intros text ->. reflexivity.
  - intros v -> Hv. change (default (JInt (-1)) (Some v)) with v.
    unfold status_of. rewrite Hv. reflexivity.
Qed.

Lemma C5_check_publish_status_witness :
  exists report s',
    check_publish_status Example.lib "2247483647"
      (Example.publisher (Some Example.good_token) [Example.audit_failed])
      = (Ok report, s') /\
    status report = "failed_audit".
Proof.
  destruct (C5_check_publish_status_mapping Example.lib "2247483647"
              (Example.publisher (Some Example.good_token) [Example.audit_failed])
              (tick (Example.publisher (Some Example.good_token) [Example.audit_failed]))
              (JStr "TOKEN-1") "utf-8"
              (list_to_map [("publish_id", JInt 2247483647); ("publish_status", JInt 4);
                            ("fail_reason", JStr "audit")]))
    as (report & Hrun & _ & Hz & _); [vm_compute; reflexivity ..|].
  exists report. eexists. split; [exact Hrun|].
  destruct (Hz 4) as [Hst _]; [vm_compute; reflexivity|]. exact Hst.
Defined.

(** Python finds the keys 1 and 0 for the values true and false, which
    compare equal to them. *)
Lemma status_of_bool :
  status_of (JBool true) = "publishing" /\ status_of (JBool false) = "published".
Proof. split; vm_compute; reflexivity. Qed.

(** C5 as stated fails on a publish_status that is the JSON value false:
    it is none of the six codes, and the report says published, a terminal
    state of success, and not unknown. *)
Lemma C5_counterexample :
  exists report s',
    check_publish_status Example.lib "2247483647"
      (Example.publisher (Some Example.good_token) [Example.status_false])
      = (Ok report, s') /\
    publish_status report = JBool false /\
    status report = label Published /\
    terminal Published = true /\
    status report <> "unknown".
Proof.
  eexists. eexists. split; [vm_compute; reflexivity|].
  cbn [publish_status status]. split_and!; try reflexivity. discriminate.
Qed.

Lemma upload_image_run (L : pylib) (image_url : string) (s : state) :
  image_url <> "" ->
  upload_image L (Some image_url) s =
  match next_reply s with
  | Unreachable e => (Raise e, record_request (Get image_url) s)
  | Response _ _ =>
      match ensure_access_token L (record_request (Get image_url) s) with
      | (Raise e, s2) => (Raise e, s2)
      | (Ok tok, s2) =>
          let s3 := record_request (Post (material_url tok)) s2 in
          match next_reply s2 with
          | Unreachable e => (Raise e, s3)
          | Response _ (NotJson e) => (Raise e, s3)
          | Response _ (Json r) =>
              match r !! "errcode" with
              | Some _ =>
                  match r !! "errmsg" with
                  | Some errmsg => (Raise (Exception ("上传图片失败: " +:+ json_str errmsg)), s3)
                  | None => (Raise (KeyError "errmsg"), s3)
                  end
              | None =>
                  match r !! "media_id" with
                  | Some id => (Ok id, s3)
                  | None => (Raise (KeyError "media_id"), s3)
                  end
              end
          end
      end
  end.
Proof.
  intros Hurl. destruct image_url as [|c u]; [contradiction|].
  unfold upload_image, bind at 1, send at 1.
  destruct (next_reply s) as [e|enc b]; [reflexivity|].
  unfold bind at 1.
  destruct (ensure_access_token L _) as [[tok|e] s2]; [|reflexivity].
  cbv zeta. unfold logged, try_except, bind at 1, send at 1.
  destruct (next_reply s2) as [e|enc2 [r|e]]; try reflexivity.
  unfold bind, lift, getitem, throw. cbn [snd json_of].
  destruct (r !! "errcode") as [code|].
  - rewrite bool_decide_eq_true_2 by eauto. destruct (r !! "errmsg"); reflexivity.
  - rewrite bool_decide_eq_false_2 by (intros [? ?]; discriminate).
    destruct (r !! "media_id"); reflexivity.
Qed.

(** The token step only ever adds requests. *)
Lemma ensure_sent_grows (L : pylib) (s : state) :
  exists ext, sent (snd (ensure_access_token L s)) = sent s ++ ext.
Proof.
  unfold ensure_access_token, bind at 1, usable_token, bind at 1, gets.
  destruct (self_access_token s) as [tk|] eqn:Hc.
  - unfold bind at 1, now, bind at 1, lift.
    destruct (dt_add (clock s (ticks s)) minute) as [limit|e];
      [|exists []; rewrite app_nil_r; reflexivity].
    unfold ret. destruct (limit <? expires_at tk);
      [exists []; rewrite app_nil_r; reflexivity|].
    rewrite TokenFacts.fetch_token_run. exists [exchange (tick s)].
    repeat case_match; reflexivity.
  - unfold ret. rewrite TokenFacts.fetch_token_run. exists [exchange s].
    repeat case_match; reflexivity.
Qed.

(** C10, as amended: for an empty or missing image_url [upload_image]
    returns the fixed media id and touches nothing: no request, no reading
    of the clock, no token step.  For any other image_url the first request
    is the fetch of the image; when the fetch fails nothing else happens;
    when it answers, the token is obtained through [ensure_access_token],
    and the upload to the media endpoint follows a token that was obtained.
    With a fresh token cached no credential exchange takes place: the
    requests are the fetch and the upload.  With a stale cache the
    credential exchange follows the fetch. *)
Theorem C10_upload_image_requests (L : pylib) (s : state) :
  upload_image L None s = (Ok (JStr default_media_id), s) /\
  upload_image L (Some "") s = (Ok (JStr default_media_id), s) /\
  (forall image_url, image_url <> "" ->
     (exists rest,
        sent (snd (upload_image L (Some image_url) s)) = sent s ++ Get image_url :: rest) /\
     (forall e, next_reply s = Unreachable e ->
        upload_image L (Some image_url) s = (Raise e, record_request (Get image_url) s)) /\
     (forall enc b tok s2,
        next_reply s = Response enc b ->
        ensure_access_token L (record_request (Get image_url) s) = (Ok tok, s2) ->
        sent (snd (upload_image L (Some image_url) s))
          = sent s2 ++ [Post (material_url tok)]) /\
     (forall enc b tk,
        next_reply s = Response enc b -> sane s -> fresh s tk ->
        sent (snd (upload_image L (Some image_url) s))
          = sent s ++ [Get image_url; Post (material_url (access_token tk))]) /\
     (forall enc b,
        next_reply s = Response enc b -> sane s -> stale s ->
        exists rest,
          sent (snd (upload_image L (Some image_url) s))
            = sent s ++ Get image_url :: exchange s :: rest)).
Proof.
  split; [reflexivity|]. split; [reflexivity|].
  intros image_url Hurl. rewrite (upload_image_run L image_url s Hurl).
  assert (Hsent : forall tok s2,
            ensure_access_token L (record_request (Get image_url) s) = (Ok tok, s2) ->
            sent (snd (let s3 := record_request (Post (material_url tok)) s2 in
                       match next_reply s2 with
                       | Unreachable e => (Raise e, s3)
                       | Response _ (NotJson e) => (Raise e, s3)
                       | Response _ (Json r) =>
                           match r !! "errcode" with
                           | Some _ =>
                               match r !! "errmsg" with
                               | Some errmsg =>
                                   (Raise (Exception ("上传图片失败: " +:+ json_str errmsg)), s3)
                               | None => (Raise (KeyError "errmsg"), s3)
                               end
                           | None =>
                               match r !! "media_id" with
                               | Some id => (Ok id, s3)
                               | None => (Raise (KeyError "media_id"), s3)
                               end
                           end
                       end))
            = sent s2 ++ [Post (material_url tok)]).
  { intros tok s2 _. cbv zeta. repeat case_match; reflexivity. }
  split_and!.
  - destruct (next_reply s) as [e|enc b]; [exists []; reflexivity|].
    destruct (ensure_sent_grows L (record_request (Get image_url) s)) as [ext Hext].
    destruct (ensure_access_token L _) as [[tok|e] s2] eqn:Hens; cbn [snd] in Hext.
    + rewrite (Hsent tok s2 eq_refl), Hext. cbn [sent record_request].
      rewrite <- !app_assoc. eexists. reflexivity.
    + cbn [snd]. rewrite Hext. cbn [sent record_request].
      rewrite <- !app_assoc. eexists. reflexivity.
  - intros e ->. reflexivity.
  - intros enc b tok s2 -> Hens. rewrite Hens. apply (Hsent tok s2 Hens).
  - intros enc b tk -> Hs Hf.
    assert (Hens : ensure_access_token L (record_request (Get image_url) s)
                   = (Ok (access_token tk), tick (record_request (Get image_url) s))).
    { apply TokenFacts.ensure_fresh; [exact Hs|exact Hf]. }
    rewrite Hens, (Hsent _ _ Hens). cbn [sent tick record_request].
    rewrite <- app_assoc. reflexivity.
  - intros enc b -> Hs Hst.
    destruct (TokenFacts.stale_token_step L (record_request (Get image_url) s))
      as (r & s2 & Hens & Hsent2); [exact Hs|exact Hst|].
    rewrite Hens. cbn [sent record_request] in Hsent2.
    change (exchange (record_request (Get image_url) s)) with (exchange s) in Hsent2.
    destruct r as [tok|e].
    + rewrite (Hsent tok s2 Hens), Hsent2. rewrite <- !app_assoc. eexists. reflexivity.
    + cbn [snd]. rewrite Hsent2, <- app_assoc. exists []. reflexivity.
Qed.

Lemma C10_upload_image_witness :
  sent (snd (upload_image Example.lib (Some "http://x/img.jpg")
               (Example.publisher (Some Example.good_token)
                  [Example.image; Example.image_stored])))
  = [Get "http://x/img.jpg"; Post (material_url (JStr "TOKEN-1"))].
Proof.
  destruct (C10_upload_image_requests Example.lib
              (Example.publisher (Some Example.good_token)
                 [Example.image; Example.image_stored]))
    as (_ & _ & H).
  destruct (H "http://x/img.jpg") as (_ & _ & _ & Hfresh & _); [discriminate|].
  apply (Hfresh None (NotJson (Exception "Expecting value")) Example.good_token).
  - vm_compute. reflexivity.
  - apply TokenFacts.sane_publisher.
  - split; [reflexivity|]. vm_compute. reflexivity.
Defined.

(** C10 as stated fails with a fresh token in the cache: the image is
    fetched and uploaded, the media id comes back, and no request went to
    the token endpoint. *)
Lemma C10_counterexample :
  fst (upload_image Example.lib (Some "http://x/img.jpg")
         (Example.publisher (Some Example.good_token)
            [Example.image; Example.image_stored]))
    = Ok (JStr "MEDIA-1") /\
  existsb is_exchange
    (sent (snd (upload_image Example.lib (Some "http://x/img.jpg")
                  (Example.publisher (Some Example.good_token)
                     [Example.image; Example.image_stored]))))
    = false.
Proof. split; vm_compute; reflexivity. Qed.

(** With nothing cached the same call does exchange credentials, between
    the fetch and the upload. *)
Lemma cold_upload_exchanges :
  sent (snd (upload_image Example.lib (Some "http://x/img.jpg")
               (Example.publisher None
                  [Example.image; Example.token_granted; Example.image_stored])))
  = [ Get "http://x/img.jpg";
      exchange (Example.publisher None []);
      Post (material_url (JStr "TOKEN-2")) ].
Proof. vm_compute. reflexivity. Qed.

End ApiFacts.

(** ** Further properties of the content normaliser *)
Module NormaliserExtras.
Import Text BinancePublisher WXPublisher Spec.

(** X1: on every input, [None], a [str] or a [bytes] object, the two
    normalisers do the same: either both return the same text, which holds
    no control character below 0x20 other than newline, tab and carriage
    return, or both raise the same exception, the ValueError of
    [html.unescape] on a decimal reference of more digits than the limit
    of the interpreter and than 640.  They return whenever the text of the
    input has no more than 640 characters, or no more than the limit, or
    the limit is switched off. *)
Theorem X1_normalisers_clean_or_too_many_digits (L : pylib) (v : pyval) :
  match _preprocess_content L v with
  | Ok y => _preprocess_article L v = Ok y /\ Forall (fun c => ~ stripped c) y
  | Raise e =>
      _preprocess_article L v = Raise e /\ too_many_digits L (length (py_str v)) e
  end /\
  ((length (py_str v) <= 640)%nat \/ (length (py_str v) <= int_max_str_digits L)%nat
   \/ int_max_str_digits L = 0%nat ->
   exists y, _preprocess_content L v = Ok y /\ _preprocess_article L v = Ok y).
Proof.
  assert (Hclean : forall x : text, Forall (fun c => ~ stripped c) (filter kept x)).
  { intros x. apply Forall_forall. intros c Hc.
    apply list_elem_of_filter in Hc as [Hk _].
    apply NormaliserFacts.kept_not_stripped. exact Hk. }
  rewrite NormaliserFacts.preprocess_article_content.
  assert (Hcases : match _preprocess_content L v with
                   | Ok y => Forall (fun c => ~ stripped c) y
                   | Raise e => too_many_digits L (length (py_str v)) e
                   end).
  { destruct (NormaliserFacts.preprocess_content_normalized L v) as [->| ->];
      [constructor|].
    destruct (normalized L (py_str v)) as [y|e] eqn:Hn.
    - unfold normalized in Hn.
      destruct (Html.unescape L (py_str v)); [|discriminate].
      injection Hn as <-. apply Hclean.
    - exact (NormaliserFacts.normalized_raises L _ e Hn). }
  split.
  - destruct (_preprocess_content L v); auto.
  - intros Hshort. destruct (_preprocess_content L v) as [y|e]; [eauto|].
    destruct Hcases as (n & _ & H1 & H2 & H3). lia.
Qed.

Lemma X1_normalisers_clean_witness :
  exists y,
    _preprocess_content Example.lib (PyStr (1 :: txt "&lt;b&gt;")) = Ok y /\
    _preprocess_article Example.lib (PyStr (1 :: txt "&lt;b&gt;")) = Ok y.
Proof.
  destruct (X1_normalisers_clean_or_too_many_digits Example.lib
              (PyStr (1 :: txt "&lt;b&gt;"))) as [_ H].
  apply H. left. vm_compute. lia.
Defined.

(** X2: the check of lines 96-110 of WXPublisher.py, which encodes the
    article and retries with other codecs, changes nothing:
    [_preprocess_article] and [_preprocess_content] do the same on every
    input, and a text with a lone surrogate, which cannot be encoded, is
    un-escaped and filtered like any other. *)
Theorem X2_normalisers_agree (L : pylib) (v : pyval) :
  _preprocess_article L v = _preprocess_content L v /\
  (forall x, utf8_encodable x = false ->
     _preprocess_article L (PyStr x)
       = res_bind (Html.unescape L x) (fun u => Ok (filter kept u))).
Proof.
  split; [|intros x _; apply NormaliserFacts.preprocess_article_str].
  apply NormaliserFacts.preprocess_article_content.
Qed.

Lemma X2_normalisers_agree_witness :
  utf8_encodable [104; 0xD800] = false /\
  _preprocess_article Example.lib (PyStr [104; 0xD800]) = Ok [104; 0xD800].
Proof.
  split; [reflexivity|].
  destruct (X2_normalisers_agree Example.lib PyNone) as [_ H].
  rewrite (H [104; 0xD800]) by reflexivity. reflexivity.
Defined.

End NormaliserExtras.

(** ** The process guard and the login check on a live page *)
Module GuardExtras.
Import BinancePublisher GuardSpec.

Lemma scan_passed_over (before rest : list (res exn (option string))) :
  Forall passed_over before ->
  scan_processes (before ++ rest) = scan_processes rest.
Proof.
  induction 1 as [|entry before (name & -> & Hname) _ IH]; [reflexivity|].
  cbn [app scan_processes]. unfold names_chrome in Hname. rewrite Hname. exact IH.
Qed.

(** The scan stops at the first entry that is Chrome or unreadable. *)
Lemma scan_stops (names : list (res exn (option string))) :
  (Forall passed_over names /\ scan_processes names = Ok false) \/
  (exists before entry rest,
     names = before ++ entry :: rest /\ Forall passed_over before /\
     ((exists name, entry = Ok (Some name) /\ names_chrome name = true /\
                    scan_processes names = Ok true) \/
      (unreadable entry /\ exists e, scan_processes names = Raise e))).
Proof.
  induction names as [|entry names IH].
  - left. split; [constructor|reflexivity].
  - destruct entry as [[name|]|e].
    + destruct (names_chrome name) eqn:Hname.
      * right. exists [], (Ok (Some name)), names.
        split_and!; [reflexivity|constructor|]. left. exists name.
        split_and!; [reflexivity|exact Hname|].
        cbn [scan_processes]. unfold names_chrome in Hname. rewrite Hname. reflexivity.
      * assert (Hp : passed_over (Ok (Some name))) by (exists name; auto).
        assert (Hs : scan_processes (Ok (Some name) :: names) = scan_processes names).
        { cbn [scan_processes]. unfold names_chrome in Hname. rewrite Hname. reflexivity. }
        destruct IH as [[Hall Hscan]|(before & entry & rest & -> & Hall & Hcase)].
        -- left. split; [constructor; assumption|]. rewrite Hs. exact Hscan.
        -- right. exists (Ok (Some name) :: before), entry, rest.
           split_and!; [reflexivity|constructor; assumption|].
           rewrite Hs. exact Hcase.
    + right. exists [], (Ok None), names.
      split_and!; [reflexivity|constructor|]. right.
      split; [left; reflexivity|]. eexists. reflexivity.
    + right. exists [], (Raise e), names.
      split_and!; [reflexivity|constructor|]. right.
      split; [right; eauto|]. eexists. reflexivity.
Qed.

(** X3: [_is_chrome_running] answers yes exactly when a process whose
    lower-cased name contains "chrome" is listed before any entry that
    cannot be read; an entry without a name, or one that raises, ends the
    scan with the answer no, so that a Chrome listed after it goes
    unnoticed. *)
Theorem X3_chrome_scan (names : list (res exn (option string))) :
  (_is_chrome_running names = true <->
   exists before name rest,
     names = before ++ Ok (Some name) :: rest /\
     Forall passed_over before /\ names_chrome name = true) /\
  (forall before entry rest,
     names = before ++ entry :: rest -> Forall passed_over before ->
     unreadable entry -> _is_chrome_running names = false).
Proof.
  split.
  - split.
    + intros Hrun. unfold _is_chrome_running in Hrun.
      destruct (scan_stops names)
        as [[_ Hscan]|(before & entry & rest & -> & Hall & [Hc|[_ [e He]]])].
      * rewrite Hscan in Hrun. discriminate.
      * destruct Hc as (name & -> & Hname & _).
        exists before, name, rest. split_and!; [reflexivity|exact Hall|exact Hname].
      * rewrite He in Hrun. discriminate.
    + intros (before & name & rest & -> & Hall & Hname).
      unfold _is_chrome_running. rewrite (scan_passed_over _ _ Hall).
      cbn [scan_processes]. unfold names_chrome in Hname. rewrite Hname. reflexivity.
  - intros before entry rest -> Hall Hentry.
    unfold _is_chrome_running. rewrite (scan_passed_over _ _ Hall).
    destruct Hentry as [->|[e ->]]; reflexivity.
Qed.

Lemma X3_chrome_scan_witness :
  _is_chrome_running [Ok (Some "bash"); Ok None; Ok (Some "Google Chrome")] = false /\
  _is_chrome_running [Ok (Some "bash"); Ok (Some "Google Chrome"); Ok None] = true.
Proof.
  split.
  - destruct (X3_chrome_scan [Ok (Some "bash"); Ok None; Ok (Some "Google Chrome")])
      as [_ H].
    apply (H [Ok (Some "bash")] (Ok None) [Ok (Some "Google Chrome")]).
    + reflexivity.
    + constructor; [|constructor]. exists "bash". split; reflexivity.
    + left. reflexivity.
  - destruct (X3_chrome_scan [Ok (Some "bash"); Ok (Some "Google Chrome"); Ok None])
      as [[_ H] _].
    apply H. exists [Ok (Some "bash")], "Google Chrome", [Ok None].
    split_and!; [reflexivity| |reflexivity].
    constructor; [|constructor]. exists "bash". split; reflexivity.
Defined.



End GuardExtras.

(** ** What a publish attempt does and does not do *)
Module AttemptExtras.
Import Text BinancePublisher AttemptSpec TraceSpec.

Lemma appends_ret (P : action -> Prop) {A} (a : A) : appends P (ret a).
Proof. intros s. exists []. cbn. rewrite app_nil_r. auto. Qed.

Lemma appends_throw (P : action -> Prop) {A} (e : exn) :
  appends P (@throw session exn A e).
Proof. intros s. exists []. cbn. rewrite app_nil_r. auto. Qed.

Lemma appends_gets (P : action -> Prop) {A} (f : session -> A) : appends P (gets f).
Proof. intros s. exists []. cbn. rewrite app_nil_r. auto. Qed.

Lemma appends_lift (P : action -> Prop) {A} (r : res exn A) : appends P (lift r).
Proof. intros s. exists []. cbn. rewrite app_nil_r. auto. Qed.

Lemma appends_set_browser (P : action -> Prop) : appends P (modify set_browser).
Proof. intros s. exists []. cbn. rewrite app_nil_r. auto. Qed.

Lemma appends_set_page (P : action -> Prop) : appends P (modify set_page).
Proof. intros s. exists []. cbn. rewrite app_nil_r. auto. Qed.

Lemma appends_act (P : action -> Prop) {A} (a : action) (outcome : res exn A) :
  P a -> appends P (act a outcome).
Proof. intros Ha s. exists [a]. cbn. auto. Qed.

Lemma appends_bind (P : action -> Prop) {A B}
    (m : M session exn A) (k : A -> M session exn B) :
  appends P m -> (forall a, appends P (k a)) -> appends P (bind m k).
Proof.
  intros Hm Hk s. unfold bind. destruct (Hm s) as (e1 & Ht1 & Hp1).
  destruct (m s) as [[a|e] s1]; cbn [snd] in *.
  - destruct (Hk a s1) as (e2 & Ht2 & Hp2). exists (e1 ++ e2).
    rewrite Ht2, Ht1, app_assoc. split; [reflexivity|]. apply Forall_app. auto.
  - exists e1. auto.
Qed.

(** After a call, what follows knows its answer. *)
Lemma appends_act_bind (P : action -> Prop) {A B} (a : action)
    (outcome : res exn A) (k : A -> M session exn B) :
  P a -> (forall x, outcome = Ok x -> appends P (k x)) ->
  appends P (bind (act a outcome) k).
Proof.
  intros Ha Hk s. unfold bind, act. destruct outcome as [x|e]; cbn [snd].
  - destruct (Hk x eq_refl (log a s)) as (e2 & Ht2 & Hp2). exists (a :: e2).
    rewrite Ht2. cbn [trace log]. rewrite <- app_assoc. auto.
  - exists [a]. auto.
Qed.

Lemma appends_try_except (P : action -> Prop) {A}
    (m : M session exn A) (h : exn -> M session exn A) :
  appends P m -> (forall e, appends P (h e)) -> appends P (try_except m h).
Proof.
  intros Hm Hh s. unfold try_except. destruct (Hm s) as (e1 & Ht1 & Hp1).
  destruct (m s) as [[a|e] s1]; cbn [snd] in *.
  - exists e1. auto.
  - destruct (Hh e s1) as (e2 & Ht2 & Hp2). exists (e1 ++ e2).
    rewrite Ht2, Ht1, app_assoc. split; [reflexivity|]. apply Forall_app. auto.
Qed.

Lemma appends_try_finally (P : action -> Prop) {A}
    (m : M session exn A) (f : M session exn unit) :
  appends P m -> appends P f -> appends P (try_finally m f).
Proof.
  intros Hm Hf s. unfold try_finally. destruct (Hm s) as (e1 & Ht1 & Hp1).
  destruct (m s) as [r s1]; cbn [snd] in *.
  destruct (Hf s1) as (e2 & Ht2 & Hp2).
  exists (e1 ++ e2).
  destruct (f s1) as [[u|e] s2]; cbn [snd] in *;
    rewrite Ht2, Ht1, app_assoc; (split; [reflexivity|]; apply Forall_app; auto).
Qed.

Lemma appends_if (P : action -> Prop) {A} (b : bool) (m1 m2 : M session exn A) :
  appends P m1 -> appends P m2 -> appends P (if b then m1 else m2).
Proof. destruct b; tauto. Qed.

Lemma appends_debug_screenshot (P : action -> Prop) (w : world) (tag : string) :
  P (DebugShot tag) -> appends P (_save_debug_screenshot w tag).
Proof.
  intros Hp. unfold _save_debug_screenshot.
  apply appends_bind; [apply appends_gets|]. intros open.
  apply appends_if; [apply appends_ret|].
  apply appends_try_except; [apply appends_act; exact Hp|].
  intros _. apply appends_ret.
Qed.

Lemma appends_shot_on_timeout (P : action -> Prop) {A} (w : world) (tag : string)
    (m : M session exn A) :
  P (DebugShot tag) -> appends P m -> appends P (shot_on_timeout w tag m).
Proof.
  intros Hp Hm. unfold shot_on_timeout. apply appends_try_except; [exact Hm|].
  intros []; try apply appends_throw.
  apply appends_bind; [apply appends_debug_screenshot; exact Hp|].
  intros _. apply appends_throw.
Qed.

(** The calls made between entering and leaving Playwright satisfy [P]
    when each of them does. *)
Lemma appends_session (P : action -> Prop) (w : world) (y : text) :
  P EnterPlaywright -> P (Launch (chosen_profile w)) ->
  P (ErrorShot (error_screenshot_path w)) -> P CloseBrowser -> P ExitPlaywright ->
  appends P (compose_and_post w y) ->
  appends P (with_playwright w
               (try_finally (try_except (publish_steps w y) (on_failure w))
                            (close_browser w))).
Proof.
  intros Henter Hlaunch Herr Hclose Hexit Hcompose.
  unfold with_playwright.
  apply appends_bind; [apply appends_act; exact Henter|]. intros _.
  apply appends_try_finally; [|apply appends_act; exact Hexit].
  apply appends_try_finally.
  - apply appends_try_except.
    + unfold publish_steps. apply appends_bind; [|intros _; apply Hcompose].
      unfold open_browser. apply appends_bind; [|intros _; apply appends_set_browser].
      apply appends_act.
      unfold chosen_profile in Hlaunch.
      destruct (path_exists w (path_join (chrome_user_dir w) (profile_name w))) eqn:Hnamed;
        [rewrite Hnamed|]; exact Hlaunch.
    + intros e. unfold on_failure.
      apply appends_bind; [|intros p; apply appends_ret].
      unfold _save_error_screenshot.
      apply appends_bind; [apply appends_gets|]. intros open.
      apply appends_if; [apply appends_ret|].
      apply appends_try_except; [|intros _; apply appends_ret].
      apply appends_bind; [apply appends_act; exact Herr|].
      intros _. apply appends_ret.
  - unfold close_browser. apply appends_bind; [apply appends_gets|]. intros b.
    apply appends_if; [|apply appends_ret].
    apply appends_try_except; [apply appends_act; exact Hclose|].
    intros _. apply appends_ret.
Qed.

(** The calls of a whole attempt satisfy [P] when those outside the
    composing of the post do and the composing keeps to [P]. *)
Lemma appends_push (P : action -> Prop) (L : pylib) (w : world) (content : pyval) :
  P KillCommand -> P EnterPlaywright -> P (Launch (chosen_profile w)) ->
  P (ErrorShot (error_screenshot_path w)) -> P CloseBrowser -> P ExitPlaywright ->
  (forall y, appends P (compose_and_post w y)) ->
  appends P (push_to_binance L w content).
Proof.
  intros Hkill Henter Hlaunch Herr Hclose Hexit Hcompose.
  unfold push_to_binance.
  apply appends_bind; [apply appends_lift|]. intros y.
  apply appends_try_except; [|intros e; apply appends_ret].
  apply appends_bind.
  { unfold resolve_conflict. apply appends_if; [|apply appends_ret].
    apply appends_bind; [|intros _; apply appends_ret].
    unfold _close_all_chrome_instances.
    apply appends_try_except; [|intros _; apply appends_ret].
    apply appends_bind; [apply appends_act; exact Hkill|].
    intros _. apply appends_ret. }
  intros _. apply appends_session; auto.
Qed.

(** The same for the calls recorded by an attempt from the start. *)
Lemma push_trace (P : action -> Prop) (L : pylib) (w : world) (content : pyval) :
  P KillCommand -> P EnterPlaywright -> P (Launch (chosen_profile w)) ->
  P (ErrorShot (error_screenshot_path w)) -> P CloseBrowser -> P ExitPlaywright ->
  (forall y, appends P (compose_and_post w y)) ->
  Forall P (trace (snd (push_to_binance L w content start))).
Proof.
  intros Hkill Henter Hlaunch Herr Hclose Hexit Hcompose.
  destruct (appends_push P L w content Hkill Henter Hlaunch Herr Hclose Hexit
              Hcompose start) as (ext & Ht & Hp).
  rewrite Ht. exact Hp.
Qed.

Ltac appends_step :=
  first
    [ apply appends_ret
    | apply appends_throw
    | apply appends_set_page
    | apply appends_debug_screenshot
    | apply appends_shot_on_timeout
    | apply appends_act_bind; [|intros ? ?]
    | apply appends_bind; [|intros ?]
    | apply appends_act
    | apply appends_if ].

(** X5: while the login check answers "not logged in", a publish attempt
    makes no call on the editor or on the post button: nothing is typed and
    nothing is posted, whatever else happens. *)
Theorem X5_no_post_without_login (L : pylib) (w : world) (content : pyval) :
  _check_login_status (login_page w) = false ->
  Forall (fun a => composes a = false)
         (trace (snd (push_to_binance L w content start))).
Proof.
  intros Hlogin.
  apply (push_trace (fun a => composes a = false)); try reflexivity.
  intros y. unfold compose_and_post. rewrite Hlogin. cbn [negb].
  repeat appends_step; reflexivity.
Qed.

Lemma X5_no_post_without_login_witness :
  Forall (fun a => composes a = false)
         (trace (snd (push_to_binance Example.lib Example.world_logged_out
                        (PyStr (txt "hello")) start))).
Proof.
  apply X5_no_post_without_login. vm_compute. reflexivity.
Defined.

(** X6: the keystroke fallback is used only when the editor reported no
    text after the content was set; and the profile directory the browser
    is launched on is the named profile or the default profile when that
    directory exists, and the user data directory otherwise. *)
Theorem X6_fallbacks (L : pylib) (w : world) (content : pyval) :
  Forall (fun a =>
            (forall c, a = TypeContent c -> read_editor w = Ok false) /\
            (forall p, a = Launch p ->
               p = chosen_profile w /\
               (path_exists w p = true \/ p = chrome_user_dir w)))
         (trace (snd (push_to_binance L w content start))).
Proof.
  apply (push_trace
           (fun a =>
              (forall c, a = TypeContent c -> read_editor w = Ok false) /\
              (forall p, a = Launch p ->
                 p = chosen_profile w /\
                 (path_exists w p = true \/ p = chrome_user_dir w))));
    try (split; intros; discriminate).
  - split; [intros; discriminate|]. intros p [= <-]. split; [reflexivity|].
    unfold chosen_profile.
    destruct (path_exists w (path_join (chrome_user_dir w) (profile_name w))) eqn:H1;
      [left; exact H1|].
    destruct (path_exists w (path_join (chrome_user_dir w) "Default")) eqn:H2;
      [left; exact H2|right; reflexivity].
  - intros y. unfold compose_and_post.
    repeat first
      [ match goal with
        | H : read_editor w = Ok ?b |- appends _ (if negb ?b then _ else _) =>
            destruct b; cbn [negb];
            [apply appends_ret
            |apply appends_act; split; [intros ? _; exact H|intros; discriminate]]
        end
      | appends_step ];
      try (split; intros; discriminate).
Qed.

(** X17: when the content is normalised without exception, the kill
    command of [_close_all_chrome_instances] is run exactly when
    [_is_chrome_running] answers yes at the start, once, and before
    Playwright is entered; whatever the command comes to, Playwright is
    entered next.  After that the command is not run and Playwright is not
    entered again.  When the normalisation raises, nothing is called. *)
Theorem X17_kill_before_playwright (L : pylib) (w : world) (content : pyval) :
  match _preprocess_content L content with
  | Raise e => push_to_binance L w content start = (Raise e, start)
  | Ok _ =>
      exists rest,
        trace (snd (push_to_binance L w content start))
        = (if _is_chrome_running (processes w) then [KillCommand] else [])
          ++ EnterPlaywright :: rest /\
        Forall (fun a => a <> KillCommand /\ a <> EnterPlaywright) rest
  end.
Proof.
  destruct (_preprocess_content L content) as [y|e0] eqn:Hy.
  2: { unfold push_to_binance, bind, lift. rewrite Hy. reflexivity. }
  assert (Hresolve : exists s1,
            resolve_conflict w start = (Ok tt, s1) /\
            trace s1 = if _is_chrome_running (processes w) then [KillCommand] else []).
  { unfold resolve_conflict. destruct (_is_chrome_running (processes w)).
    - unfold _close_all_chrome_instances, bind, try_except, act, ret.
      destruct (kill w); eexists; split; reflexivity.
    - eexists; split; reflexivity. }
  destruct Hresolve as (s1 & Hrun & Hkill).
  assert (Hsession : appends (fun a => a <> KillCommand /\ a <> EnterPlaywright)
            (try_finally
               (try_finally (try_except (publish_steps w y) (on_failure w))
                            (close_browser w))
               (act ExitPlaywright (pw_exit w)))).
  { apply appends_try_finally; [|apply appends_act; split; discriminate].
    apply appends_try_finally.
    - apply appends_try_except.
      + unfold publish_steps, open_browser, compose_and_post.
        repeat first [apply appends_set_browser | appends_step];
          try (split; discriminate).
      + intros e. unfold on_failure, _save_error_screenshot.
        apply appends_bind; [|intros p; apply appends_ret].
        apply appends_bind; [apply appends_gets|]. intros open.
        apply appends_if; [apply appends_ret|].
        apply appends_try_except; [|intros _; apply appends_ret].
        apply appends_bind; [apply appends_act; split; discriminate|].
        intros _. apply appends_ret.
    - unfold close_browser. apply appends_bind; [apply appends_gets|]. intros b.
      apply appends_if; [|apply appends_ret].
      apply appends_try_except; [apply appends_act; split; discriminate|].
      intros _. apply appends_ret. }
  destruct (Hsession (log EnterPlaywright s1)) as (ext & Hext & Hall).
  unfold push_to_binance, bind at 1, lift. rewrite Hy.
  unfold try_except at 1, bind at 1. rewrite Hrun.
  unfold with_playwright, bind at 1, act at 1.
  destruct (pw_enter w) as [u|e].
  - exists ext. split; [|exact Hall].
    match goal with
    | |- trace (snd (match ?m with _ => _ end)) = _ =>
        replace (trace (snd (match m with
                             | (Ok a, s') => (Ok a, s')
                             | (Raise e, s') => ret (connection_failed e) s'
                             end)))
          with (trace (snd m)) by (destruct m as [[?|?] ?]; reflexivity)
    end.
    rewrite Hext. cbn [trace log]. rewrite Hkill, <- app_assoc. reflexivity.
  - exists []. split; [|constructor].
    cbn [snd ret trace log]. rewrite Hkill. reflexivity.
Qed.

(** *** When an attempt succeeds *)

Lemma returns_act_bind {A B} (P : B -> Prop) (a : action) (outcome : res exn A)
    (k : A -> M session exn B) :
  (forall x, outcome = Ok x -> returns P (k x)) -> returns P (bind (act a outcome) k).
Proof.
  intros Hk s b s'. unfold bind, act.
  destruct outcome as [x|e]; [apply (Hk x eq_refl)|discriminate].
Qed.

Lemma returns_assoc {A B C} (P : C -> Prop) (m : M session exn A)
    (k1 : A -> M session exn B) (k2 : B -> M session exn C) :
  returns P (bind m (fun x => bind (k1 x) k2)) -> returns P (bind (bind m k1) k2).
Proof.
  intros H s b s'. specialize (H s b s'). unfold bind in *.
  destruct (m s) as [[a|e] s1]; exact H.
Qed.

(** A wait that raises is not turned into a return by its screenshot. *)
Lemma returns_shot_bind {A B} (P : B -> Prop) (w : world) (tag : string)
    (m : M session exn A) (k : A -> M session exn B) :
  returns P (bind m k) -> returns P (bind (shot_on_timeout w tag m) k).
Proof.
  intros H s b s'. specialize (H s b s').
  unfold bind, shot_on_timeout, try_except in *.
  destruct (m s) as [[a|e] s1]; [exact H|].
  destruct e; unfold bind, throw; try (intros [=]; fail).
  destruct (_save_debug_screenshot w tag s1) as [[u|e'] s2]; intros [=].
Qed.

Lemma compose_success (w : world) (content : text) :
  returns (fun r => status r = "success" -> composed w) (compose_and_post w content).
Proof.
  unfold compose_and_post.
  apply returns_act_bind; intros ? Hnew.
  apply PublishAttemptFacts.returns_bind; intros _.
  apply returns_act_bind; intros ? Hgoto.
  apply PublishAttemptFacts.returns_bind; intros _.
  apply returns_act_bind; intros ? Hload.
  destruct (_check_login_status (login_page w)) eqn:Hlogin; cbn [negb].
  2: { apply PublishAttemptFacts.returns_bind; intros _.
       apply PublishAttemptFacts.returns_ret. discriminate. }
  apply PublishAttemptFacts.returns_bind; intros _.
  apply returns_shot_bind, returns_assoc.
  apply returns_act_bind; intros ? Heditor.
  apply PublishAttemptFacts.returns_bind; intros _.
  apply returns_act_bind; intros ? Hclear.
  apply returns_act_bind; intros ? Hset.
  apply returns_act_bind; intros ? Hclick.
  apply returns_act_bind; intros filled Hread.
  assert (Hdone :
    (read_editor w = Ok true \/
     (read_editor w = Ok false /\ is_ok (type_content w) = true)) ->
    returns (fun r => status r = "success" -> composed w)
      (_ <- _save_debug_screenshot w "content_entered" ;;
       _ <- shot_on_timeout w "post_button_timeout"
              (_ <- act WaitPostButton (post_wait w) ;;
               _ <- _save_debug_screenshot w "before_post_click" ;;
               act ClickPostButton (post_click w)) ;;
       _ <- act Settle (settle w) ;;
       _ <- _save_debug_screenshot w "post_completed" ;;
       ret pushed)%py).
  { intros Hfilled.
    apply PublishAttemptFacts.returns_bind; intros _.
    apply returns_shot_bind, returns_assoc.
    apply returns_act_bind; intros ? Hwait.
    apply returns_assoc.
    apply PublishAttemptFacts.returns_bind; intros _.
    apply returns_act_bind; intros ? Hpost.
    apply returns_act_bind; intros ? Hsettle.
    apply PublishAttemptFacts.returns_bind; intros _.
    apply PublishAttemptFacts.returns_ret. intros _.
    unfold composed.
    rewrite Hnew, Hgoto, Hload, Heditor, Hclear, Hset, Hclick, Hwait, Hpost, Hsettle.
    split_and!; auto. }
  destruct filled; cbn [negb].
  - apply PublishAttemptFacts.returns_bind; intros _. apply Hdone. left. exact Hread.
  - apply returns_act_bind; intros ? Htype. apply Hdone. right.
    rewrite Htype. auto.
Qed.

Lemma publish_success (w : world) (content : text) :
  returns (fun r => status r = "success" -> is_ok (launch w) = true /\ composed w)
          (publish_steps w content).
Proof.
  unfold publish_steps, open_browser.
  apply returns_assoc.
  apply returns_act_bind; intros ? Hlaunch.
  apply PublishAttemptFacts.returns_bind; intros _.
  intros s r s' Hrun Hstatus. rewrite Hlaunch.
  split; [reflexivity|]. exact (compose_success w content s r s' Hrun Hstatus).
Qed.

(** A success is returned only when every step succeeded. *)
Lemma push_success (L : pylib) (w : world) (content : pyval) (r : result) (s : session) :
  push_to_binance L w content start = (Ok r, s) -> status r = "success" ->
  all_steps_ok w.
Proof.
  intros Hrun Hstatus.
  destruct (PublishAttemptFacts.resolve_conflict_run w start) as (s1 & ext1 & H1 & _).
  unfold push_to_binance, bind at 1, lift in Hrun.
  destruct (_preprocess_content L content) as [y|e]; [|discriminate].
  unfold try_except at 1, bind at 1 in Hrun. rewrite H1 in Hrun.
  unfold with_playwright, bind at 1, act at 1 in Hrun.
  destruct (pw_enter w) as [u|e] eqn:Henter.
  2: { injection Hrun as <- _. discriminate. }
  destruct (PublishAttemptFacts.guarded_run w y (log EnterPlaywright s1))
    as (r2 & s2 & ext & Hguard & _ & _ & _ & _ & Hres).
  unfold try_finally at 1 in Hrun. rewrite Hguard in Hrun. unfold act in Hrun.
  destruct (pw_exit w) as [u'|e'] eqn:Hexit.
  2: { injection Hrun as <- _. discriminate. }
  injection Hrun as -> _.
  destruct (publish_steps w y (log EnterPlaywright s1)) as [[r'|e] s'] eqn:Hsteps.
  - subst r'. destruct (publish_success w y _ _ _ Hsteps Hstatus) as [Hlaunch Hcomposed].
    unfold all_steps_ok. rewrite Henter, Hexit. auto.
  - subst r. discriminate.
Qed.

Lemma bind_run {A B} (m : M session exn A) (k : A -> M session exn B)
    (s s1 : session) (a : A) (out : res exn B * session) :
  m s = (Ok a, s1) -> k a s1 = out -> bind m k s = out.
Proof. intros Hm Hk. unfold bind. rewrite Hm. exact Hk. Qed.

Lemma try_except_ok {A} (m : M session exn A) (h : exn -> M session exn A)
    (s s1 : session) (a : A) :
  m s = (Ok a, s1) -> try_except m h s = (Ok a, s1).
Proof. intros Hm. unfold try_except. rewrite Hm. reflexivity. Qed.

Lemma try_finally_ok {A} (m : M session exn A) (f : M session exn unit)
    (s s1 s2 : session) (r : res exn A) (u : unit) :
  m s = (r, s1) -> f s1 = (Ok u, s2) -> try_finally m f s = (r, s2).
Proof. intros Hm Hf. unfold try_finally. rewrite Hm, Hf. reflexivity. Qed.

(** With a page open a debugging screenshot is taken, and whether it
    works or not makes no difference. *)
Lemma debug_run (w : world) (tag : string) (s : session) :
  page_open s = true -> _save_debug_screenshot w tag s = (Ok tt, log (DebugShot tag) s).
Proof.
  intros Hopen. unfold _save_debug_screenshot, bind, gets, try_except, act, ret.
  rewrite Hopen. cbn [negb]. destruct (debug_shot w tag) as [[]|e]; reflexivity.
Qed.

(** [browser.close()] is called on a launched browser, and an exception
    it raises is swallowed. *)
Lemma close_run (w : world) (s : session) :
  browser s = true -> close_browser w s = (Ok tt, log CloseBrowser s).
Proof.
  intros Hb. unfold close_browser, bind, gets, try_except, act, ret.
  rewrite Hb. destruct (close w) as [[]|e]; reflexivity.
Qed.

Lemma open_browser_profile (w : world) :
  open_browser w
  = (_ <- act (Launch (chosen_profile w)) (launch w) ;; modify set_browser)%py.
Proof.
  unfold open_browser, chosen_profile.
  destruct (path_exists w (path_join (chrome_user_dir w) (profile_name w))) eqn:Hnamed;
    [rewrite Hnamed|]; reflexivity.
Qed.

Ltac run :=
  lazymatch goal with
  | |- bind _ _ _ = _ => eapply bind_run; [run | cbv beta; run]
  | |- shot_on_timeout _ _ _ _ = _ => apply try_except_ok; run
  | |- _save_debug_screenshot _ _ _ = _ => apply debug_run; reflexivity
  | |- _ => reflexivity
  end.

Lemma compose_run (w : world) (content : text) (s : session) :
  composed w ->
  exists s',
    compose_and_post w content s = (Ok pushed, s') /\
    trace s' = trace s ++ page_calls w content /\
    browser s' = browser s.
Proof.
  intros (Hnew & Hgoto & Hload & Hlogin & Heditor & Hclear & Hset & Hclick & Hread
          & Hwait & Hpost & Hsettle).
  unfold compose_and_post, page_calls. rewrite Hlogin. cbn [negb].
  destruct (new_page w) as [[]|]; [|discriminate].
  destruct (goto w) as [[]|]; [|discriminate].
  destruct (wait_load w) as [[]|]; [|discriminate].
  destruct (editor_wait w) as [[]|]; [|discriminate].
  destruct (clear_editor w) as [[]|]; [|discriminate].
  destruct (set_content w) as [[]|]; [|discriminate].
  destruct (click_editor w) as [[]|]; [|discriminate].
  destruct (post_wait w) as [[]|]; [|discriminate].
  destruct (post_click w) as [[]|]; [|discriminate].
  destruct (settle w) as [[]|]; [|discriminate].
  destruct Hread as [->|[-> Htype]].
  - eexists. split; [run|].
    cbn [trace browser log set_page app]. rewrite <- !app_assoc. auto.
  - destruct (type_content w) as [[]|]; [|discriminate].
    eexists. split; [run|].
    cbn [trace browser log set_page app]. rewrite <- !app_assoc. auto.
Qed.

(** When the content is normalised and every step succeeds, the attempt
    returns the success result after exactly the calls of
    [success_calls]. *)
Lemma push_run (L : pylib) (w : world) (content : pyval) (y : text) :
  _preprocess_content L content = Ok y ->
  all_steps_ok w ->
  exists s,
    push_to_binance L w content start = (Ok pushed, s) /\
    trace s = trace (snd (resolve_conflict w start)) ++ success_calls w y.
Proof.
  intros Hy (Henter & Hlaunch & Hcomposed & Hexit).
  destruct (PublishAttemptFacts.resolve_conflict_run w start)
    as (s1 & ext1 & H1 & _ & _ & Hb1 & _).
  destruct (compose_run w y (set_browser (log (Launch (chosen_profile w))
                                              (log EnterPlaywright s1))) Hcomposed)
    as (s2 & Hrun & Htrace & Hb2).
  exists (log ExitPlaywright (log CloseBrowser s2)).
  split.
  - unfold push_to_binance. rewrite Hy.
    destruct (pw_enter w) as [[]|] eqn:E1; [|discriminate].
    destruct (launch w) as [[]|] eqn:E2; [|discriminate].
    destruct (pw_exit w) as [[]|] eqn:E3; [|discriminate].
    eapply bind_run; [reflexivity|]. cbv beta.
    apply try_except_ok.
    eapply bind_run; [exact H1|]. cbv beta.
    unfold with_playwright. rewrite E1, E3.
    eapply bind_run; [reflexivity|]. cbv beta.
    eapply try_finally_ok; [|reflexivity].
    eapply try_finally_ok; [|apply close_run; rewrite Hb2; reflexivity].
    apply try_except_ok.
    unfold publish_steps. rewrite open_browser_profile, E2.
    eapply bind_run; [run|]. exact Hrun.
  - rewrite H1. cbn [snd trace log]. rewrite Htrace.
    unfold success_calls. cbn [trace log set_browser].
    rewrite <- !app_assoc. reflexivity.
Qed.

(** X7: [push_to_binance] reports success only when Playwright starts
    and stops, the browser launches, every call on the page succeeds and
    the login check passes; and when all of that is so and the content is
    normalised without exception, it does report success: a failing
    debugging screenshot or a failing [browser.close()] does not prevent
    it.  The result is then the success dictionary, and after the kill
    command, if it was run, the calls made are exactly those of
    [success_calls]: the normalised content is set once, typed only if the
    editor stayed empty, the post button is clicked once, and the browser
    is closed before Playwright is left.  When the normalisation raises,
    the exception reaches the caller, whatever the steps would do. *)
Theorem X7_success_exactly_when_all_steps (L : pylib) (w : world) (content : pyval) :
  (forall r, fst (push_to_binance L w content start) = Ok r -> status r = "success" ->
     all_steps_ok w /\ exists y, _preprocess_content L content = Ok y) /\
  (forall y, _preprocess_content L content = Ok y -> all_steps_ok w ->
     fst (push_to_binance L w content start) = Ok pushed /\
     trace (snd (push_to_binance L w content start))
     = trace (snd (resolve_conflict w start)) ++ success_calls w y) /\
  (forall e, _preprocess_content L content = Raise e ->
     push_to_binance L w content start = (Raise e, start)).
Proof.
  split_and!.
  - intros r Hr Hstatus.
    destruct (push_to_binance L w content start) as [out s] eqn:Hrun.
    cbn [fst] in Hr. subst out. split; [exact (push_success L w content r s Hrun Hstatus)|].
    unfold push_to_binance, bind, lift in Hrun.
    destruct (_preprocess_content L content) as [y|e]; [eauto|discriminate].
  - intros y Hy Hall. destruct (push_run L w content y Hy Hall) as (s & Hrun & Htrace).
    rewrite Hrun. split; [reflexivity|exact Htrace].
  - intros e He. unfold push_to_binance, bind, lift. rewrite He. reflexivity.
Qed.

Lemma X7_success_exactly_when_all_steps_witness :
  all_steps_ok Example.world_fine /\
  fst (push_to_binance Example.lib Example.world_fine (PyStr (txt "hello")) start)
  = Ok pushed.
Proof.
  assert (H : all_steps_ok Example.world_fine).
  { unfold all_steps_ok, composed.
    split_and!; try (vm_compute; reflexivity). left. reflexivity. }
  split; [exact H|].
  destruct (X7_success_exactly_when_all_steps Example.lib Example.world_fine
              (PyStr (txt "hello"))) as (_ & Hx & _).
  exact (proj1 (Hx (txt "hello") eq_refl H)).
Defined.

End AttemptExtras.

(** ** The access token across calls *)
Module TokenExtras.
Import WXPublisher TokenSpec.

(** What one call of [ensure_access_token] leaves behind, from any state. *)
Lemma ensure_post (L : pylib) (s s' : state) (r : res exn json) :
  ensure_access_token L s = (r, s') ->
  (sent s' = sent s \/ sent s' = sent s ++ [exchange s]) /\
  (forall tok, r = Ok tok ->
     exists tk, self_access_token s' = Some tk /\ access_token tk = tok) /\
  (forall e, r = Raise e -> self_access_token s' = self_access_token s) /\
  (sent s' = sent s -> self_access_token s' = self_access_token s) /\
  env s' = env s /\ clock s' = clock s /\ replies s' = replies s.
Proof.
  assert (Hne : forall (l : list request) rq, l ++ [rq] = l -> False).
  { intros l rq H. apply (f_equal length) in H. rewrite length_app in H.
    cbn in H. lia. }
  assert (Hfetch : forall s0 : state,
            sent s0 = sent s -> env s0 = env s -> clock s0 = clock s ->
            replies s0 = replies s -> self_access_token s0 = self_access_token s ->
            fetch_token L s0 = (r, s') ->
            (sent s' = sent s \/ sent s' = sent s ++ [exchange s]) /\
            (forall tok, r = Ok tok ->
               exists tk, self_access_token s' = Some tk /\ access_token tk = tok) /\
            (forall e, r = Raise e -> self_access_token s' = self_access_token s) /\
            (sent s' = sent s -> self_access_token s' = self_access_token s) /\
            env s' = env s /\ clock s' = clock s /\ replies s' = replies s).
  { intros s0 Hsent Henv Hclock Hreplies Htoken Hrun.
    rewrite TokenFacts.fetch_token_run in Hrun.
    assert (Hx : exchange s0 = exchange s) by (unfold exchange; rewrite Henv; reflexivity).
    repeat case_match; injection Hrun as <- <-;
      cbn [sent env clock replies self_access_token exchanged record_request
           set_credentials set_token tick];
      rewrite ?Hx, ?Hsent, ?Henv, ?Hclock, ?Hreplies, ?Htoken;
      (split_and!; [right; reflexivity| | | |reflexivity|reflexivity|reflexivity]);
      try (intros ? [=]; subst; eauto; fail);
      try (intros ?; reflexivity);
      try (intros Habs; exfalso; exact (Hne _ _ Habs)). }
  unfold ensure_access_token, bind at 1, usable_token, bind at 1, gets.
  destruct (self_access_token s) as [tk|] eqn:Hc.
  - unfold bind at 1, now, bind at 1, lift.
    destruct (dt_add (clock s (ticks s)) minute) as [limit|e].
    + unfold ret. destruct (limit <? expires_at tk).
      * intros [= <- <-]. cbn [sent env clock replies self_access_token tick].
        split_and!; auto; try (intros ? [=]; fail). intros tok [= <-]. eauto.
      * intros Hrun. apply (Hfetch (tick s)); auto.
    + intros [= <- <-]. cbn [sent env clock replies self_access_token tick].
      split_and!; auto; intros ? [=].
  - unfold ret. intros Hrun. apply (Hfetch s); auto.
Qed.

(** X10: from any state, one call of [ensure_access_token] makes at most
    one request, the GET of the token endpoint with the credentials of the
    environment.  When it returns a token, that token is the one now
    cached; when it raises, and whenever it makes no request, the cached
    token is the one that was cached before.  The environment, the clock
    and the answers still to come are left alone. *)
Theorem X10_token_step (L : pylib) (s : state) :
  (sent (snd (ensure_access_token L s)) = sent s \/
   sent (snd (ensure_access_token L s)) = sent s ++ [exchange s]) /\
  (forall tok, fst (ensure_access_token L s) = Ok tok ->
     exists tk, self_access_token (snd (ensure_access_token L s)) = Some tk /\
                access_token tk = tok) /\
  (forall e, fst (ensure_access_token L s) = Raise e ->
     self_access_token (snd (ensure_access_token L s)) = self_access_token s) /\
  (sent (snd (ensure_access_token L s)) = sent s ->
   self_access_token (snd (ensure_access_token L s)) = self_access_token s) /\
  env (snd (ensure_access_token L s)) = env s /\
  clock (snd (ensure_access_token L s)) = clock s /\
  replies (snd (ensure_access_token L s)) = replies s.
Proof.
  destruct (ensure_access_token L s) as [r s'] eqn:Hrun.
  exact (ensure_post L s s' r Hrun).
Qed.

Lemma X10_token_step_witness :
  exists tk,
    self_access_token
      (snd (ensure_access_token Example.lib
              (Example.publisher None [Example.token_granted]))) = Some tk /\
    access_token tk = JStr "TOKEN-2".
Proof.
  destruct (X10_token_step Example.lib (Example.publisher None [Example.token_granted]))
    as (_ & H & _).
  apply H. vm_compute. reflexivity.
Defined.

(** X11: a token that [ensure_access_token] has returned is returned
    again by the next call, without a request and without touching the
    cache, as long as the clock read by that call is more than a minute
    short of the token's expiry. *)
Theorem X11_token_reused (L : pylib) (s : state) (tok : json) :
  sane s ->
  fst (ensure_access_token L s) = Ok tok ->
  exists tk,
    self_access_token (snd (ensure_access_token L s)) = Some tk /\
    access_token tk = tok /\
    (clock s (ticks (snd (ensure_access_token L s))) + minute < expires_at tk ->
     ensure_access_token L (snd (ensure_access_token L s))
     = (Ok tok, tick (snd (ensure_access_token L s)))).
Proof.
  intros Hsane Hok.
  destruct (ensure_access_token L s) as [r s'] eqn:Hrun. cbn [fst snd] in *. subst r.
  destruct (ensure_post L s s' (Ok tok) Hrun) as (_ & Htok & _ & _ & _ & Hclock & _).
  destruct (Htok tok eq_refl) as (tk & Hcached & Haccess).
  exists tk. split_and!; [exact Hcached|exact Haccess|].
  intros Hfresh. rewrite <- Haccess.
  apply TokenFacts.ensure_fresh.
  - intros k. rewrite Hclock. apply Hsane.
  - split; [exact Hcached|]. rewrite Hclock. exact Hfresh.
Qed.

Lemma X11_token_reused_witness :
  let s1 := snd (ensure_access_token Example.lib
                   (Example.publisher None [Example.token_granted])) in
  ensure_access_token Example.lib s1 = (Ok (JStr "TOKEN-2"), tick s1).
Proof.
  intros s1.
  destruct (X11_token_reused Example.lib (Example.publisher None [Example.token_granted])
              (JStr "TOKEN-2") (TokenFacts.sane_publisher _ _))
    as (tk & Hcached & _ & Hreuse).
  { vm_compute. reflexivity. }
  apply Hreuse.
  vm_compute in Hcached. injection Hcached as <-. vm_compute. reflexivity.
Defined.

End TokenExtras.

(** ** Content images *)
Module UploadExtras.
Import WXPublisher WXPublish TokenSpec UploadSpec.

Lemma uploadimg_post_run (tok : json) (s : state) :
  logged
    (answer <- send (Post (uploadimg_url tok)) ;;
     response <- lift (json_of (snd answer)) ;;
     if bool_decide (is_Some (response !! "errcode")) then
       errmsg <- lift (getitem response "errmsg") ;;
       throw (Exception ("上传图文消息图片失败: " +:+ json_str errmsg))
     else lift (getitem response "url"))%py s
  = uploadimg_post tok s.
Proof.
  unfold uploadimg_post, logged, try_except, bind at 1, send at 1.
  destruct (next_reply s) as [e|enc [r|e]]; try reflexivity.
  unfold bind, lift, getitem, throw. cbn [snd json_of].
  destruct (r !! "errcode") as [code|].
  - rewrite bool_decide_eq_true_2 by eauto. destruct (r !! "errmsg"); reflexivity.
  - rewrite bool_decide_eq_false_2 by (intros [? ?]; discriminate).
    destruct (r !! "url"); reflexivity.
Qed.

Lemma upload_content_image_run (L : pylib) (image_url : string)
    (image_buffer : option (list Byte.byte)) (s : state) :
  image_url <> "" ->
  upload_content_image L (Some image_url) image_buffer s =
  match ensure_access_token L s with
  | (Raise e, s1) => (Raise e, s1)
  | (Ok tok, s1) =>
      if given image_buffer then uploadimg_post tok s1
      else
        match next_reply s1 with
        | Unreachable e => (Raise e, record_request (Get image_url) s1)
        | Response _ _ => uploadimg_post tok (record_request (Get image_url) s1)
        end
  end.
Proof.
  intros Hurl. destruct image_url as [|c u]; [contradiction|].
  unfold upload_content_image, bind at 1.
  destruct (ensure_access_token L s) as [[tok|e] s1]; [|reflexivity].
  cbv zeta. rewrite <- !uploadimg_post_run.
  destruct image_buffer as [[|b bs]|]; cbn [given];
    unfold logged, try_except; unfold bind at 1; try reflexivity;
    unfold bind at 1, send at 1;
    destruct (next_reply s1) as [e|enc body]; reflexivity.
Qed.

Lemma uploadimg_post_sent (tok : json) (s : state) :
  sent (snd (uploadimg_post tok s)) = sent s ++ [Post (uploadimg_url tok)].
Proof. unfold uploadimg_post. repeat case_match; reflexivity. Qed.

(** X12: [upload_content_image] raises on an empty URL before anything
    else, buffer or not.  Otherwise the token comes first: if it cannot be
    had the image is not fetched and nothing is posted.  With a non-empty
    buffer the image URL is never requested and the one request after the
    token step is the POST; without one the image is fetched and, if that
    works, posted.  A value is returned only when the endpoint answered
    with a JSON object that has no [errcode] key, and it is the [url] of
    that object. *)
Theorem X12_content_image (L : pylib) (image_url : string)
    (image_buffer : option (list Byte.byte)) (s : state) :
  upload_content_image L None image_buffer s
    = (Raise (Exception "图片URL不能为空"), s) /\
  upload_content_image L (Some "") image_buffer s
    = (Raise (Exception "图片URL不能为空"), s) /\
  (image_url <> "" ->
   (forall e s1, ensure_access_token L s = (Raise e, s1) ->
      upload_content_image L (Some image_url) image_buffer s = (Raise e, s1)) /\
   (forall tok s1, ensure_access_token L s = (Ok tok, s1) ->
      (given image_buffer = true ->
       sent (snd (upload_content_image L (Some image_url) image_buffer s))
       = sent s1 ++ [Post (uploadimg_url tok)]) /\
      (given image_buffer = false ->
       (forall e, next_reply s1 = Unreachable e ->
          upload_content_image L (Some image_url) image_buffer s
          = (Raise e, record_request (Get image_url) s1)) /\
       (forall enc b, next_reply s1 = Response enc b ->
          sent (snd (upload_content_image L (Some image_url) image_buffer s))
          = sent s1 ++ [Get image_url; Post (uploadimg_url tok)])) /\
      (forall u s', upload_content_image L (Some image_url) image_buffer s = (Ok u, s') ->
         exists s2 enc r,
           s' = record_request (Post (uploadimg_url tok)) s2 /\
           next_reply s2 = Response enc (Json r) /\
           r !! "errcode" = None /\ r !! "url" = Some u))).
Proof.
  split; [reflexivity|]. split; [reflexivity|].
  intros Hurl. rewrite (upload_content_image_run L image_url image_buffer s Hurl).
  assert (Hok : forall tok s2 u s',
            uploadimg_post tok s2 = (Ok u, s') ->
            exists enc r,
              s' = record_request (Post (uploadimg_url tok)) s2 /\
              next_reply s2 = Response enc (Json r) /\
              r !! "errcode" = None /\ r !! "url" = Some u).
  { intros tok s2 u s'. unfold uploadimg_post.
    destruct (next_reply s2) as [e|enc [r|e]] eqn:Hreply; try discriminate.
    destruct (r !! "errcode") eqn:Hcode; [destruct (r !! "errmsg"); discriminate|].
    destruct (r !! "url") as [u'|] eqn:Hu; [|discriminate].
    intros [= <- <-]. exists enc, r. auto. }
  split.
  - intros e s1 ->. reflexivity.
  - intros tok s1 ->. split_and!.
    + intros ->. apply uploadimg_post_sent.
    + intros ->. split.
      * intros e ->. reflexivity.
      * intros enc b ->. rewrite uploadimg_post_sent. cbn [sent record_request].
        rewrite <- app_assoc. reflexivity.
    + intros u s'. destruct (given image_buffer).
      * intros Hrun. destruct (Hok _ _ _ _ Hrun) as (enc & r & H). exists s1, enc, r. exact H.
      * destruct (next_reply s1) as [e|enc b]; [discriminate|].
        intros Hrun. destruct (Hok _ _ _ _ Hrun) as (enc' & r & H).
        exists (record_request (Get image_url) s1), enc', r. exact H.
Qed.

Lemma X12_content_image_witness :
  sent (snd (upload_content_image Example.lib (Some "http://x/img.jpg")
               (Some [Byte.x89; Byte.x50])
               (Example.publisher (Some Example.good_token) [Example.image_stored])))
  = [Post (uploadimg_url (JStr "TOKEN-1"))] /\
  fst (upload_content_image Example.lib (Some "http://x/img.jpg")
         (Some [Byte.x89; Byte.x50])
         (Example.publisher (Some Example.good_token) [Example.image_stored]))
  = Ok (JStr "http://mmbiz.qpic.cn/1").
Proof.
  destruct (X12_content_image Example.lib "http://x/img.jpg" (Some [Byte.x89; Byte.x50])
              (Example.publisher (Some Example.good_token) [Example.image_stored]))
    as (_ & _ & H).
  destruct H as [_ H]; [discriminate|].
  destruct (H (JStr "TOKEN-1")
              (tick (Example.publisher (Some Example.good_token) [Example.image_stored])))
    as (Hsent & _ & _).
  { apply (TokenFacts.ensure_fresh Example.lib _ Example.good_token);
      [apply TokenFacts.sane_publisher|].
    split; [reflexivity|]. vm_compute. reflexivity. }
  split; [exact (Hsent eq_refl)|]. vm_compute. reflexivity.
Defined.

End UploadExtras.

(** ** Publishing a draft *)
Module PublishExtras.
Import WXPublisher WXPublish TokenSpec UploadSpec.

Lemma publish_run (L : pylib) (K : markup) (article title digest : text) (thumb : json)
    (s : state) :
  publish L K article title digest thumb s =
  match _preprocess_article L (PyStr article) with
  | Raise e => (Raise e, s)
  | Ok normal =>
      match upload_draft L K normal title digest thumb s with
      | (Raise e, s1) => (Raise e, s1)
      | (Ok d, s1) =>
          if direct_mode s then
            match direct_publish L (json_str (media_id d)) s1 with
            | (Raise e, s2) => (Raise e, s2)
            | (Ok job, s2) =>
                (Ok {| publishId := publish_id job;
                       draftId := Some (media_id d);
                       publish_state := "publishing";
                       publishedAt := clock s2 (ticks s2);
                       platform := "weixin";
                       article_link :=
                         "https://mp.weixin.qq.com/s/" +:+ json_str (media_id d) |},
                 tick s2)
            end
          else
            (Ok {| publishId := media_id d;
                   draftId := None;
                   publish_state := "draft";
                   publishedAt := clock s1 (ticks s1);
                   platform := "weixin";
                   article_link := "https://mp.weixin.qq.com/s/" +:+ json_str (media_id d) |},
             tick s1)
      end
  end.
Proof.
  unfold publish, direct_mode, logged, try_except, bind at 1, lift.
  destruct (_preprocess_article L (PyStr article)) as [normal|e]; [|reflexivity].
  unfold bind at 1, config_get, gets. unfold bind at 1.
  destruct (upload_draft L K normal title digest thumb s) as [[d|e] s1];
    [|reflexivity].
  destruct (wants_direct_publish (default "" (env s !! "DIRECT_PUBLISH"))).
  - unfold bind at 1.
    destruct (direct_publish L (json_str (media_id d)) s1) as [[job|e] s2]; reflexivity.
  - reflexivity.
Qed.





(** An article whose reference of 4301 digits is itself escaped passes
    the normalisation of [publish] and makes that of [upload_draft]
    raise. *)
Lemma publish_escaped_reference :
  let article := txt "&amp;#" ++ repeat 57 4301 ++ [59] in
  _preprocess_article Example.lib (PyStr article) = Ok Example.long_reference /\
  fst (publish Example.lib Example.plain_markup article (txt "T") (txt "D")
         (JStr "MEDIA-1")
         (Example.publisher (Some Example.good_token) [Example.image_stored]))
  = Raise (Html.digits_error 4300 4301).
Proof.
  cbv zeta.
  assert (Hnormal : _preprocess_article Example.lib
                      (PyStr (txt "&amp;#" ++ repeat 57 4301 ++ [59]))
                    = Ok Example.long_reference) by (vm_compute; reflexivity).
  split; [exact Hnormal|].
  rewrite publish_run, Hnormal. rewrite ApiFacts.draft_long_reference. reflexivity.
Qed.

End PublishExtras.

(** ** The whitelist check *)
Module WhitelistExtras.
Import WXPublisher WXPublish TokenSpec UploadSpec.

Lemma after_prefix_app (p s rest : string) :
  after_prefix p s = Some rest -> s = p +:+ rest.
Proof.
  revert s. induction p as [|a p IH]; intros s; cbn.
  - intros [= ->]. reflexivity.
  - destruct s as [|b s]; [discriminate|].
    case_bool_decide as Hab; [|discriminate]. subst b.
    intros Hrest. rewrite (IH s Hrest). reflexivity.
Qed.

Lemma nonspace_run_split (s : string) :
  exists post,
    s = nonspace_run s +:+ post /\ spaceless (nonspace_run s) /\ at_boundary post.
Proof.
  induction s as [|c s (post & Hs & Hrun & Hpost)]; cbn.
  - exists "". split_and!; [reflexivity|constructor|left; reflexivity].
  - case_bool_decide as Hc.
    + subst c. exists (String " " s).
      split_and!; [reflexivity|constructor|right; eauto].
    + exists post. split_and!; [exact (f_equal (String c) Hs)| |exact Hpost].
      constructor; assumption.
Qed.

Lemma search_invalid_ip_eq (s : string) :
  search_invalid_ip s =
  match
    match after_prefix "invalid ip " s with
    | Some rest => match nonspace_run rest with
                   | EmptyString => None
                   | ip => Some ip
                   end
    | None => None
    end, s
  with
  | Some ip, _ => Some ip
  | None, EmptyString => None
  | None, String _ rest => search_invalid_ip rest
  end.
Proof. destruct s; reflexivity. Qed.

(** What the regular expression of line 689 captures. *)
Lemma search_invalid_ip_sound (s ip : string) :
  search_invalid_ip s = Some ip ->
  exists pre post,
    s = pre +:+ "invalid ip " +:+ ip +:+ post /\
    ip <> "" /\ spaceless ip /\ at_boundary post.
Proof.
  induction s as [|c s IH]; rewrite search_invalid_ip_eq.
  - cbn. discriminate.
  - destruct (after_prefix "invalid ip " (String c s)) as [rest|] eqn:Hprefix.
    + destruct (nonspace_run_split rest) as (post & Hrest & Hrun & Hpost).
      destruct (nonspace_run rest) as [|c' run] eqn:Hip.
      * intros Hs. destruct (IH Hs) as (pre & post' & -> & H).
        exists (String c pre), post'. split; [reflexivity|exact H].
      * intros [= <-]. exists "", post.
        split_and!; [|discriminate|exact Hrun|exact Hpost].
        rewrite (after_prefix_app _ _ _ Hprefix), Hrest. reflexivity.
    + intros Hs. destruct (IH Hs) as (pre & post' & -> & H).
      exists (String c pre), post'. split; [reflexivity|exact H].
Qed.

(** X14: [validate_ip_whitelist] returns [True] whenever a token is to
    be had, so with a fresh token cached it makes no request at all.
    When the token step raises, the exception is raised again unless its
    text contains [40164]; if it does, what is returned is the text
    [未知IP] or else a non-empty run of characters without a space that
    follows [invalid ip ] in the text of the exception and reaches to the
    next space or to the end of that text. *)
Theorem X14_validate_ip_whitelist (L : pylib) (s : state) :
  (forall tok s1, ensure_access_token L s = (Ok tok, s1) ->
     validate_ip_whitelist L s = (Ok Whitelisted, s1)) /\
  (forall tk, sane s -> fresh s tk ->
     validate_ip_whitelist L s = (Ok Whitelisted, tick s) /\ sent (tick s) = sent s) /\
  (forall e s1, ensure_access_token L s = (Raise e, s1) ->
     (BinancePublisher.contains "40164" (exn_str e) = false ->
      validate_ip_whitelist L s = (Raise e, s1)) /\
     (BinancePublisher.contains "40164" (exn_str e) = true ->
      exists ip,
        validate_ip_whitelist L s = (Ok (Offending ip), s1) /\
        (ip = "未知IP" \/
         exists pre post,
           exn_str e = pre +:+ "invalid ip " +:+ ip +:+ post /\
           ip <> "" /\ spaceless ip /\ at_boundary post))).
Proof.
  split_and!.
  - intros tok s1 Hens. unfold validate_ip_whitelist, try_except, bind.
    rewrite Hens. reflexivity.
  - intros tk Hsane Hfresh. unfold validate_ip_whitelist, try_except, bind.
    rewrite (TokenFacts.ensure_fresh L s tk Hsane Hfresh). split; reflexivity.
  - intros e s1 Hens. unfold validate_ip_whitelist, try_except, bind.
    rewrite Hens. split; intros Hcode; rewrite Hcode; [reflexivity|].
    destruct (search_invalid_ip (exn_str e)) as [ip|] eqn:Hsearch.
    + exists ip. split; [reflexivity|]. right.
      exact (search_invalid_ip_sound _ _ Hsearch).
    + exists "未知IP". split; [reflexivity|]. left. reflexivity.
Qed.

Lemma X14_validate_ip_whitelist_witness :
  fst (validate_ip_whitelist Sample.lib (Example.publisher None [Sample.ip_refused]))
  = Ok (Offending "203.0.113.7").
Proof.
  destruct (ensure_access_token Sample.lib (Example.publisher None [Sample.ip_refused]))
    as [[tok|e] s1] eqn:Hens; [vm_compute in Hens; discriminate|].
  destruct (X14_validate_ip_whitelist Sample.lib
              (Example.publisher None [Sample.ip_refused])) as (_ & _ & H).
  destruct (H e s1 Hens) as [_ Hip].
  vm_compute in Hens. injection Hens as <- <-.
  destruct Hip as (ip & Hrun & _); [vm_compute; reflexivity|].
  rewrite Hrun. vm_compute in Hrun. injection Hrun as <-. reflexivity.
Defined.

End WhitelistExtras.

(** ** Pushing the recommendation to the official account *)
Module RecommendationExtras.
Import WXPublisher WXPublish TokenSpec UploadSpec.

Lemma grows_ret {A} (a : A) : grows (ret a).
Proof. intros s. exists []. cbn. rewrite app_nil_r. reflexivity. Qed.

Lemma grows_throw {A} (e : exn) : grows (@throw state exn A e).
Proof. intros s. exists []. cbn. rewrite app_nil_r. reflexivity. Qed.

Lemma grows_lift {A} (r : res exn A) : grows (lift r).
Proof. intros s. exists []. cbn. rewrite app_nil_r. reflexivity. Qed.

Lemma grows_gets {A} (f : state -> A) : grows (gets f).
Proof. intros s. exists []. cbn. rewrite app_nil_r. reflexivity. Qed.

Lemma grows_now : grows now.
Proof. intros s. exists []. cbn. rewrite app_nil_r. reflexivity. Qed.

Lemma grows_send (rq : request) : grows (send rq).
Proof. intros s. exists [rq]. unfold send. destruct (next_reply s); reflexivity. Qed.

Lemma grows_ensure (L : pylib) : grows (ensure_access_token L).
Proof. intros s. apply ApiFacts.ensure_sent_grows. Qed.

Lemma grows_bind {A B} (m : M state exn A) (k : A -> M state exn B) :
  grows m -> (forall a, grows (k a)) -> grows (bind m k).
Proof.
  intros Hm Hk s. unfold bind. destruct (Hm s) as [e1 H1].
  destruct (m s) as [[a|e] s1]; cbn [snd] in *; [|exists e1; exact H1].
  destruct (Hk a s1) as [e2 H2]. exists (e1 ++ e2). rewrite H2, H1, app_assoc. reflexivity.
Qed.

Lemma grows_try_except {A} (m : M state exn A) (h : exn -> M state exn A) :
  grows m -> (forall e, grows (h e)) -> grows (try_except m h).
Proof.
  intros Hm Hh s. unfold try_except. destruct (Hm s) as [e1 H1].
  destruct (m s) as [[a|e] s1]; cbn [snd] in *; [exists e1; exact H1|].
  destruct (Hh e s1) as [e2 H2]. exists (e1 ++ e2). rewrite H2, H1, app_assoc. reflexivity.
Qed.

Ltac grows_step :=
  first
    [ apply grows_ret | apply grows_throw | apply grows_lift | apply grows_gets
    | apply grows_now | apply grows_send | apply grows_ensure
    | apply grows_bind; [|intros ?]
    | apply grows_try_except; [|intros ?]
    | match goal with
      | |- grows (if ?b then _ else _) => destruct b
      end ].

Lemma grows_upload_draft (L : pylib) (K : markup) (article title digest : text)
    (thumb : json) :
  grows (upload_draft L K article title digest thumb).
Proof.
  unfold upload_draft, draft_articles, render, config_get, logged, post_json.
  repeat grows_step.
Qed.

Lemma grows_direct_publish (L : pylib) (draft_media_id : string) :
  grows (direct_publish L draft_media_id).
Proof. unfold direct_publish, logged, post_json. repeat grows_step. Qed.

Lemma grows_publish (L : pylib) (K : markup) (article title digest : text) (thumb : json) :
  grows (publish L K article title digest thumb).
Proof.
  unfold publish, logged, config_get.
  repeat first [ apply grows_upload_draft | apply grows_direct_publish | grows_step ].
Qed.

(** The image is requested before anything else. *)
Lemma upload_image_first (L : pylib) (image_url : string) (s : state) :
  image_url <> "" ->
  exists rest, sent (snd (upload_image L (Some image_url) s)) = sent s ++ Get image_url :: rest.
Proof.
  intros Hurl. destruct image_url as [|c u]; [contradiction|].
  unfold upload_image.
  assert (Hrest : grows
            (token <- ensure_access_token L ;;
             logged
               (answer <- send (Post (material_url token)) ;;
                response <- lift (json_of (snd answer)) ;;
                if bool_decide (is_Some (response !! "errcode")) then
                  errmsg <- lift (getitem response "errmsg") ;;
                  throw (Exception ("上传图片失败: " +:+ json_str errmsg))
                else lift (getitem response "media_id")))%py).
  { unfold logged. repeat grows_step. }
  unfold bind at 1, send at 1.
  destruct (next_reply s) as [e|enc b]; [exists []; reflexivity|].
  destruct (Hrest (record_request (Get (String c u)) s)) as [ext Hext].
  exists ext. cbv zeta in Hext. rewrite Hext. cbn [sent record_request].
  rewrite <- app_assoc. reflexivity.
Qed.

(** What [push_recommendation] does with a file that was read and whose
    content is not empty. *)
Lemma article_recommendation_run (L : pylib) (K : markup)
    (data : gmap string RecommendationFile.scalar) (s : state) :
  RecommendationFile.scalar_truthy
    (default (RecommendationFile.SStr []) (data !! "recommendation")) = true ->
  push_recommendation L K (Loaded data) s =
  match normalised_fields L data with
  | Raise e => (Ok (PushError ("推送投资建议失败: " +:+ exn_str e)), s)
  | Ok (content, title, digest) =>
      match upload_image L (Some cover_image_url) s with
      | (Raise e, s1) => (Ok (PushError ("推送投资建议失败: " +:+ exn_str e)), s1)
      | (Ok thumb, s1) =>
          match publish L K content title digest thumb s1 with
          | (Raise e, s2) => (Ok (PushError ("推送投资建议失败: " +:+ exn_str e)), s2)
          | (Ok r, s2) => (Ok (PushDone r), s2)
          end
      end
  end.
Proof.
  intros Hcontent. unfold push_recommendation, try_except, normalised_fields.
  rewrite Hcontent. cbn [negb]. unfold bind at 1, lift at 1.
  destruct (preprocess_value L (default _ (data !! "recommendation"))) as [content|e];
    [|reflexivity].
  cbn [res_bind]. unfold bind at 1, lift at 1.
  destruct (preprocess_value L (default _ (data !! "title"))) as [title|e];
    [|reflexivity].
  cbn [res_bind]. unfold bind at 1, lift at 1.
  destruct (preprocess_value L (default _ (data !! "digest"))) as [digest|e];
    [|reflexivity].
  cbn [res_bind]. unfold bind at 1.
  destruct (upload_image L (Some cover_image_url) s) as [[thumb|e] s1]; [|reflexivity].
  unfold bind at 1.
  destruct (publish L K content title digest thumb s1) as [[r|e] s2]; reflexivity.
Qed.

(** X15: [push_recommendation] of WXPublisher.py never raises.  The
    [image_url] of the file plays no part: the cover that is uploaded is
    the one written into the code.  Content that is missing or falsy (the
    empty string, [null], [false], [0]) gives the error result without any
    request.  With any other content the three texts are normalised first:
    when one of these normalisations raises, the error result carries its
    exception and nothing is requested; otherwise the first request
    fetches that cover image.  The dictionary of [publish] is returned
    only when the cover was uploaded and [publish], given the normalised
    texts and the media id of the cover, returned it. *)
Theorem X15_push_recommendation (L : pylib) (K : markup) (file : recommendation_file)
    (s : state) :
  (exists r s', push_recommendation L K file s = (Ok r, s')) /\
  (forall data v,
     push_recommendation L K (Loaded (<["image_url" := v]> data)) s
     = push_recommendation L K (Loaded data) s) /\
  (forall data,
     RecommendationFile.scalar_truthy
       (default (RecommendationFile.SStr []) (data !! "recommendation")) = false ->
     push_recommendation L K (Loaded data) s = (Ok (PushError "投资建议内容为空"), s)) /\
  (forall data e,
     RecommendationFile.scalar_truthy
       (default (RecommendationFile.SStr []) (data !! "recommendation")) = true ->
     normalised_fields L data = Raise e ->
     push_recommendation L K (Loaded data) s
       = (Ok (PushError ("推送投资建议失败: " +:+ exn_str e)), s)) /\
  (forall data fields,
     RecommendationFile.scalar_truthy
       (default (RecommendationFile.SStr []) (data !! "recommendation")) = true ->
     normalised_fields L data = Ok fields ->
     exists rest,
       sent (snd (push_recommendation L K (Loaded data) s))
       = sent s ++ Get cover_image_url :: rest) /\
  (forall r s',
     push_recommendation L K file s = (Ok (PushDone r), s') ->
     exists data thumb s1 article title digest,
       file = Loaded data /\
       RecommendationFile.scalar_truthy
         (default (RecommendationFile.SStr []) (data !! "recommendation")) = true /\
       normalised_fields L data = Ok (article, title, digest) /\
       upload_image L (Some cover_image_url) s = (Ok thumb, s1) /\
       publish L K article title digest thumb s1 = (Ok r, s')).
Proof.
  split_and!.
  - unfold push_recommendation, try_except.
    match goal with |- context [match ?m s with _ => _ end] => destruct (m s) as [[r|e] s'] end;
      eauto.
  - intros data v. unfold push_recommendation.
    rewrite !lookup_insert_ne by discriminate. reflexivity.
  - intros data Hcontent. unfold push_recommendation, try_except.
    rewrite Hcontent. reflexivity.
  - intros data e Hcontent Hfields.
    rewrite (article_recommendation_run L K data s Hcontent), Hfields. reflexivity.
  - intros data [[content title] digest] Hcontent Hfields.
    rewrite (article_recommendation_run L K data s Hcontent), Hfields.
    destruct (upload_image_first L cover_image_url s) as [rest Hrest]; [discriminate|].
    destruct (upload_image L (Some cover_image_url) s) as [[thumb|e] s1];
      cbn [snd] in Hrest; [|exists rest; exact Hrest].
    destruct (grows_publish L K content title digest thumb s1) as [ext Hext].
    destruct (publish L K content title digest thumb s1) as [[r|e] s2]; cbn [snd] in *;
      exists (rest ++ ext); rewrite Hext, Hrest, <- app_assoc; reflexivity.
  - intros r s'.
    destruct file as [| |e|data]; try (unfold push_recommendation, try_except, ret, throw;
                                       discriminate).
    destruct (RecommendationFile.scalar_truthy
                (default (RecommendationFile.SStr []) (data !! "recommendation")))
      eqn:Hcontent.
    2: { unfold push_recommendation, try_except. rewrite Hcontent. discriminate. }
    rewrite (article_recommendation_run L K data s Hcontent).
    destruct (normalised_fields L data) as [[[content title] digest]|e] eqn:Hfields;
      [|discriminate].
    destruct (upload_image L (Some cover_image_url) s) as [[thumb|e] s1] eqn:Himage;
      [|discriminate].
    destruct (publish L K content title digest thumb s1) as [[r'|e] s2] eqn:Hpublish;
      [|discriminate].
    intros [= <- <-]. exists data, thumb, s1, content, title, digest.
    split_and!; auto.
Qed.

Lemma X15_push_recommendation_witness :
  sent (snd (push_recommendation Example.lib Example.plain_markup
               (Loaded {[ "recommendation" := RecommendationFile.SStr (txt "Hold.");
                          "image_url" := RecommendationFile.SStr (txt "http://x/own.png") ]})
               (Example.publisher (Some Example.good_token) [])))
  = [Get cover_image_url].
Proof.
  destruct (X15_push_recommendation Example.lib Example.plain_markup FileNotFound
              (Example.publisher (Some Example.good_token) []))
    as (_ & _ & _ & _ & H & _).
  destruct (H {[ "recommendation" := RecommendationFile.SStr (txt "Hold.");
                 "image_url" := RecommendationFile.SStr (txt "http://x/own.png") ]}
              (txt "Hold.", default_title, default_title))
    as [rest Hrest]; [vm_compute; reflexivity..|].
  rewrite Hrest. vm_compute in Hrest. injection Hrest as <-. reflexivity.
Defined.

(** A recommendation with a decimal reference of 4301 digits: the error
    result, and no request. *)
Lemma recommendation_long_reference :
  push_recommendation Example.lib Example.plain_markup
    (Loaded {[ "recommendation" := RecommendationFile.SStr Example.long_reference ]})
    (Example.publisher (Some Example.good_token) [])
  = (Ok (PushError ("推送投资建议失败: " +:+ exn_str (Html.digits_error 4300 4301))),
     Example.publisher (Some Example.good_token) []).
Proof.
  rewrite article_recommendation_run by reflexivity.
  assert (Hfields : normalised_fields Example.lib
                      {[ "recommendation" := RecommendationFile.SStr Example.long_reference ]}
                    = Raise (Html.digits_error 4300 4301)) by (vm_compute; reflexivity).
  rewrite Hfields. reflexivity.
Qed.

End RecommendationExtras.

(** ** Error answers without a message *)
Module ErrorReplyExtras.
Import WXPublisher WXPublish TokenSpec.



End ErrorReplyExtras.

(** ** Pushing the recommendation to Binance Square *)
Module BinanceRecommendationExtras.
Import Text BinancePublisher RecommendationFile BinanceRecommendation TraceSpec Spec.

(** Once the content is normalised, [push_to_binance] returns. *)
Lemma push_total (L : pylib) (w : world) (content : pyval) (y : text) (s : session) :
  _preprocess_content L content = Ok y ->
  exists r s', push_to_binance L w content s = (Ok r, s').
Proof.
  intros Hy.
  unfold push_to_binance, bind at 1, lift. rewrite Hy. unfold try_except.
  match goal with
  | |- context [match ?m s with _ => _ end] => destruct (m s) as [[r|e] s']
  end; unfold ret; eauto.
Qed.

Lemma pretty_N_go_nonempty (x : N) (s : string) : s <> "" -> pretty_N_go x s <> "".
Proof.
  revert s. induction (N.lt_wf_0 x) as [x _ IH]; intros s Hs.
  destruct (decide (0 < x)%N) as [Hx|Hx].
  - rewrite pretty_N_go_step by exact Hx. apply IH; [|discriminate].
    apply N.div_lt; lia.
  - assert (x = 0%N) as -> by lia. rewrite pretty_N_go_0. exact Hs.
Qed.

Lemma pretty_N_nonempty (x : N) : pretty x <> "".
Proof.
  unfold pretty, pretty_N. destruct (decide (x = 0%N)); [discriminate|].
  rewrite pretty_N_go_step by lia. apply pretty_N_go_nonempty. discriminate.
Qed.

Lemma pretty_Z_nonempty (z : Z) : pretty z <> "".
Proof.
  unfold pretty, pretty_Z. destruct z as [|p|p]; [discriminate| |discriminate].
  apply pretty_N_nonempty.
Qed.

Lemma txt_nonempty (s : string) : s <> "" -> txt s <> [].
Proof. destruct s; [contradiction|discriminate]. Qed.

(** What is not a string is never empty once rendered. *)
Lemma scalar_str_nonempty (v : scalar) : (forall x, v <> SStr x) -> scalar_str v <> [].
Proof.
  intros Hv. destruct v as [|[|]|z|x]; try discriminate.
  - apply txt_nonempty, pretty_Z_nonempty.
  - destruct (Hv x eq_refl).
Qed.

(** What [push_recommendation] does with a recommendation that is not
    empty: it normalises the text, and [push_to_binance] normalises the
    result once more before its [try]; an exception of either
    normalisation ends in the error result, before any call. *)
Lemma push_recommendation_run (L : pylib) (w : world) (v : scalar) (s : session) :
  scalar_str v <> [] ->
  push_recommendation L w (Recommendation (Some v)) s
  = match _preprocess_content L (PyStr (scalar_str v)) with
    | Raise e => (Ok (push_failed e), s)
    | Ok once =>
        match _preprocess_content L (PyStr once) with
        | Raise e => (Ok (push_failed e), s)
        | Ok _ => push_to_binance L w (PyStr once) s
        end
    end.
Proof.
  intros Hv. unfold push_recommendation, try_except.
  rewrite bool_decide_eq_false_2 by exact Hv.
  unfold bind at 1, lift.
  destruct (_preprocess_content L (PyStr (scalar_str v))) as [once|e]; [|reflexivity].
  destruct (_preprocess_content L (PyStr once)) as [twice|e] eqn:Htwice.
  - destruct (push_total L w (PyStr once) twice s Htwice) as (r & s' & Hrun).
    rewrite Hrun. reflexivity.
  - unfold push_to_binance, bind, lift. rewrite Htwice. reflexivity.
Qed.

(** X8: [push_recommendation] of BinancePublisher.py never raises.  It
    touches the browser only when the file holds a recommendation that is
    not empty; the text is then normalised by [push_recommendation] and
    once more by [push_to_binance]: when either normalisation raises, the
    error result carries the exception and nothing is called; otherwise
    [push_recommendation] does what [push_to_binance] does on the
    normalised text, its result included.  A recommendation that is not a
    string is never empty: [null], [false] and [0] are pushed as the texts
    [None], [False] and [0]. *)
Theorem X8_binance_recommendation (L : pylib) (w : world)
    (file : recommendation_file) (s : session) :
  (exists r s', push_recommendation L w file s = (Ok r, s')) /\
  (trace (snd (push_recommendation L w file s)) <> trace s ->
   exists v once twice,
     file = Recommendation (Some v) /\ scalar_str v <> [] /\
     _preprocess_content L (PyStr (scalar_str v)) = Ok once /\
     _preprocess_content L (PyStr once) = Ok twice) /\
  (forall v, scalar_str v <> [] ->
     push_recommendation L w (Recommendation (Some v)) s
     = match _preprocess_content L (PyStr (scalar_str v)) with
       | Raise e => (Ok (push_failed e), s)
       | Ok once =>
           match _preprocess_content L (PyStr once) with
           | Raise e => (Ok (push_failed e), s)
           | Ok _ => push_to_binance L w (PyStr once) s
           end
       end) /\
  (forall v, (forall x, v <> SStr x) -> scalar_str v <> []).
Proof.
  split_and!.
  - unfold push_recommendation, try_except.
    match goal with
    | |- context [match ?m s with _ => _ end] => destruct (m s) as [[r|e] s']
    end; unfold ret; eauto.
  - destruct file as [| |e|[v|]]; try (intros H; destruct (H eq_refl)).
    destruct (decide (scalar_str v = [])) as [Hv|Hv].
    { unfold push_recommendation, try_except.
      rewrite bool_decide_eq_true_2 by exact Hv. intros H; destruct (H eq_refl). }
    rewrite (push_recommendation_run L w v s Hv).
    destruct (_preprocess_content L (PyStr (scalar_str v))) as [once|e] eqn:Honce;
      [|intros H; destruct (H eq_refl)].
    destruct (_preprocess_content L (PyStr once)) as [twice|e] eqn:Htwice;
      [|intros H; destruct (H eq_refl)].
    intros _. exists v, once, twice. auto.
  - intros v. apply push_recommendation_run.
  - apply scalar_str_nonempty.
Qed.

Lemma X8_binance_recommendation_witness :
  fst (push_recommendation Example.lib Example.world_fine (Recommendation (Some SNull)) start)
  = Ok pushed /\
  In (SetContent (txt "None"))
     (trace (snd (push_recommendation Example.lib Example.world_fine
                    (Recommendation (Some SNull)) start))).
Proof.
  destruct (X8_binance_recommendation Example.lib Example.world_fine
              (Recommendation (Some SNull)) start) as (_ & _ & Hrun & Hv).
  rewrite (Hrun SNull (Hv SNull ltac:(discriminate))).
  split; [vm_compute; reflexivity|].
  vm_compute. repeat first [left; reflexivity | right].
Defined.

(** A recommendation whose reference of 4301 digits is itself escaped
    passes the first normalisation and fails the second: the error result,
    and no call. *)
Lemma recommendation_escaped_reference :
  push_recommendation Example.lib Example.world_fine
    (Recommendation (Some (SStr (txt "&amp;#" ++ repeat 57 4301 ++ [59])))) start
  = (Ok (push_failed (Html.digits_error 4300 4301)), start).
Proof.
  rewrite push_recommendation_run by discriminate.
  assert (Honce : _preprocess_content Example.lib
                    (PyStr (scalar_str (SStr (txt "&amp;#" ++ repeat 57 4301 ++ [59]))))
                  = Ok Example.long_reference) by (vm_compute; reflexivity).
  rewrite Honce. destruct NormaliserFacts.long_reference_raises as [-> _]. reflexivity.
Qed.

(** X9: the recommendation is normalised twice, once by
    [push_recommendation] and once more by [push_to_binance].  When both
    normalisations return and every step of the attempt succeeds, the text
    put into the editor is the recommendation un-escaped and filtered two
    times over; on a recommendation without an ampersand both
    normalisations return and that is the text filtered once. *)
Theorem X9_recommendation_normalised_twice (L : pylib) (w : world) (v : scalar)
    (once twice : text) :
  scalar_str v <> [] ->
  all_steps_ok w ->
  _preprocess_content L (PyStr (scalar_str v)) = Ok once ->
  _preprocess_content L (PyStr once) = Ok twice ->
  fst (push_recommendation L w (Recommendation (Some v)) start) = Ok pushed /\
  trace (snd (push_recommendation L w (Recommendation (Some v)) start))
  = trace (snd (resolve_conflict w start)) ++ success_calls w twice /\
  (exists u1 u2,
     Html.unescape L (scalar_str v) = Ok u1 /\ once = filter kept u1 /\
     Html.unescape L once = Ok u2 /\ twice = filter kept u2) /\
  (ampersand_free (scalar_str v) ->
   once = filter kept (scalar_str v) /\ twice = filter kept (scalar_str v)).
Proof.
  intros Hv Hall Honce Htwice.
  rewrite (push_recommendation_run L w v start Hv), Honce, Htwice.
  destruct (AttemptExtras.push_run L w (PyStr once) twice Htwice Hall)
    as (s & Hrun & Htrace).
  rewrite Hrun.
  rewrite NormaliserFacts.preprocess_content_str in Honce, Htwice.
  unfold normalized in Honce, Htwice.
  split_and!; [reflexivity|exact Htrace| |].
  - destruct (Html.unescape L (scalar_str v)) as [u1|]; [|discriminate].
    destruct (Html.unescape L once) as [u2|]; [|discriminate].
    injection Honce as <-. injection Htwice as <-. exists u1, u2. auto.
  - intros Hplain.
    rewrite (NormaliserFacts.unescape_ampersand_free L _ Hplain) in Honce.
    injection Honce as <-.
    rewrite (NormaliserFacts.unescape_ampersand_free L _
               (NormaliserFacts.filter_kept_ampersand_free _ Hplain)) in Htwice.
    injection Htwice as <-.
    split; [reflexivity|]. apply NormaliserFacts.filter_kept_idem.
Qed.

Lemma X9_recommendation_normalised_twice_witness :
  trace (snd (push_recommendation Example.lib Example.world_fine
                (Recommendation (Some (SStr (txt "&amp;lt;b&amp;gt;")))) start))
  = trace (snd (resolve_conflict Example.world_fine start))
    ++ success_calls Example.world_fine (txt "<b>").
Proof.
  destruct (X9_recommendation_normalised_twice Example.lib Example.world_fine
              (SStr (txt "&amp;lt;b&amp;gt;")) (txt "&lt;b&gt;") (txt "<b>"))
    as (_ & Htrace & _).
  - discriminate.
  - unfold all_steps_ok, composed.
    split_and!; try (vm_compute; reflexivity). left. reflexivity.
  - vm_compute. reflexivity.
  - vm_compute. reflexivity.
  - exact Htrace.
Defined.

End BinanceRecommendationExtras.
